(** * ResuMatch: the ranking-and-summarization pipeline

    A shallow embedding of

    - [Backend/services/summarizer.py]  ([call_deepseek_api_async],
      [summarize_item]),
    - [Summarizer.py]                   ([call_deepseek_api],
      [summarize_description_bullets]),
    - [Backend/routes/resume.py]        ([rank_and_summarize_resume_items],
      [create_resume]),
    - [Summarizer.py]                   ([main]),
    - [Backend/db/database.py]          ([DatabaseClient]),

    together with the properties the specification states about them and
    further properties of the same code.

    Modelling conventions.

    - A Python [str] is the list of its Unicode code points ([pystr]);
      ASCII literals of the source are written [lit "..."].
    - A résumé item is a Python [dict] with string keys: a [gmap string value].
    - A Python [float] score is a canonical rational ([Qc]): finite floats
      are rationals, and only the order and equality of scores are used.
      NaN does not occur: cosine similarity of finite embeddings is finite.
    - The external services (text-generation endpoint, sentence embedder,
      database) are oracles; the calls made to them are recorded in an
      event trace, so that "no call is made" is a statement about a trace.
    - An exception is an explicit [Raise] result. *)

From Stdlib Require Import NArith ZArith QArith Qcanon Ascii String.
From Stdlib Require Import Permutation Sorted.
From Stdlib Require Import Decimal DecimalString.
From stdpp Require Import base option list strings gmap.

(** ** Python strings *)

Abbreviation pystr := (list N).

(** An ASCII literal of the source, as code points. *)
Definition lit (s : string) : pystr :=
  (fun a => Ascii.N_of_ascii a) <$> String.list_ascii_of_string s.

(** [str.isspace] on one character, the whitespace set used by
    [str.strip()] with no argument. *)
Definition isspace (c : N) : bool :=
  (((9 <=? c) && (c <=? 13)) || ((28 <=? c) && (c <=? 32))
   || (c =? 133) || (c =? 160) || (c =? 5760)
   || ((8192 <=? c) && (c <=? 8202))
   || (c =? 8232) || (c =? 8233) || (c =? 8239) || (c =? 8287)
   || (c =? 12288))%N.

Fixpoint dropwhile (p : N -> bool) (s : pystr) : pystr :=
  match s with
  | [] => []
  | c :: r => if p c then dropwhile p r else s
  end.

(** [s.lstrip(chars)] *)
Definition lstrip (chars : pystr) (s : pystr) : pystr :=
  dropwhile (fun c => bool_decide (c ∈ chars)) s.

(** [s.strip()] *)
Definition strip (s : pystr) : pystr :=
  rev (dropwhile isspace (rev (dropwhile isspace s))).

(** [s.split(sep)] for a one-character separator. *)
Fixpoint split (sep : N) (s : pystr) : list pystr :=
  match s with
  | [] => [[]]
  | c :: r =>
      if (c =? sep)%N then [] :: split sep r
      else match split sep r with
           | [] => [[c]]
           | l :: ls => (c :: l) :: ls
           end
  end.

(** [sep.join(parts)] *)
Fixpoint join (sep : pystr) (parts : list pystr) : pystr :=
  match parts with
  | [] => []
  | [x] => x
  | x :: r => x ++ sep ++ join sep r
  end.

Definition LF : N := 10%N.

(** The glyphs of ['•*-–—']: bullet, asterisk, hyphen, en dash, em dash. *)
Definition bullet_glyphs : pystr := [8226; 42; 45; 8211; 8212]%N.

(** The list comprehension of [summarizer.py] lines 107-109:
[[
   [line.strip().lstrip('•*-–—').strip()
    for line in raw_summary.split('\n')
    if line.strip()]
]] *)
Fixpoint bullet_comprehension (lines : list pystr) : list pystr :=
  match lines with
  | [] => []
  | line :: rest =>
      match strip line with
      | [] => bullet_comprehension rest
      | _ :: _ => strip (lstrip bullet_glyphs (strip line)) :: bullet_comprehension rest
      end
  end.

(** Lines 104-109: [raw_summary = response["content"].strip()], then the
    comprehension. *)
Definition parse_bullet_lines (content : pystr) : list pystr :=
  let raw_summary := strip content in
  bullet_comprehension (split LF raw_summary).

(** The parser in the words of the specification, to be compared with
    [parse_bullet_lines]: "split the returned text on line breaks, strip
    each line, strip any leading bullet glyphs and surrounding whitespace,
    discard empty lines". *)
Definition spec_parse_bullet_lines (content : pystr) : list pystr :=
  filter (fun bullet => bullet <> [])
         ((fun line => strip (lstrip bullet_glyphs (strip line))) <$> split LF content).

(** ** Values and dictionaries *)

#[global] Instance Qc_eq_decision : EqDecision Qc := Qc_eq_dec.

(** The values a stored résumé item holds: strings, lists of strings
    (the bullets), floats (the score) and [None]. *)
Inductive value :=
| VStr (s : pystr)
| VList (l : list pystr)
| VFloat (x : Qc)
| VNone.

#[global] Instance value_eq_decision : EqDecision value.
Proof. solve_decision. Defined.

(** A résumé item as the code handles it: a [dict] with string keys. *)
Abbreviation item := (gmap string value).

(** [d.get(key, dflt)] *)
Definition get (d : item) (key : string) (dflt : value) : value :=
  default dflt (d !! key).

(** Python truth value, as tested by [if not description_bullets]. *)
Definition truthy (v : value) : bool :=
  match v with
  | VStr s => negb (bool_decide (s = []))
  | VList l => negb (bool_decide (l = []))
  | VFloat x => negb (bool_decide (x = Q2Qc 0))
  | VNone => false
  end.

(** Exceptions. [ExternalError] stands for whatever the endpoint call, or
    the unpacking of its response, raises, and for what the database
    client raises when the database cannot be reached. *)
Inductive exn :=
| ExternalError (detail : pystr)
| ClientNotInitialized
| TypeError
| AttributeError
| KeyError
| ValidationError.

Inductive result (A : Type) :=
| Return (a : A)
| Raise (e : exn).
Arguments Return {A} a.
Arguments Raise {A} e.

(** [sep.join(v)]: a list of strings is joined, a string is joined
    character by character, anything else is a [TypeError]. *)
Definition join_value (sep : pystr) (v : value) : result pystr :=
  match v with
  | VList l => Return (join sep l)
  | VStr s => Return (join sep ((fun c => [c]) <$> s))
  | VFloat _ | VNone => Raise TypeError
  end.

(** ** The text-generation endpoint *)

Record chat_request := {
  req_model : pystr;
  req_messages : list (pystr * pystr);   (* role, content *)
  req_temperature : Qc;
  req_max_tokens : Z;
  req_stream : bool
}.

(** What [client.chat.completions.create] hands back, as far as the code
    reads it: [choices[0].message.content] (possibly [None]) and the
    token counts. *)
Record completion := {
  message_content : option pystr;
  prompt_tokens : N;
  completion_tokens : N;
  total_tokens : N
}.

(** The outcome of the [try] body of one attempt. *)
Inductive api_outcome :=
| Completed (c : completion)
| Failed (e : exn).

(** The endpoint as seen by one caller: the outcome of its [k]-th call. *)
Abbreviation endpoint := (nat -> api_outcome).

Inductive log_level := INFO | WARNING | ERROR.

Inductive event :=
| Create (req : chat_request)     (* one request sent to the endpoint *)
| Sleep (seconds : N)             (* [asyncio.sleep] / [time.sleep] *)
| Log (level : log_level).

(** The dictionary returned by the API wrappers. *)
Record response := {
  content : option pystr;
  usage_prompt_tokens : N;
  usage_completion_tokens : N;
  usage_total_tokens : N
}.

Definition response_of (c : completion) : response :=
  {| content := message_content c;
     usage_prompt_tokens := prompt_tokens c;
     usage_completion_tokens := completion_tokens c;
     usage_total_tokens := total_tokens c |}.

Definition max_retries : nat := 3.

Definition deepseek_chat : pystr := lit "deepseek-chat".

Definition make_request (model : pystr) (messages : list (pystr * pystr)) : chat_request :=
  {| req_model := model;
     req_messages := messages;
     req_temperature := Q2Qc (7 # 10);
     req_max_tokens := 512;
     req_stream := false |}.

(** [summarizer.py] lines 39-62, [for attempt in range(max_retries)].
    Falling off the end of the loop would return [None]. *)
Fixpoint retry_async (create : endpoint) (req : chat_request) (attempts : list nat)
  : result (option response) * list event :=
  match attempts with
  | [] => (Return None, [])
  | attempt :: rest =>
      match create attempt with
      | Completed c => (Return (Some (response_of c)), [Create req])
      | Failed e =>
          if (attempt <? max_retries - 1)%nat then
            let '(r, tr) := retry_async create req rest in
            (r, Create req :: Log WARNING :: Sleep (2 ^ N.of_nat attempt) :: tr)
          else (Raise e, [Create req; Log WARNING])
      end
  end.

(** [call_deepseek_api_async], [client] telling whether the module-level
    client is not [None]. *)
Definition call_deepseek_api_async (client : bool) (create : endpoint)
    (messages : list (pystr * pystr)) : result (option response) * list event :=
  if negb client then (Raise ClientNotInitialized, [])
  else retry_async create (make_request deepseek_chat messages) (seq 0 max_retries).

(** [Summarizer.py] lines 18-42. *)
Fixpoint retry_sync (create : endpoint) (req : chat_request) (attempts : list nat)
  : result (option response) * list event :=
  match attempts with
  | [] => (Return None, [])
  | attempt :: rest =>
      match create attempt with
      | Completed c => (Return (Some (response_of c)), [Create req])
      | Failed e =>
          if (attempt <? max_retries - 1)%nat then
            let '(r, tr) := retry_sync create req rest in
            (r, Create req :: Log WARNING :: Sleep (2 ^ N.of_nat attempt) :: tr)
          else (Raise e, [Create req; Log WARNING])
      end
  end.

Definition call_deepseek_api (create : endpoint)
    (messages : list (pystr * pystr)) (model : pystr) : result (option response) * list event :=
  retry_sync create (make_request model messages) (seq 0 max_retries).

(** ** Sorting

    [list.sort(key=..., reverse=True)] is a stable sort: it yields the
    descending arrangement in which elements of equal key keep their
    original order. That arrangement is computed here by insertion. *)

Fixpoint insert_desc {A : Type} (key : A -> Qc) (x : A) (l : list A) : list A :=
  match l with
  | [] => [x]
  | y :: r =>
      if Qclt_le_dec (key x) (key y) then y :: insert_desc key x r
      else x :: l
  end.

Definition sort_reverse {A : Type} (key : A -> Qc) (l : list A) : list A :=
  foldr (insert_desc key) [] l.

(** ** The response models of [routes/resume.py] and [models/resume.py] *)

Record RankedWorkExperience := {
  w_work_ex_id : pystr;
  w_job_title : pystr;
  w_company_name : pystr;
  w_location : option pystr;
  w_start_date : option pystr;
  w_end_date : option pystr;
  w_description_bullets : option (list pystr);
  w_score : Qc
}.

Record RankedProject := {
  p_project_id : pystr;
  p_project_name : pystr;
  p_repository_url : option pystr;
  p_description_bullets : option (list pystr);
  p_score : Qc
}.

Record RankResponse := {
  top_work_experiences : list RankedWorkExperience;
  top_projects : list RankedProject
}.

(** Field validation of [model_validate] on a dictionary: a required [str],
    an [Optional[str]], an [Optional[List[str]]] and the [float] score.
    Keys the model does not declare are ignored. The score validated here
    is always the float assigned by the ranking step, so the coercions
    pydantic applies to other types of value are not needed. *)
Definition required_str (d : item) (key : string) : result pystr :=
  match d !! key with
  | Some (VStr s) => Return s
  | _ => Raise ValidationError
  end.

Definition optional_str (d : item) (key : string) : result (option pystr) :=
  match d !! key with
  | None | Some VNone => Return None
  | Some (VStr s) => Return (Some s)
  | Some _ => Raise ValidationError
  end.

Definition optional_str_list (d : item) (key : string) : result (option (list pystr)) :=
  match d !! key with
  | None | Some VNone => Return None
  | Some (VList l) => Return (Some l)
  | Some _ => Raise ValidationError
  end.

Definition required_float (d : item) (key : string) : result Qc :=
  match d !! key with
  | Some (VFloat x) => Return x
  | _ => Raise ValidationError
  end.

#[global] Instance result_bind : MBind result :=
  fun A B (k : A -> result B) (r : result A) =>
    match r with
    | Return a => k a
    | Raise e => Raise e
    end.

(** [RankedWorkExperience.model_validate(item)] *)
Definition validate_work_ex (d : item) : result RankedWorkExperience :=
  id ← required_str d "work_ex_id";
  title ← required_str d "job_title";
  company ← required_str d "company_name";
  loc ← optional_str d "location";
  sd ← optional_str d "start_date";
  ed ← optional_str d "end_date";
  bl ← optional_str_list d "description_bullets";
  sc ← required_float d "score";
  Return {| w_work_ex_id := id; w_job_title := title; w_company_name := company;
            w_location := loc; w_start_date := sd; w_end_date := ed;
            w_description_bullets := bl; w_score := sc |}.

(** [RankedProject.model_validate(item)] *)
Definition validate_project (d : item) : result RankedProject :=
  id ← required_str d "project_id";
  name ← required_str d "project_name";
  url ← optional_str d "repository_url";
  bl ← optional_str_list d "description_bullets";
  sc ← required_float d "score";
  Return {| p_project_id := id; p_project_name := name; p_repository_url := url;
            p_description_bullets := bl; p_score := sc |}.

(** ** Ranking and selection ([routes/resume.py] lines 422-459) *)

(** An entry of [items_to_rank]: category, the item, its combined text. *)
Abbreviation candidate := (string * item * pystr)%type.

(** An entry of [ranked_items]: score, category, the item. *)
Abbreviation ranked := (Qc * string * item)%type.

(** Lines 424-430, one [for] loop: the bullets of each item joined by
    [". "]. [join] on something that is not iterable raises. *)
Fixpoint collect (category : string) (items : list item) : result (list candidate) :=
  match items with
  | [] => Return []
  | it :: rest =>
      combined_text ← join_value (lit ". ") (get it "description_bullets" (VList []));
      tail ← collect category rest;
      Return ((category, it, combined_text) :: tail)
  end.

(** Lines 442-447. [original_object['score'] = score] writes the score into
    the item itself, and [ranked_items] holds that same item. *)
Definition score_items (cosine_scores : nat -> Qc) (items_to_rank : list candidate)
  : list ranked :=
  imap (fun i (c : candidate) =>
          let score := cosine_scores i in
          (score, c.1.1, <["score" := VFloat score]> (c.1.2)))
       items_to_rank.

Definition ranked_score (x : ranked) : Qc := x.1.1.

(** Lines 442-449. *)
Definition rank (cosine_scores : nat -> Qc) (items_to_rank : list candidate) : list ranked :=
  sort_reverse ranked_score (score_items cosine_scores items_to_rank).

(** Lines 452-459, the loop over [ranked_items] with its two accumulators. *)
Fixpoint select_loop (ranked_items : list ranked)
    (top_work_ex_items top_project_items : list item) : list item * list item :=
  match ranked_items with
  | [] => (top_work_ex_items, top_project_items)
  | (score, category, item_data) :: rest =>
      if String.eqb category "Work Ex" && (length top_work_ex_items <? 2)%nat then
        select_loop rest (top_work_ex_items ++ [item_data]) top_project_items
      else if String.eqb category "Project" && (length top_project_items <? 3)%nat then
        select_loop rest top_work_ex_items (top_project_items ++ [item_data])
      else select_loop rest top_work_ex_items top_project_items
  end.

Definition select (ranked_items : list ranked) : list item * list item :=
  select_loop ranked_items [] [].

(** ** The two summarizers *)

Section Pipeline.

(** Python builtins whose Unicode tables are not part of the repository:
    [str.capitalize], and the text an f-string produces for a list or a
    float. *)
Variable capitalize : pystr -> pystr.
Variable repr_value : value -> pystr.

(** [f"{v}"] *)
Definition format_value (v : value) : pystr :=
  match v with
  | VStr s => s
  | VNone => lit "None"
  | VList _ | VFloat _ => repr_value v
  end.

Definition system_message_text : pystr :=
  lit "You are a professional resume writer who creates impactful, concise bullet points that highlight technical achievements and skills.".

(** [summarizer.py] lines 80-100. *)
Definition backend_messages (title : value) (description_text : pystr)
    (item_type : pystr) : list (pystr * pystr) :=
  let system_message := system_message_text in
  let user_message :=
    lit "Please summarize the following " ++ item_type
      ++ lit " description into 2-3 concise bullet points suitable for a resume. " ++ [LF]
    ++ lit "Each bullet point should:" ++ [LF]
    ++ lit "- Start with a strong action verb" ++ [LF]
    ++ lit "- Highlight key technical skills, technologies, or achievements" ++ [LF]
    ++ lit "- Be clear and impactful for resume readers" ++ [LF]
    ++ lit "- Use professional, achievement-oriented language" ++ [LF]
    ++ [LF]
    ++ capitalize item_type ++ lit " Title: " ++ format_value title ++ [LF]
    ++ [LF]
    ++ lit "Description Bullets:" ++ [LF]
    ++ description_text ++ [LF]
    ++ [LF]
    ++ lit "Provide only the 2-3 bullet points, nothing else. Do not include dashes or any other formatting - just the text of each point on separate lines." in
  [(lit "system", system_message); (lit "user", user_message)].

(** [summarizer.py] lines 69-72. *)
Definition item_title (it : item) (item_type : pystr) : value :=
  if bool_decide (item_type = lit "work experience") then
    VStr (format_value (get it "job_title" (VStr (lit "Job")))
          ++ lit " at "
          ++ format_value (get it "company_name" (VStr (lit "Company"))))
  else get it "project_name" (VStr (lit "Project")).

(** [summarize_item] of the backend. The item is mutated in place and
    returned; here the updated dictionary is the returned value. *)
Definition summarize_item (client : bool) (create : endpoint)
    (it : item) (item_type : pystr) : result item * list event :=
  let title := item_title it item_type in
  let description_bullets := get it "description_bullets" (VList []) in
  if negb (truthy description_bullets) then (Return it, [])
  else
    match join_value [LF] description_bullets with
    | Raise e => (Raise e, [])
    | Return description_text =>
        let messages := backend_messages title description_text item_type in
        match call_deepseek_api_async client create messages with
        | (Return (Some resp), tr) =>
            match content resp with
            | Some text =>
                let bullet_lines := parse_bullet_lines text in
                (Return (<["description_bullets" := VList bullet_lines]> it),
                 tr ++ [Log INFO])
            | None => (Return it, tr ++ [Log ERROR])   (* [None.strip()] *)
            end
        | (Return None, tr) => (Return it, tr ++ [Log ERROR])
        | (Raise e, tr) => (Return it, tr ++ [Log ERROR])
        end
    end.

(** [Summarizer.py] lines 47-69. *)
Definition standalone_messages (title : value) (description_text : pystr)
    (item_type : pystr) : list (pystr * pystr) :=
  let system_message := system_message_text in
  let user_message :=
    join [LF]
      [ lit "Please summarize the following " ++ item_type
          ++ lit " description into 2-3 concise bullet points suitable for a resume. ";
        lit "Each bullet point should:";
        lit "- Start with a strong action verb";
        lit "- Highlight key technical skills, technologies, or achievements";
        lit "- Be clear and impactful for resume readers";
        lit "- Use professional, achievement-oriented language";
        [];
        capitalize item_type ++ lit " Title: " ++ format_value title;
        [];
        lit "Description Bullets:";
        description_text;
        [];
        lit "Provide only the 2-3 bullet points, nothing else. Do not include dashes or any other formatting - just the text of each point on separate lines." ] in
  [(lit "system", system_message); (lit "user", user_message)].

(** The dictionary [summarize_description_bullets] returns. *)
Record summary := {
  bullets : list pystr;
  input_tokens : N;
  output_tokens : N;
  success : bool;
  error : option exn
}.

Definition failed_summary (e : exn) : summary :=
  {| bullets := []; input_tokens := 0; output_tokens := 0;
     success := false; error := Some e |}.

(** [summarize_description_bullets] of the standalone script; [model] is
    the module-level ["deepseek-chat"]. *)
Definition summarize_description_bullets (create : endpoint)
    (title : value) (description_bullets : value) (item_type : pystr)
  : result summary * list event :=
  match join_value [LF] description_bullets with
  | Raise e => (Raise e, [])
  | Return description_text =>
      let messages := standalone_messages title description_text item_type in
      match call_deepseek_api create messages deepseek_chat with
      | (Return (Some resp), tr) =>
          match content resp with
          | Some text =>
              let bullet_lines := parse_bullet_lines text in
              (Return {| bullets := bullet_lines;
                         input_tokens := usage_prompt_tokens resp;
                         output_tokens := usage_completion_tokens resp;
                         success := true;
                         error := None |}, tr)
          | None => (Return (failed_summary AttributeError), tr ++ [Log ERROR])
          end
      | (Return None, tr) => (Return (failed_summary TypeError), tr ++ [Log ERROR])
      | (Raise e, tr) => (Return (failed_summary e), tr ++ [Log ERROR])
      end
  end.

(** ** The orchestrator ([routes/resume.py] lines 374-503) *)

(** Lines 464-468: one task per selected item, work experiences first.
    Task [i] talks to the endpoint through [create i]. The tasks share no
    object: each works on its own item, so a task's outcome depends on its
    own calls only, whatever the interleaving. *)
Definition summarize_tasks (client : bool) (create : nat -> endpoint)
    (top_work_ex_items top_project_items : list item)
  : list (result item * list event) :=
  imap (fun i it => summarize_item client (create i) it (lit "work experience"))
       top_work_ex_items
  ++ imap (fun j it =>
             summarize_item client (create (length top_work_ex_items + j)%nat) it
                            (lit "project"))
          top_project_items.

(** [await asyncio.gather] over the tasks: the results in task order, or the
    exception of a task that raised. *)
Fixpoint gather {A : Type} (tasks : list (result A)) : result (list A) :=
  match tasks with
  | [] => Return []
  | t :: rest => a ← t; l ← gather rest; Return (a :: l)
  end.

(** Lines 480-481, [{item[key] for item in items}]: a missing key or an
    unhashable value raises. *)
Fixpoint id_set (key : string) (items : list item) : result (list value) :=
  match items with
  | [] => Return []
  | it :: rest =>
      match it !! key with
      | None => Raise KeyError
      | Some (VList _) => Raise TypeError
      | Some v => s ← id_set key rest; Return (v :: s)
      end
  end.

(** [key in item and item[key] in ids] *)
Definition has_id_in (it : item) (key : string) (ids : list value) : result bool :=
  match it !! key with
  | None => Return false
  | Some (VList _) => Raise TypeError
  | Some v => Return (bool_decide (v ∈ ids))
  end.

(** Lines 483-487. *)
Fixpoint reassemble_loop (work_ex_ids project_ids : list value)
    (summarized_results : list item)
    (final_work_ex : list RankedWorkExperience) (final_projects : list RankedProject)
  : result (list RankedWorkExperience * list RankedProject) :=
  match summarized_results with
  | [] => Return (final_work_ex, final_projects)
  | it :: rest =>
      is_work ← has_id_in it "work_ex_id" work_ex_ids;
      if is_work : bool then
        w ← validate_work_ex it;
        reassemble_loop work_ex_ids project_ids rest (final_work_ex ++ [w]) final_projects
      else
        is_project ← has_id_in it "project_id" project_ids;
        if is_project : bool then
          p ← validate_project it;
          reassemble_loop work_ex_ids project_ids rest final_work_ex (final_projects ++ [p])
        else reassemble_loop work_ex_ids project_ids rest final_work_ex final_projects
  end.

(** Lines 476-496. [top_work_ex_items] and [top_project_items] are the
    lists as they stand after the join: they hold the very objects the
    tasks updated and returned. *)
Definition reassemble (top_work_ex_items top_project_items summarized_results : list item)
  : result RankResponse :=
  work_ex_ids ← id_set "work_ex_id" top_work_ex_items;
  project_ids ← id_set "project_id" top_project_items;
  finals ← reassemble_loop work_ex_ids project_ids summarized_results [] [];
  Return {| top_work_experiences := sort_reverse w_score finals.1;
            top_projects := sort_reverse p_score finals.2 |}.

(** The projected document [find_one] returns; a field is [None] when the
    document has no such key. *)
Record resume_data := {
  rd_work_experience : option (list item);
  rd_projects : option (list item);
  rd_user_id : option value
}.

(** [not resume_data] on a document that was found: the empty dictionary. *)
Definition is_empty_dict (rd : resume_data) : bool :=
  match rd_work_experience rd, rd_projects rd, rd_user_id rd with
  | None, None, None => true
  | _, _, _ => false
  end.

(** Lines 422-430: the work experiences, then the projects. *)
Definition build_items_to_rank (rd : resume_data) : result (list candidate) :=
  work ← collect "Work Ex" (default [] (rd_work_experience rd));
  proj ← collect "Project" (default [] (rd_projects rd));
  Return (work ++ proj).

(** What the handler depends on outside the repository: the two module
    flags, the ObjectId syntax check, the database, the sentence embedder
    with its cosine scores, and the text-generation endpoint.

    [resume_collection] is what [get_resume_collection()] does at the time
    of the request ([db/database.py] lines 18-52): it hands out the
    collection, given here by what its [find_one] returns for an
    identifier under the projection of the handler, or it raises, when
    [MONGO_URI] is missing or the database cannot be reached. *)
Record services := {
  ST_MODEL_LOADED : bool;
  DEEPSEEK_API_KEY : option pystr;
  ObjectId_is_valid : pystr -> bool;
  resume_collection : result (pystr -> option resume_data);
  cos_sim : pystr -> list pystr -> nat -> Qc;
  chat_create : nat -> endpoint
}.

(** [collection.find_one] on the collection of the request; there is no
    such call, and no document, when the collection was not obtained. *)
Definition find_one (sv : services) (resume_id : pystr) : option resume_data :=
  match resume_collection sv with
  | Return collection => collection resume_id
  | Raise _ => None
  end.

(** [summarizer.py] lines 16-28: the client exists when the key is set and
    not empty, and [MODEL_LOADED = client is not None]. *)
Definition client_initialized (sv : services) : bool :=
  match DEEPSEEK_API_KEY sv with
  | Some (_ :: _) => true
  | _ => false
  end.

Definition DEEPSEEK_MODEL_LOADED (sv : services) : bool := client_initialized sv.

(** The steps of the pipeline, as they are performed. *)
Inductive step :=
| Fetch (resume_id : pystr)              (* [collection.find_one] *)
| Encode (texts : list pystr)            (* [st_model.encode] *)
| CosSim                                 (* [util.cos_sim] and the ranking *)
| Summarize (tasks : list (list event)). (* the fan-out and its join *)

Inductive http_result :=
| OK (body : RankResponse)
| HTTPException (status_code : nat)
| Uncaught (e : exn).

(** Lines 435-496, the body of the [try]. *)
Definition rank_and_summarize (sv : services) (job_description : pystr)
    (items_to_rank : list candidate) : http_result * list step :=
  let item_descriptions := (fun c : candidate => c.2) <$> items_to_rank in
  let cosine_scores := cos_sim sv job_description item_descriptions in
  let ranked_items := rank cosine_scores items_to_rank in
  let '(top_work_ex_items, top_project_items) := select ranked_items in
  let tasks :=
    summarize_tasks (client_initialized sv) (chat_create sv)
                    top_work_ex_items top_project_items in
  let steps :=
    [Encode [job_description]; Encode item_descriptions; CosSim;
     Summarize (snd <$> tasks)] in
  match gather (fst <$> tasks) with
  | Raise e => (HTTPException 500, steps)
  | Return summarized_results =>
      match reassemble (take (length top_work_ex_items) summarized_results)
                       (drop (length top_work_ex_items) summarized_results)
                       summarized_results with
      | Raise e => (HTTPException 500, steps)
      | Return body => (OK body, steps)
      end
  end.

(** [rank_and_summarize_resume_items]. The two flags are checked first,
    then the collection is asked for (line 397, outside any [try]), then
    the identifier is parsed. *)
Definition rank_and_summarize_resume_items (sv : services)
    (resume_id : pystr) (job_description : pystr) (current_user_id : pystr)
  : http_result * list step :=
  if negb (ST_MODEL_LOADED sv) then (HTTPException 503, [])
  else if negb (DEEPSEEK_MODEL_LOADED sv) then (HTTPException 503, [])
  else
    match resume_collection sv with
    | Raise e => (Uncaught e, [])
    | Return collection =>
        if negb (ObjectId_is_valid sv resume_id) then (HTTPException 400, [])
        else
          match collection resume_id with
          | None => (HTTPException 404, [Fetch resume_id])
          | Some rd =>
              if is_empty_dict rd then (HTTPException 404, [Fetch resume_id])
              else if negb (bool_decide (default VNone (rd_user_id rd)
                                         = VStr current_user_id))
              then (HTTPException 403, [Fetch resume_id])
              else
                match build_items_to_rank rd with
                | Raise e => (Uncaught e, [Fetch resume_id])
                | Return [] =>
                    (OK {| top_work_experiences := []; top_projects := [] |},
                     [Fetch resume_id])
                | Return items_to_rank =>
                    let '(r, steps) :=
                      rank_and_summarize sv job_description items_to_rank in
                    (r, Fetch resume_id :: steps)
                end
          end
    end.

(** ** Observations on a trace *)

(** The requests sent to the endpoint, in order. *)
Definition requests (tr : list event) : list chat_request :=
  omap (fun ev => match ev with Create r => Some r | _ => None end) tr.

(** The waits, in order. *)
Definition sleeps (tr : list event) : list N :=
  omap (fun ev => match ev with Sleep n => Some n | _ => None end) tr.

(** The body of a successful answer. *)
Definition response_body (r : http_result) : option RankResponse :=
  match r with
  | OK body => Some body
  | HTTPException _ | Uncaught _ => None
  end.

(** A list in descending order of [key]. *)
Definition descending {A : Type} (key : A -> Qc) (l : list A) : Prop :=
  StronglySorted (fun a b => (key b <= key a)%Qc) l.

(** The entries of a ranking that carry a given category, in ranking order. *)
Definition entries_of (category : string) (ranked_items : list ranked) : list ranked :=
  filter (fun x : ranked => x.1.2 = category) ranked_items.

(** ** Stored items

    [create_resume] stores work experiences and projects as dumps of the
    [WorkExperience] and [Project] models of [models/resume.py], always
    with a list of bullets; a project dump has no [work_ex_id] key. *)

Definition is_str (d : item) (key : string) : bool :=
  match d !! key with Some (VStr _) => true | _ => false end.

Definition is_optional_str (d : item) (key : string) : bool :=
  match d !! key with None | Some VNone | Some (VStr _) => true | _ => false end.

Definition is_str_list (d : item) (key : string) : bool :=
  match d !! key with Some (VList _) => true | _ => false end.

Definition stored_work_experience (d : item) : bool :=
  is_str d "work_ex_id" && is_str d "job_title" && is_str d "company_name"
  && is_optional_str d "location" && is_optional_str d "start_date"
  && is_optional_str d "end_date" && is_str_list d "description_bullets".

Definition stored_project (d : item) : bool :=
  is_str d "project_id" && is_str d "project_name"
  && is_optional_str d "repository_url" && is_str_list d "description_bullets"
  && bool_decide (d !! "work_ex_id" = None).

Definition stored_resume (rd : resume_data) : bool :=
  forallb stored_work_experience (default [] (rd_work_experience rd))
  && forallb stored_project (default [] (rd_projects rd)).

(** The request passes the preconditions and the fetch, and finds [rd]. *)
Definition accepted (sv : services) (resume_id current_user_id : pystr)
    (rd : resume_data) : Prop :=
  ST_MODEL_LOADED sv = true /\ DEEPSEEK_MODEL_LOADED sv = true
  /\ ObjectId_is_valid sv resume_id = true
  /\ find_one sv resume_id = Some rd
  /\ rd_user_id rd = Some (VStr current_user_id).

(** The items the selection step retains for a résumé: the work
    experiences, then the projects. *)
Definition selection (sv : services) (job_description : pystr) (rd : resume_data)
  : list item * list item :=
  match build_items_to_rank rd with
  | Return items_to_rank =>
      select (rank (cos_sim sv job_description ((fun c : candidate => c.2) <$> items_to_rank))
                   items_to_rank)
  | Raise _ => ([], [])
  end.

(** The endpoint fails at each of the three attempts of a task. *)
Definition always_fails (create : endpoint) : Prop :=
  forall k, (k < max_retries)%nat -> exists e, create k = Failed e.

(** The score an item carries. *)
Definition item_score (it : item) : Qc :=
  match it !! "score" with
  | Some (VFloat s) => s
  | _ => Q2Qc 0
  end.

(** The item that task [i] hands back for the selected item [it]. *)
Definition task_item (sv : services) (i : nat) (it : item) (item_type : pystr) : item :=
  match (summarize_item (client_initialized sv) (chat_create sv i) it item_type).1 with
  | Return it' => it'
  | Raise _ => it
  end.

(** The tasks' items for a selection, in task order. *)
Definition task_items (sv : services) (sel : list item * list item) : list item * list item :=
  (imap (fun i it => task_item sv i it (lit "work experience")) sel.1,
   imap (fun j it => task_item sv (length sel.1 + j) it (lit "project")) sel.2).

(** A response entry that renders an item: same identifier, same score,
    same bullets. *)
Definition work_entry_of (it : item) (w : RankedWorkExperience) : Prop :=
  it !! "work_ex_id" = Some (VStr (w_work_ex_id w))
  /\ it !! "score" = Some (VFloat (w_score w))
  /\ exists l, it !! "description_bullets" = Some (VList l)
               /\ w_description_bullets w = Some l.

Definition project_entry_of (it : item) (p : RankedProject) : Prop :=
  it !! "project_id" = Some (VStr (p_project_id p))
  /\ it !! "score" = Some (VFloat (p_score p))
  /\ exists l, it !! "description_bullets" = Some (VList l)
               /\ p_description_bullets p = Some l.

(** A candidate tagged with a category is a stored item of that kind. *)
Definition candidate_ok (c : candidate) : Prop :=
  (c.1.1 = "Work Ex" /\ stored_work_experience c.1.2 = true)
  \/ (c.1.1 = "Project" /\ stored_project c.1.2 = true).

Definition entry_ok (x : ranked) : Prop :=
  x.2 !! "score" = Some (VFloat x.1.1)
  /\ ((x.1.2 = "Work Ex" /\ stored_work_experience x.2 = true)
      \/ (x.1.2 = "Project" /\ stored_project x.2 = true)).

(** Where the reassembly loop sends one returned item: the test of lines
    484-487 on that item alone. *)
Definition classify (work_ex_ids project_ids : list value) (it : item)
  : result (option (RankedWorkExperience + RankedProject)) :=
  is_work ← has_id_in it "work_ex_id" work_ex_ids;
  if is_work : bool then
    w ← validate_work_ex it; Return (Some (inl w))
  else
    is_project ← has_id_in it "project_id" project_ids;
    if is_project : bool then
      p ← validate_project it; Return (Some (inr p))
    else Return None.

Definition work_entries (cs : list (option (RankedWorkExperience + RankedProject)))
  : list RankedWorkExperience :=
  omap (fun c => match c with Some (inl w) => Some w | _ => None end) cs.

Definition project_entries (cs : list (option (RankedWorkExperience + RankedProject)))
  : list RankedProject :=
  omap (fun c => match c with Some (inr p) => Some p | _ => None end) cs.


(** A stored item that carries a score. *)
Definition scored_work (it : item) : Prop :=
  stored_work_experience it = true /\ exists s, it !! "score" = Some (VFloat s).

Definition scored_project (it : item) : Prop :=
  stored_project it = true /\ exists s, it !! "score" = Some (VFloat s).

(** ** Further observations *)

(** The time a trace spends waiting. *)
Definition total_sleep (tr : list event) : N := foldr N.add 0%N (sleeps tr).

(** The traces of the summarization tasks a request has run. *)
Definition tasks_of (steps : list step) : list (list event) :=
  mjoin ((fun s => match s with Summarize tasks => tasks | _ => [] end) <$> steps).

(** The number of requests a request has sent to the endpoint. *)
Definition requests_sent (steps : list step) : nat :=
  length (mjoin (requests <$> tasks_of steps)).

(** A step other than the fetch: embedding, ranking or summarization. *)
Definition is_pipeline_step (s : step) : bool :=
  match s with
  | Fetch _ => false
  | Encode _ | CosSim | Summarize _ => true
  end.

(** ** Creating a résumé ([routes/resume.py] lines 72-209) *)

(** The ingestion models of [models/resume.py]. *)
Record IngestPersonal := {
  ip_name : pystr;
  ip_email : pystr;
  ip_phone : option pystr;
  ip_location : option pystr;
  ip_linkedin : option pystr;
  ip_github : option pystr
}.

Record IngestEducation := {
  ie_institution : option pystr;
  ie_degree : option pystr;
  ie_start : option pystr;
  ie_end : option pystr;
  ie_details : option pystr
}.

Record IngestExperience := {
  ix_company : option pystr;
  ix_role : option pystr;
  ix_start : option pystr;
  ix_end : option pystr;
  ix_description : option pystr;
  ix_achievements : option pystr
}.

Record IngestProject := {
  ij_title : option pystr;
  ij_description : option pystr
}.

Record IngestSkill := {
  sk_skill_name : option pystr;
  sk_category : option pystr
}.

Record IngestResume := {
  ir_personal : option IngestPersonal;
  ir_education : list IngestEducation;
  ir_experience : list IngestExperience;
  ir_projects : list IngestProject;
  ir_skills : list IngestSkill
}.

(** Truth value of an [Optional[str]]: neither [None] nor empty. *)
Definition given (o : option pystr) : bool :=
  match o with
  | Some (_ :: _) => true
  | _ => false
  end.

(** An [Optional[str]] field in a dumped model. *)
Definition dump_optional (o : option pystr) : value :=
  match o with
  | Some s => VStr s
  | None => VNone
  end.

Definition SPACE : N := 32%N.

(** [s.split(sep, 1)] for a one-character separator: the part before the
    first separator and, when there is one, the part after it. *)
Fixpoint split_once (sep : N) (s : pystr) : pystr * option pystr :=
  match s with
  | [] => ([], None)
  | c :: r =>
      if (c =? sep)%N then ([], Some r)
      else let '(a, b) := split_once sep r in (c :: a, b)
  end.

(** Lines 108-122. [uuid4 n] is the [n]-th identifier drawn during the
    request; an item that is skipped draws none. *)
Fixpoint transform_education (uuid4 : nat -> pystr) (n : nat) (l : list IngestEducation)
  : list item * nat :=
  match l with
  | [] => ([], n)
  | edu :: rest =>
      if negb (given (ie_institution edu)) || negb (given (ie_degree edu)) then
        transform_education uuid4 n rest
      else
        let entry : item :=
          <["education_id" := VStr (lit "edu-" ++ uuid4 n)]>
            (<["institution_name" := dump_optional (ie_institution edu)]>
               (<["degree" := dump_optional (ie_degree edu)]>
                  (<["field_of_study" := dump_optional (ie_details edu)]>
                     (<["graduation_date" := dump_optional (ie_end edu)]>
                        (<["start_date" := dump_optional (ie_start edu)]> ∅))))) in
        let '(tail, n') := transform_education uuid4 (S n) rest in
        (entry :: tail, n')
  end.

(** Lines 129-133. *)
Definition experience_bullets (exp : IngestExperience) : list pystr :=
  (if given (ix_description exp)
   then split LF (strip (default [] (ix_description exp))) else [])
  ++ (if given (ix_achievements exp)
      then split LF (strip (default [] (ix_achievements exp))) else []).

(** Lines 124-144. *)
Fixpoint transform_experience (uuid4 : nat -> pystr) (n : nat) (l : list IngestExperience)
  : list item * nat :=
  match l with
  | [] => ([], n)
  | exp :: rest =>
      if negb (given (ix_company exp)) || negb (given (ix_role exp)) then
        transform_experience uuid4 n rest
      else
        let bullets := experience_bullets exp in
        let entry : item :=
          <["work_ex_id" := VStr (lit "work-" ++ uuid4 n)]>
            (<["job_title" := dump_optional (ix_role exp)]>
               (<["company_name" := dump_optional (ix_company exp)]>
                  (<["location" := VNone]>
                     (<["start_date" := dump_optional (ix_start exp)]>
                        (<["end_date" := dump_optional (ix_end exp)]>
                           (<["description_bullets" := VList bullets]> ∅)))))) in
        let '(tail, n') := transform_experience uuid4 (S n) rest in
        (entry :: tail, n')
  end.

(** Lines 151-153. *)
Definition project_bullets (proj : IngestProject) : list pystr :=
  if given (ij_description proj)
  then split LF (strip (default [] (ij_description proj))) else [].

(** Lines 146-161. *)
Fixpoint transform_projects (uuid4 : nat -> pystr) (n : nat) (l : list IngestProject)
  : list item * nat :=
  match l with
  | [] => ([], n)
  | proj :: rest =>
      if negb (given (ij_title proj)) then transform_projects uuid4 n rest
      else
        let bullets := project_bullets proj in
        let entry : item :=
          <["project_id" := VStr (lit "proj-" ++ uuid4 n)]>
            (<["project_name" := dump_optional (ij_title proj)]>
               (<["repository_url" := VNone]>
                  (<["description_bullets" := VList bullets]> ∅))) in
        let '(tail, n') := transform_projects uuid4 (S n) rest in
        (entry :: tail, n')
  end.

(** Lines 163-174. *)
Fixpoint transform_skills (uuid4 : nat -> pystr) (n : nat) (l : list IngestSkill)
  : list item * nat :=
  match l with
  | [] => ([], n)
  | skill :: rest =>
      if negb (given (sk_skill_name skill))
         || bool_decide (strip (default [] (sk_skill_name skill)) = []) then
        transform_skills uuid4 n rest
      else
        let entry : item :=
          <["skill_id" := VStr (lit "skill-" ++ uuid4 n)]>
            (<["skill_name" := VStr (strip (default [] (sk_skill_name skill)))]>
               (<["category" :=
                    if given (sk_category skill)
                    then VStr (strip (default [] (sk_category skill)))
                    else VNone]> ∅)) in
        let '(tail, n') := transform_skills uuid4 (S n) rest in
        (entry :: tail, n')
  end.

(** The document handed to [insert_one]: the dump of [UserResumeCreate]. *)
Record resume_document := {
  doc_user_id : pystr;
  doc_email : pystr;
  doc_first_name : pystr;
  doc_last_name : option pystr;
  doc_phone : option pystr;
  doc_linkedin_url : option pystr;
  doc_portfolio_url : option pystr;
  doc_work_experience : list item;
  doc_projects : list item;
  doc_education : list item;
  doc_skills : list item
}.

(** What [insert_one] does with a document. *)
Inductive insert_outcome :=
| Acknowledged (inserted_id : pystr)
| NotAcknowledged
| InsertError (e : exn).

(** The calls made to the collection. *)
Inductive db_event :=
| FindByUser (user_id : pystr)
| InsertOne (doc : resume_document).

Inductive create_result :=
| Created (message : pystr) (inserted_id : pystr)
| Failure (status_code : nat).

(** [create_resume]. [existing] tells whether [find_one] finds a résumé
    of the user, and [insert] what [insert_one] does with the document;
    the collection itself is taken to be reachable. An exception of
    [insert_one] and an insertion that is not acknowledged both end in
    the 500 of the [except] clause. *)
Definition create_resume (uuid4 : nat -> pystr) (existing : bool)
    (insert : resume_document -> insert_outcome)
    (payload : IngestResume) (current_user_id : pystr)
  : create_result * list db_event :=
  match ir_personal payload with
  | None => (Failure 422, [])
  | Some personal =>
      if bool_decide (ip_name personal = []) || bool_decide (ip_email personal = [])
      then (Failure 422, [])
      else
        let name_parts := split_once SPACE (strip (ip_name personal)) in
        let first_name := name_parts.1 in
        let last_name := name_parts.2 in
        if existing then (Failure 409, [FindByUser current_user_id])
        else
          let '(transformed_education, n1) :=
            transform_education uuid4 0 (ir_education payload) in
          let '(transformed_work_ex, n2) :=
            transform_experience uuid4 n1 (ir_experience payload) in
          let '(transformed_projects, n3) :=
            transform_projects uuid4 n2 (ir_projects payload) in
          let '(transformed_skills, _) :=
            transform_skills uuid4 n3 (ir_skills payload) in
          let resume_dict :=
            {| doc_user_id := current_user_id;
               doc_email := ip_email personal;
               doc_first_name := first_name;
               doc_last_name := last_name;
               doc_phone := ip_phone personal;
               doc_linkedin_url := ip_linkedin personal;
               doc_portfolio_url := ip_github personal;
               doc_work_experience := transformed_work_ex;
               doc_projects := transformed_projects;
               doc_education := transformed_education;
               doc_skills := transformed_skills |} in
          let calls := [FindByUser current_user_id; InsertOne resume_dict] in
          match insert resume_dict with
          | Acknowledged inserted_id =>
              (Created (lit "Resume created successfully") inserted_id, calls)
          | NotAcknowledged | InsertError _ => (Failure 500, calls)
          end
  end.

(** What [find_one] returns for a created document under the projection
    of the ranking endpoint ([work_experience], [projects], [user_id]). *)
Definition projection (d : resume_document) : resume_data :=
  {| rd_work_experience := Some (doc_work_experience d);
     rd_projects := Some (doc_projects d);
     rd_user_id := Some (VStr (doc_user_id d)) |}.

(** The payload has what line 88 asks for. *)
Definition has_personal (payload : IngestResume) : bool :=
  match ir_personal payload with
  | Some personal =>
      negb (bool_decide (ip_name personal = [])) && negb (bool_decide (ip_email personal = []))
  | None => false
  end.

Definition kept_experience (exp : IngestExperience) : bool :=
  given (ix_company exp) && given (ix_role exp).

Definition kept_project (proj : IngestProject) : bool := given (ij_title proj).

(** ** The standalone script ([Summarizer.py] lines 96-231) *)

(** [str(n)] for a non-negative integer. *)
Definition decimal (n : nat) : pystr := lit (NilZero.string_of_uint (Nat.to_uint n)).

(** What the script does besides computing: the calls of
    [summarize_description_bullets], each with its trace, and the pauses of
    [time.sleep(0.5)] between two items. *)
Inductive script_event :=
| Summarized (tr : list event)
| Pause.

(** Lines 150-159: the entry written for a summarized work experience. *)
Definition work_ex_result (work_ex : item) (new_bullets : list pystr) : item :=
  <["work_ex_id" := get work_ex "work_ex_id" (VStr [])]>
    (<["job_title" := get work_ex "job_title" (VStr [])]>
       (<["company_name" := get work_ex "company_name" (VStr [])]>
          (<["location" := get work_ex "location" (VStr [])]>
             (<["start_date" := get work_ex "start_date" (VStr [])]>
                (<["end_date" := get work_ex "end_date" (VStr [])]>
                   (<["description_bullets" := VList new_bullets]>
                      (<["score" := get work_ex "score" (VFloat (Q2Qc 0))]> ∅))))))).

(** Lines 197-203: the entry written for a summarized project. *)
Definition project_result (project : item) (new_bullets : list pystr) : item :=
  <["project_id" := get project "project_id" (VStr [])]>
    (<["project_name" := get project "project_name" (VStr [])]>
       (<["repository_url" := get project "repository_url" (VStr [])]>
          (<["description_bullets" := VList new_bullets]>
             (<["score" := get project "score" (VFloat (Q2Qc 0))]> ∅)))).

(** Lines 130-140: the call made for the work experience of index [i]. *)
Definition summarize_work_ex (create : nat -> endpoint) (i : nat) (work_ex : item)
  : result summary * list event :=
  let job_title := get work_ex "job_title" (VStr (lit "Job " ++ decimal (i + 1))) in
  let company_name := get work_ex "company_name" (VStr []) in
  let description_bullets := get work_ex "description_bullets" (VList []) in
  summarize_description_bullets (create i)
    (VStr (format_value job_title ++ lit " at " ++ format_value company_name))
    description_bullets (lit "work experience").

(** Lines 178-187: the call made for the project of index [i]; its
    endpoint comes after those of the [offset] work experiences. *)
Definition summarize_project (create : nat -> endpoint) (offset i : nat) (project : item)
  : result summary * list event :=
  let project_name := get project "project_name" (VStr (lit "Project " ++ decimal (i + 1))) in
  let description_bullets := get project "description_bullets" (VList []) in
  summarize_description_bullets (create (offset + i)%nat)
    project_name description_bullets (lit "project").

(** Lines 129-168: the loop over the [n] work experiences, at index [i],
    with the entries and the token totals accumulated so far. *)
Fixpoint process_work_experiences (create : nat -> endpoint) (n i : nat)
    (work_experiences : list item) (summarized_work_experiences : list item)
    (total_input_tokens total_output_tokens : N)
  : result (list item * N * N) * list script_event :=
  match work_experiences with
  | [] => (Return (summarized_work_experiences, total_input_tokens, total_output_tokens), [])
  | work_ex :: rest =>
      let '(r, tr) := summarize_work_ex create i work_ex in
      match r with
      | Raise e => (Raise e, [Summarized tr])
      | Return result =>
          let pause := if (i <? n - 1)%nat then [Pause] else [] in
          let '(r', tr') :=
            if success result then
              process_work_experiences create n (S i) rest
                (summarized_work_experiences ++ [work_ex_result work_ex (bullets result)])
                (total_input_tokens + input_tokens result)%N
                (total_output_tokens + output_tokens result)%N
            else
              process_work_experiences create n (S i) rest
                (summarized_work_experiences ++ [work_ex])
                total_input_tokens total_output_tokens in
          (r', Summarized tr :: pause ++ tr')
      end
  end.

(** Lines 177-212: the loop over the [n] projects. *)
Fixpoint process_projects (create : nat -> endpoint) (offset n i : nat)
    (projects : list item) (summarized_projects : list item)
    (total_input_tokens total_output_tokens : N)
  : result (list item * N * N) * list script_event :=
  match projects with
  | [] => (Return (summarized_projects, total_input_tokens, total_output_tokens), [])
  | project :: rest =>
      let '(r, tr) := summarize_project create offset i project in
      match r with
      | Raise e => (Raise e, [Summarized tr])
      | Return result =>
          let pause := if (i <? n - 1)%nat then [Pause] else [] in
          let '(r', tr') :=
            if success result then
              process_projects create offset n (S i) rest
                (summarized_projects ++ [project_result project (bullets result)])
                (total_input_tokens + input_tokens result)%N
                (total_output_tokens + output_tokens result)%N
            else
              process_projects create offset n (S i) rest
                (summarized_projects ++ [project])
                total_input_tokens total_output_tokens in
          (r', Summarized tr :: pause ++ tr')
      end
  end.

(** The parsed input file; a list is [None] when its key is absent. *)
Record input_data := {
  in_top_work_experiences : option (list item);
  in_top_projects : option (list item)
}.

(** What the script writes and the totals it prints. *)
Record script_report := {
  out_work_experiences : list item;
  out_projects : list item;
  out_input_tokens : N;
  out_output_tokens : N
}.

(** [main]. [input_file] is [None] when the input file does not exist.
    The script returns without writing anything when the file is missing
    or holds no item. *)
Definition main (input_file : option input_data) (create : nat -> endpoint)
  : result (option script_report) * list script_event :=
  match input_file with
  | None => (Return None, [])
  | Some data =>
      let work_experiences := default [] (in_top_work_experiences data) in
      let projects := default [] (in_top_projects data) in
      match work_experiences, projects with
      | [], [] => (Return None, [])
      | _, _ =>
          let '(rw, trw) :=
            process_work_experiences create (length work_experiences) 0
              work_experiences [] 0%N 0%N in
          match rw with
          | Raise e => (Raise e, trw)
          | Return (summarized_work_experiences, ti, to) =>
              let '(rp, trp) :=
                process_projects create (length work_experiences) (length projects) 0
                  projects [] ti to in
              match rp with
              | Raise e => (Raise e, trw ++ trp)
              | Return (summarized_projects, ti', to') =>
                  (Return (Some {| out_work_experiences := summarized_work_experiences;
                                   out_projects := summarized_projects;
                                   out_input_tokens := ti';
                                   out_output_tokens := to' |}),
                   trw ++ trp)
              end
          end
      end
  end.

(** The entry the script writes for a work experience, given the outcome
    of its summarization; likewise for a project. *)
Definition written_work_ex (work_ex : item) (r : result summary) : item :=
  match r with
  | Return sm => if success sm then work_ex_result work_ex (bullets sm) else work_ex
  | Raise _ => work_ex
  end.

Definition written_project (project : item) (r : result summary) : item :=
  match r with
  | Return sm => if success sm then project_result project (bullets sm) else project
  | Raise _ => project
  end.

(** The number of pauses in a run of the script. *)
Definition pauses (tr : list script_event) : nat :=
  length (List.filter (fun ev => match ev with Pause => true | _ => false end) tr).

(** ** The database client ([db/database.py]) *)

(** The singleton: its client (here the URI it was built from) and its
    database (here its name), both [None] at first. *)
Record DatabaseClient := {
  dbc_client : option pystr;
  dbc_db : option pystr
}.

Definition db_client : DatabaseClient := {| dbc_client := None; dbc_db := None |}.

(** What the driver does when asked: build a client and answer the ping,
    refuse the URI, or fail the ping. *)
Inductive driver :=
| DriverUp
| DriverRejects (e : pystr)
| PingFails (e : pystr).

(** The process environment and the driver at the time of a call. *)
Record environment := {
  MONGO_URI : option pystr;
  mongo : driver
}.

Inductive db_error :=
| MissingUri              (* "MONGO_URI not found in environment variables" *)
| DriverFailure (e : pystr)
| NotSubscriptable.       (* [None["resumes"]] *)

Inductive db_result (A : Type) :=
| DbOk (a : A)
| DbError (e : db_error).
Arguments DbOk {A} a.
Arguments DbError {A} e.

(** The calls made to the driver. *)
Inductive driver_call :=
| NewClient (uri : pystr)
| Ping
| CloseClient.

Definition disconnected : DatabaseClient := {| dbc_client := None; dbc_db := None |}.

(** [DatabaseClient.connect] *)
Definition connect (env : environment) (self : DatabaseClient)
  : db_result unit * DatabaseClient * list driver_call :=
  if negb (given (MONGO_URI env)) then (DbError MissingUri, self, [])
  else
    let uri := default [] (MONGO_URI env) in
    match dbc_client self with
    | Some _ => (DbOk tt, self, [])
    | None =>
        match mongo env with
        | DriverRejects e => (DbError (DriverFailure e), self, [NewClient uri])
        | PingFails e => (DbError (DriverFailure e), disconnected, [NewClient uri; Ping])
        | DriverUp =>
            (DbOk tt, {| dbc_client := Some uri; dbc_db := Some (lit "ResumeDB") |},
             [NewClient uri; Ping])
        end
    end.

(** [DatabaseClient.get_database]: what it returns is [self.db], which
    the code does not check. *)
Definition get_database (env : environment) (self : DatabaseClient)
  : db_result (option pystr) * DatabaseClient * list driver_call :=
  match dbc_db self with
  | Some _ => (DbOk (dbc_db self), self, [])
  | None =>
      match connect env self with
      | (DbOk _, self', calls) => (DbOk (dbc_db self'), self', calls)
      | (DbError e, self', calls) => (DbError e, self', calls)
      end
  end.

(** [DatabaseClient.get_resume_collection]: the database and the name of
    the collection. *)
Definition get_resume_collection (env : environment) (self : DatabaseClient)
  : db_result (pystr * pystr) * DatabaseClient * list driver_call :=
  match get_database env self with
  | (DbOk (Some db), self', calls) => (DbOk (db, lit "resumes"), self', calls)
  | (DbOk None, self', calls) => (DbError NotSubscriptable, self', calls)
  | (DbError e, self', calls) => (DbError e, self', calls)
  end.

(** [DatabaseClient.close] *)
Definition close (self : DatabaseClient) : DatabaseClient * list driver_call :=
  match dbc_client self with
  | Some _ => (disconnected, [CloseClient])
  | None => (self, [])
  end.

(** The operations of the client, each in the environment of its call. *)
Inductive db_operation :=
| Connect (env : environment)
| GetDatabase (env : environment)
| GetResumeCollection (env : environment)
| Close.

Definition apply_operation (self : DatabaseClient) (op : db_operation)
  : DatabaseClient * list driver_call :=
  match op with
  | Connect env => ((connect env self).1.2, (connect env self).2)
  | GetDatabase env => ((get_database env self).1.2, (get_database env self).2)
  | GetResumeCollection env =>
      ((get_resume_collection env self).1.2, (get_resume_collection env self).2)
  | Close => close self
  end.

(** The client after a sequence of operations, from the initial state. *)
Definition after (ops : list db_operation) : DatabaseClient :=
  foldl (fun self op => (apply_operation self op).1) db_client ops.

(** The two states the client is meant to be in: no client and no
    database, or a client together with the database [ResumeDB]. *)
Definition consistent (self : DatabaseClient) : Prop :=
  self = disconnected
  \/ exists uri, self = {| dbc_client := Some uri; dbc_db := Some (lit "ResumeDB") |}.

(** ** Sample data

    Concrete requests on which the properties below are exercised. *)

(** [str.capitalize] on ASCII text. *)
Definition ascii_capitalize (s : pystr) : pystr :=
  match s with
  | [] => []
  | c :: r =>
      (if (97 <=? c)%N && (c <=? 122)%N then (c - 32)%N else c)
      :: ((fun d => if (65 <=? d)%N && (d <=? 90)%N then (d + 32)%N else d) <$> r)
  end.

(** The sample titles are strings, so the text of a list or of a float is
    never asked for. *)
Definition unused_repr (v : value) : pystr := [].

(** The dump of a [WorkExperience] and of a [Project]. *)
Definition work_experience_dump (id title company : string) (bl : list string) : item :=
  <["work_ex_id" := VStr (lit id)]>
    (<["job_title" := VStr (lit title)]>
       (<["company_name" := VStr (lit company)]>
          (<["location" := VNone]>
             (<["start_date" := VStr (lit "Jul. 2019")]>
                (<["end_date" := VNone]>
                   (<["description_bullets" := VList (lit <$> bl)]> ∅)))))).

Definition project_dump (id name : string) (bl : list string) : item :=
  <["project_id" := VStr (lit id)]>
    (<["project_name" := VStr (lit name)]>
       (<["repository_url" := VNone]>
          (<["description_bullets" := VList (lit <$> bl)]> ∅))).

Definition sample_w1 : item :=
  work_experience_dump "work-1" "Developer" "TCS" ["Built the billing service"].
Definition sample_w2 : item :=
  work_experience_dump "work-2" "Engineer" "Acme" ["Ran the data pipeline"; "Led a team"].
Definition sample_w3 : item :=
  work_experience_dump "work-3" "Intern" "Initech" [].
Definition sample_p1 : item :=
  project_dump "proj-1" "Pathfinding Visualizer" ["Used React for the frontend"].

Definition sample_resume : resume_data :=
  {| rd_work_experience := Some [sample_w1; sample_w2; sample_w3];
     rd_projects := Some [sample_p1];
     rd_user_id := Some (VStr (lit "user-1")) |}.

Definition empty_resume : resume_data :=
  {| rd_work_experience := Some [];
     rd_projects := None;
     rd_user_id := Some (VStr (lit "user-1")) |}.

Definition boom : exn := ExternalError (lit "connection reset").

(** An endpoint that is down. *)
Definition down : endpoint := fun _ => Failed boom.

(** An endpoint that answers [text] at once. *)
Definition answers (text : pystr) : endpoint :=
  fun _ => Completed {| message_content := Some text;
                        prompt_tokens := 120; completion_tokens := 30;
                        total_tokens := 150 |}.

(** An endpoint that fails once and then answers. *)
Definition flaky : endpoint :=
  fun k => match k with 0%nat => Failed boom | _ => answers (lit "* Led the team") k end.

(** The sample output of the specification. *)
Definition sample_text : pystr :=
  lit "- Built X" ++ [LF] ++ lit "* Improved Y" ++ [LF; LF] ++ lit "Led Z".

(** Scores 0.9, 0.5, 0.2 for the work experiences and 0.7 for the project;
    the endpoint is down for the first task and answers the others. *)
Definition sample_services (rd : resume_data) : services :=
  {| ST_MODEL_LOADED := true;
     DEEPSEEK_API_KEY := Some (lit "sk-test");
     ObjectId_is_valid := fun _ => true;
     resume_collection := Return (fun _ => Some rd);
     cos_sim := fun _ _ i =>
       match i with
       | 0%nat => Q2Qc (9 # 10)
       | 1%nat => Q2Qc (5 # 10)
       | 2%nat => Q2Qc (2 # 10)
       | _ => Q2Qc (7 # 10)
       end;
     chat_create := fun task =>
       match task with
       | 0%nat => down
       | _ => answers (lit "- Rewrote it")
       end |}.

(** The same services with the embedding model missing. *)
Definition services_without_model : services :=
  {| ST_MODEL_LOADED := false;
     DEEPSEEK_API_KEY := Some (lit "sk-test");
     ObjectId_is_valid := fun _ => true;
     resume_collection := Return (fun _ => Some sample_resume);
     cos_sim := fun _ _ _ => Q2Qc 0;
     chat_create := fun _ => down |}.

Definition sample_id : pystr := lit "67f51b7a216e83d8e1f51f4c".
Definition sample_job : pystr := lit "We are looking for a Python developer".
Definition sample_user : pystr := lit "user-1".

Definition sample_ranking : list ranked :=
  [ (Q2Qc (9 # 10), "Work Ex", sample_w1);
    (Q2Qc (7 # 10), "Project", sample_p1);
    (Q2Qc (5 # 10), "Work Ex", sample_w2);
    (Q2Qc (2 # 10), "Work Ex", sample_w3) ].

(** ** Further sample data *)

(** The completion an endpoint built with [answers] returns. *)
Definition answer_of (text : pystr) : completion :=
  {| message_content := Some text;
     prompt_tokens := 120; completion_tokens := 30; total_tokens := 150 |}.

(** A work experience whose bullets are stored as [None]. *)
Definition sample_null : item := <["description_bullets" := VNone]> sample_w1.

Definition null_resume : resume_data :=
  {| rd_work_experience := Some [sample_w2; sample_null];
     rd_projects := Some [sample_p1];
     rd_user_id := Some (VStr (lit "user-1")) |}.

(** Identifiers that are pairwise distinct: the [n]-th one is [n] times
    the letter x. *)
Definition sample_uuid4 (n : nat) : pystr := replicate n 120%N.

Definition sample_experience : IngestExperience :=
  {| ix_company := Some (lit "TCS");
     ix_role := Some (lit "Developer");
     ix_start := Some (lit "Jul. 2019");
     ix_end := None;
     ix_description := Some (lit " Built the billing service" ++ [LF] ++ lit "Led a team ");
     ix_achievements := Some (lit "Cut costs") |}.

(** An experience without a role, which is skipped. *)
Definition sample_experience_without_role : IngestExperience :=
  {| ix_company := Some (lit "Acme");
     ix_role := None;
     ix_start := None;
     ix_end := None;
     ix_description := Some (lit "Ran the data pipeline");
     ix_achievements := None |}.

Definition sample_payload : IngestResume :=
  {| ir_personal :=
       Some {| ip_name := lit " Ada King Lovelace ";
               ip_email := lit "ada@buffalo.edu";
               ip_phone := None;
               ip_location := None;
               ip_linkedin := None;
               ip_github := Some (lit "https://github.com/ada") |};
     ir_education :=
       [ {| ie_institution := Some (lit "University at Buffalo");
            ie_degree := Some (lit "Master of Science");
            ie_start := None;
            ie_end := Some (lit "2025");
            ie_details := None |} ];
     ir_experience := [sample_experience_without_role; sample_experience];
     ir_projects :=
       [ {| ij_title := Some (lit "Pathfinding Visualizer");
            ij_description := Some (lit "Used React for the frontend") |};
         {| ij_title := Some [];
            ij_description := Some (lit "Untitled") |} ];
     ir_skills :=
       [ {| sk_skill_name := Some (lit " Python "); sk_category := Some (lit "Language") |} ] |}.

Definition payload_without_personal : IngestResume :=
  {| ir_personal := None;
     ir_education := [];
     ir_experience := [sample_experience];
     ir_projects := [];
     ir_skills := [] |}.

Definition sample_insert : resume_document -> insert_outcome :=
  fun _ => Acknowledged (lit "67f51b7a216e83d8e1f51f4c").

(** The document [create_resume] builds from the sample payload. *)
Definition sample_document : resume_document :=
  {| doc_user_id := sample_user;
     doc_email := lit "ada@buffalo.edu";
     doc_first_name := lit "Ada";
     doc_last_name := Some (lit "King Lovelace");
     doc_phone := None;
     doc_linkedin_url := None;
     doc_portfolio_url := Some (lit "https://github.com/ada");
     doc_work_experience :=
       (transform_experience sample_uuid4 1 (ir_experience sample_payload)).1;
     doc_projects := (transform_projects sample_uuid4 2 (ir_projects sample_payload)).1;
     doc_education := (transform_education sample_uuid4 0 (ir_education sample_payload)).1;
     doc_skills := (transform_skills sample_uuid4 3 (ir_skills sample_payload)).1 |}.

(** A second experience that is kept, and a payload with two kept
    experiences around a skipped one and two titled projects around an
    untitled one. *)
Definition second_experience : IngestExperience :=
  {| ix_company := Some (lit "Acme");
     ix_role := Some (lit "Engineer");
     ix_start := Some (lit "Aug. 2022");
     ix_end := Some (lit "Jun. 2024");
     ix_description := Some (lit "Ran the data pipeline");
     ix_achievements := None |}.

Definition crowded_payload : IngestResume :=
  {| ir_personal := ir_personal sample_payload;
     ir_education := ir_education sample_payload;
     ir_experience :=
       [sample_experience; sample_experience_without_role; second_experience];
     ir_projects :=
       [ {| ij_title := Some (lit "Pathfinding Visualizer");
            ij_description := Some (lit "Used React for the frontend") |};
         {| ij_title := None;
            ij_description := Some (lit "Untitled") |};
         {| ij_title := Some (lit "Resume Ranker");
            ij_description := None |} ];
     ir_skills := [] |}.

(** The document [create_resume] builds from the crowded payload: the
    identifiers drawn are number 0 for the education, 1 and 2 for the work
    experiences, 3 and 4 for the projects. *)
Definition crowded_document : resume_document :=
  {| doc_user_id := sample_user;
     doc_email := lit "ada@buffalo.edu";
     doc_first_name := lit "Ada";
     doc_last_name := Some (lit "King Lovelace");
     doc_phone := None;
     doc_linkedin_url := None;
     doc_portfolio_url := Some (lit "https://github.com/ada");
     doc_work_experience :=
       (transform_experience sample_uuid4 1 (ir_experience crowded_payload)).1;
     doc_projects := (transform_projects sample_uuid4 3 (ir_projects crowded_payload)).1;
     doc_education := (transform_education sample_uuid4 0 (ir_education crowded_payload)).1;
     doc_skills := [] |}.

(** The services when the database cannot be reached, and when the
    identifier of the request is not an ObjectId. *)
Definition services_without_database : services :=
  {| ST_MODEL_LOADED := true;
     DEEPSEEK_API_KEY := Some (lit "sk-test");
     ObjectId_is_valid := fun _ => false;
     resume_collection :=
       Raise (ExternalError (lit "MONGO_URI not found in environment variables"));
     cos_sim := fun _ _ _ => Q2Qc 0;
     chat_create := fun _ => down |}.

Definition services_refusing_id : services :=
  {| ST_MODEL_LOADED := true;
     DEEPSEEK_API_KEY := Some (lit "sk-test");
     ObjectId_is_valid := fun _ => false;
     resume_collection := Return (fun _ => Some sample_resume);
     cos_sim := fun _ _ _ => Q2Qc 0;
     chat_create := fun _ => down |}.

(** The input of the standalone script: the output of a ranking. *)
Definition sample_input : input_data :=
  {| in_top_work_experiences :=
       Some [<["score" := VFloat (Q2Qc (9 # 10))]> sample_w1;
             <["score" := VFloat (Q2Qc (5 # 10))]> sample_w2];
     in_top_projects := Some [<["score" := VFloat (Q2Qc (7 # 10))]> sample_p1] |}.

(** The endpoint is down for the first item and answers the others. *)
Definition sample_create : nat -> endpoint :=
  fun i => match i with 0%nat => down | _ => answers (lit "- Rewrote it") end.

Definition environment_up : environment :=
  {| MONGO_URI := Some (lit "mongodb://localhost"); mongo := DriverUp |}.

Definition environment_without_uri : environment :=
  {| MONGO_URI := None; mongo := DriverUp |}.

Definition environment_down : environment :=
  {| MONGO_URI := Some (lit "mongodb://localhost"); mongo := PingFails (lit "timeout") |}.

(** * Properties *)

(** ** The collection of the request *)

(** A document was found only if the collection was handed out. *)
Lemma find_one_collection (sv : services) (resume_id : pystr) (rd : resume_data) :
  find_one sv resume_id = Some rd ->
  exists collection,
    resume_collection sv = Return collection /\ collection resume_id = Some rd.
Proof.
  unfold find_one. destruct (resume_collection sv) as [collection|e]; [|done].
  intros H. by exists collection.
Qed.

(** ** Strings *)

Lemma dropwhile_head (p : N -> bool) (s : pystr) :
  dropwhile p s = [] \/ exists c r, dropwhile p s = c :: r /\ p c = false.
Proof.
  induction s as [|c r IH]; simpl; [by left|].
  destruct (p c) eqn:Hc; [exact IH|].
  right. by exists c, r.
Qed.

Lemma dropwhile_fix (p : N -> bool) (c : N) (r : pystr) :
  p c = false -> dropwhile p (c :: r) = c :: r.
Proof. intros H. simpl. by rewrite H. Qed.

Lemma dropwhile_suffix (p : N -> bool) (s : pystr) :
  exists a, s = a ++ dropwhile p s.
Proof.
  induction s as [|c r [a IH]]; simpl; [by exists []|].
  destruct (p c).
  - exists (c :: a). simpl. by rewrite <- IH.
  - by exists [].
Qed.

(** A stripped string has no white space left at either end. *)
Lemma strip_idempotent (s : pystr) : strip (strip s) = strip s.
Proof.
  unfold strip.
  set (t := dropwhile isspace s).
  set (u := dropwhile isspace (rev t)).
  assert (Hu : dropwhile isspace u = u).
  { subst u. destruct (dropwhile_head isspace (rev t)) as [->|(c & r & -> & Hc)];
      [done|by apply dropwhile_fix]. }
  assert (Ht : dropwhile isspace (rev u) = rev u).
  { destruct (dropwhile_suffix isspace (rev t)) as [a Ha]. fold u in Ha.
    assert (Hrev : t = rev u ++ rev a).
    { rewrite <- (rev_involutive t), Ha, rev_app_distr. done. }
    destruct (rev u) as [|c r] eqn:Hr; [done|].
    apply dropwhile_fix.
    subst t. destruct (dropwhile_head isspace s) as [H0|(c' & r' & H1 & Hc)].
    - rewrite H0 in Hrev. discriminate.
    - rewrite H1 in Hrev. simpl in Hrev. by injection Hrev as -> _. }
  rewrite Ht, rev_involutive, Hu. done.
Qed.

Lemma bullet_comprehension_spec (lines : list pystr) :
  bullet_comprehension lines
  = (fun line => strip (lstrip bullet_glyphs (strip line)))
      <$> filter (fun line => strip line <> []) lines.
Proof.
  induction lines as [|line rest IH]; [done|].
  simpl. destruct (strip line) eqn:Hs.
  - rewrite filter_cons_False; [done|]. rewrite Hs. tauto.
  - rewrite filter_cons_True; [|by rewrite Hs].
    rewrite fmap_cons, Hs, IH. done.
Qed.

(** A line that holds only bullet glyphs is not blank: it stays, as an
    empty bullet. *)
Example glyph_only_line :
  parse_bullet_lines (lit "-" ++ [LF] ++ lit "* Improved Y") = [[]; lit "Improved Y"].
Proof. vm_compute. reflexivity. Qed.

Lemma split_nonempty (sep : N) (s : pystr) : split sep s <> [].
Proof.
  destruct s as [|c r]; simpl; [done|].
  destruct (c =? sep)%N; [done|]. by destruct (split sep r).
Qed.

Lemma dropwhile_nil (p : N -> bool) (s : pystr) :
  dropwhile p s = [] <-> Forall (fun c => p c = true) s.
Proof.
  induction s as [|c r IH]; simpl.
  - split; [constructor|done].
  - destruct (p c) eqn:Hc.
    + rewrite IH. split; [by constructor|by inversion 1].
    + split; [done|]. inversion 1; congruence.
Qed.

Lemma dropwhile_snoc (p : N -> bool) (s : pystr) (c : N) :
  p c = true ->
  dropwhile p (s ++ [c])
  = match dropwhile p s with [] => [] | _ :: _ => dropwhile p s ++ [c] end.
Proof.
  intros Hc. induction s as [|d r IH]; simpl; [by rewrite Hc|].
  destruct (p d); [exact IH|done].
Qed.

(** White space at either end of a string does not count. *)
Lemma strip_space_cons (c : N) (s : pystr) : isspace c = true -> strip (c :: s) = strip s.
Proof. intros Hc. unfold strip. cbn [dropwhile]. by rewrite Hc. Qed.

Lemma strip_space_snoc (s : pystr) (c : N) : isspace c = true -> strip (s ++ [c]) = strip s.
Proof.
  intros Hc. unfold strip. rewrite (dropwhile_snoc isspace s c Hc).
  destruct (dropwhile isspace s) as [|d r] eqn:Hd; [done|].
  rewrite rev_app_distr. cbn [rev app dropwhile]. by rewrite Hc.
Qed.

(** A string strips to nothing exactly when it is white space throughout. *)
Lemma strip_nil (s : pystr) : strip s = [] <-> Forall (fun c => isspace c = true) s.
Proof.
  unfold strip. split.
  - intros H. apply (f_equal (@rev N)) in H. rewrite rev_involutive in H. simpl in H.
    apply dropwhile_nil in H.
    destruct (dropwhile_head isspace s) as [H0|(c & r & H1 & Hc)];
      [by apply dropwhile_nil|].
    rewrite H1 in H. apply Forall_rev in H. rewrite rev_involutive in H.
    inversion H; congruence.
  - intros H. apply dropwhile_nil in H. by rewrite H.
Qed.

(** A stripped string that is not empty ends with a character that is not
    white space. *)
Lemma stripped_last (line : pystr) :
  strip line = [] \/ exists r c, strip line = r ++ [c] /\ isspace c = false.
Proof.
  unfold strip.
  destruct (dropwhile_head isspace (rev (dropwhile isspace line)))
    as [->|(c & r & -> & Hc)]; [by left|].
  right. by exists (rev r), c.
Qed.

(** The bullet of a line is empty exactly when the line, white space at
    its ends apart, holds bullet glyphs only. *)
Lemma glyph_line_empty (line : pystr) :
  strip (lstrip bullet_glyphs (strip line)) = []
  <-> Forall (fun c => c ∈ bullet_glyphs) (strip line).
Proof.
  unfold lstrip.
  set (p := fun c : N => bool_decide (c ∈ bullet_glyphs)).
  assert (Hp : Forall (fun c => p c = true) (strip line)
               <-> Forall (fun c => c ∈ bullet_glyphs) (strip line)).
  { split; intros H; apply (Forall_impl _ _ _ H); intros c; unfold p;
      [apply bool_decide_eq_true_1|apply bool_decide_eq_true_2]. }
  rewrite <- Hp, <- dropwhile_nil. split; [|by intros ->].
  intros Hsp%strip_nil.
  destruct (dropwhile p (strip line)) as [|x t] eqn:Ht; [done|]. exfalso.
  destruct (stripped_last line) as [Hs|(r & c & Hs & Hc)];
    [by rewrite Hs in Ht|].
  destruct (dropwhile_suffix p (strip line)) as [a Ha].
  rewrite Ht, Hs in Ha.
  apply (f_equal (@rev N)) in Ha. rewrite !rev_app_distr in Ha.
  change (rev [c] ++ rev r) with (c :: rev r) in Ha.
  apply Forall_rev in Hsp.
  destruct (rev (x :: t)) as [|y u] eqn:Hr.
  - apply (f_equal (@rev N)) in Hr. rewrite rev_involutive in Hr. discriminate.
  - cbn [app] in Ha. injection Ha as <- _. inversion Hsp; congruence.
Qed.

(** ** The parser and the specification's parser *)

Section Cleaning.

Local Abbreviation clean := (fun line : pystr => strip (lstrip bullet_glyphs (strip line))).
Local Abbreviation kept := (fun bullet : pystr => bullet <> []).

Lemma clean_blank (line : pystr) : strip line = [] -> clean line = [].
Proof. intros Hs. cbv beta. by rewrite Hs. Qed.

Lemma clean_space_cons (c : N) (l : pystr) : isspace c = true -> clean (c :: l) = clean l.
Proof. intros Hc. cbv beta. by rewrite strip_space_cons. Qed.

Lemma clean_space_snoc (l : pystr) (c : N) : isspace c = true -> clean (l ++ [c]) = clean l.
Proof. intros Hc. cbv beta. by rewrite strip_space_snoc. Qed.

(** Dropping the blank lines first changes nothing once the empty bullets
    are dropped. *)
Lemma kept_clean_blank (lines : list pystr) :
  filter kept (clean <$> filter (fun line => strip line <> []) lines)
  = filter kept (clean <$> lines).
Proof.
  induction lines as [|line rest IH]; [done|].
  rewrite fmap_cons. destruct (decide (strip line = [])) as [Hs|Hs].
  - rewrite (filter_cons_False _ line) by (intros H; by apply H).
    rewrite (filter_cons_False kept)
      by (intros H; apply H; by apply (clean_blank line)).
    exact IH.
  - rewrite (filter_cons_True _ line) by done.
    rewrite fmap_cons.
    destruct (decide (clean line = [])) as [Hk|Hk].
    + rewrite !(filter_cons_False kept) by (intros H; by apply H). exact IH.
    + rewrite !(filter_cons_True kept) by done. by rewrite IH.
Qed.

(** The pieces of a string that grows by one character at its end. *)
Lemma split_snoc (sep : N) (s : pystr) (c : N) :
  exists ls l,
    split sep s = ls ++ [l]
    /\ split sep (s ++ [c])
       = if (c =? sep)%N then ls ++ [l; []] else ls ++ [l ++ [c]].
Proof.
  induction s as [|d r (ls & l & H1 & H2)].
  - exists [], []. split; [done|]. simpl. by destruct (c =? sep)%N.
  - cbn [app split]. rewrite H1, H2. destruct (d =? sep)%N.
    + exists ([] :: ls), l. split; [done|]. by destruct (c =? sep)%N.
    + destruct ls as [|x ls'].
      * exists [], (d :: l). split; [done|]. by destruct (c =? sep)%N.
      * exists ((d :: x) :: ls'), l. split; [done|]. by destruct (c =? sep)%N.
Qed.

Lemma kept_clean_split_snoc (s : pystr) (c : N) :
  isspace c = true ->
  filter kept (clean <$> split LF (s ++ [c])) = filter kept (clean <$> split LF s).
Proof.
  intros Hc. destruct (split_snoc LF s c) as (ls & l & -> & ->).
  destruct (c =? LF)%N.
  - change (ls ++ [l; []]) with (ls ++ [l] ++ [[]]).
    rewrite app_assoc, (fmap_app clean (ls ++ [l])), filter_app.
    by rewrite app_nil_r.
  - rewrite !fmap_app, !filter_app. f_equal.
    cbn [fmap list_fmap]. by rewrite strip_space_snoc.
Qed.

Lemma kept_clean_split_lstrip (s : pystr) :
  filter kept (clean <$> split LF (dropwhile isspace s))
  = filter kept (clean <$> split LF s).
Proof.
  induction s as [|c r IH]; [done|].
  cbn [dropwhile]. destruct (isspace c) eqn:Hc; [|done].
  rewrite IH. cbn [split]. destruct (c =? LF)%N.
  - rewrite fmap_cons. by rewrite (filter_cons_False kept) by (intros H; by apply H).
  - pose proof (split_nonempty LF r) as Hne.
    destruct (split LF r) as [|l ls]; [done|].
    by rewrite !fmap_cons, strip_space_cons.
Qed.

Lemma kept_clean_split_rstrip (s : pystr) :
  filter kept (clean <$> split LF (rev (dropwhile isspace (rev s))))
  = filter kept (clean <$> split LF s).
Proof.
  induction s as [|c x IH] using rev_ind; [done|].
  rewrite rev_app_distr. cbn [rev app dropwhile].
  destruct (isspace c) eqn:Hc.
  - by rewrite IH, kept_clean_split_snoc.
  - change (c :: rev x) with ([c] ++ rev x).
    by rewrite rev_app_distr, rev_involutive.
Qed.

(** Once its empty bullets are dropped, what the parser yields is what the
    specification's parser yields. *)
Lemma parse_bullet_lines_kept (content : pystr) :
  filter kept (parse_bullet_lines content) = spec_parse_bullet_lines content.
Proof.
  unfold parse_bullet_lines, spec_parse_bullet_lines.
  rewrite bullet_comprehension_spec, kept_clean_blank.
  change (strip content)
    with (rev (dropwhile isspace (rev (dropwhile isspace content)))).
  by rewrite kept_clean_split_rstrip, kept_clean_split_lstrip.
Qed.

End Cleaning.

(** ** The retry loop *)

Lemma retry_sync_async (create : endpoint) (req : chat_request) (attempts : list nat) :
  retry_sync create req attempts = retry_async create req attempts.
Proof.
  induction attempts as [|a rest IH]; [done|].
  simpl. destruct (create a); [done|]. by rewrite IH.
Qed.

Lemma call_sync_async (create : endpoint) (messages : list (pystr * pystr)) :
  call_deepseek_api create messages deepseek_chat
  = call_deepseek_api_async true create messages.
Proof. unfold call_deepseek_api, call_deepseek_api_async. simpl negb. cbv iota. apply retry_sync_async. Qed.

(** The three possible courses of a call with a configured client:
    success at attempt 0, 1 or 2, or three failures. *)
Lemma call_async_cases (create : endpoint) (messages : list (pystr * pystr)) :
  let req := make_request deepseek_chat messages in
  let call := call_deepseek_api_async true create messages in
  (exists c, create 0%nat = Completed c /\
     call = (Return (Some (response_of c)), [Create req]))
  \/ (exists e0 c, create 0%nat = Failed e0 /\ create 1%nat = Completed c /\
     call = (Return (Some (response_of c)),
             [Create req; Log WARNING; Sleep 1; Create req]))
  \/ (exists e0 e1 c, create 0%nat = Failed e0 /\ create 1%nat = Failed e1 /\
     create 2%nat = Completed c /\
     call = (Return (Some (response_of c)),
             [Create req; Log WARNING; Sleep 1; Create req; Log WARNING; Sleep 2;
              Create req]))
  \/ (exists e0 e1 e2, create 0%nat = Failed e0 /\ create 1%nat = Failed e1 /\
     create 2%nat = Failed e2 /\
     call = (Raise e2,
             [Create req; Log WARNING; Sleep 1; Create req; Log WARNING; Sleep 2;
              Create req; Log WARNING])).
Proof.
  intros req call. subst call. unfold call_deepseek_api_async. simpl.
  fold req.
  destruct (create 0%nat) as [c0|e0] eqn:H0; [left; by exists c0|right].
  destruct (create 1%nat) as [c1|e1] eqn:H1; [left; by exists e0, c1|right].
  destruct (create 2%nat) as [c2|e2] eqn:H2; [left; by exists e0, e1, c2|right].
  by exists e0, e1, e2.
Qed.

(** C2 (as amended). When every call to the endpoint fails, the client
    makes exactly three attempts, waits [2^attempt] between consecutive
    attempts, that is 1 and then 2 time units (there is no wait after the
    third failure), and then raises the error of the third attempt. The
    backend client and the standalone client behave alike. Conversely the
    failure is propagated only when all three attempts have failed. *)
Theorem C2_retry_backoff (create : endpoint) (messages : list (pystr * pystr)) :
  let req := make_request deepseek_chat messages in
  (forall e0 e1 e2,
      create 0%nat = Failed e0 -> create 1%nat = Failed e1 -> create 2%nat = Failed e2 ->
      let trace := [Create req; Log WARNING; Sleep 1; Create req; Log WARNING; Sleep 2;
                    Create req; Log WARNING] in
      call_deepseek_api_async true create messages = (Raise e2, trace)
      /\ call_deepseek_api create messages deepseek_chat = (Raise e2, trace)
      /\ length (requests trace) = 3%nat
      /\ sleeps trace = [1; 2]%N)
  /\ (forall e,
        (call_deepseek_api_async true create messages).1 = Raise e ->
        exists e0 e1, create 0%nat = Failed e0 /\ create 1%nat = Failed e1
                      /\ create 2%nat = Failed e).
Proof.
  intros req. split.
  - intros e0 e1 e2 H0 H1 H2 trace.
    assert (Ha : call_deepseek_api_async true create messages = (Raise e2, trace)).
    { unfold call_deepseek_api_async. simpl. by rewrite H0, H1, H2. }
    split; [exact Ha|]. split; [by rewrite call_sync_async|]. done.
  - intros e He.
    destruct (call_async_cases create messages)
      as [(c & _ & Hc)|[(e0 & c & _ & _ & Hc)|[(e0 & e1 & c & _ & _ & _ & Hc)
         |(e0 & e1 & e2 & H0 & H1 & H2 & Hc)]]];
      rewrite Hc in He; simpl in He; try discriminate.
    injection He as <-. by exists e0, e1.
Qed.

(** ** The summarizer *)


(** On a non-empty list of bullets, [summarize_item] with a configured
    client is determined by the course of the retry loop. *)
Lemma summarize_item_list (create : endpoint) (it : item) (item_type : pystr)
    (l : list pystr) :
  it !! "description_bullets" = Some (VList l) -> l <> [] ->
  summarize_item true create it item_type
  = let messages := backend_messages (item_title it item_type) (join [LF] l) item_type in
    match call_deepseek_api_async true create messages with
    | (Return (Some resp), tr) =>
        match content resp with
        | Some text =>
            (Return (<["description_bullets" := VList (parse_bullet_lines text)]> it),
             tr ++ [Log INFO])
        | None => (Return it, tr ++ [Log ERROR])
        end
    | (Return None, tr) => (Return it, tr ++ [Log ERROR])
    | (Raise e, tr) => (Return it, tr ++ [Log ERROR])
    end.
Proof.
  intros Hl Hne. unfold summarize_item, get. rewrite Hl. simpl.
  rewrite bool_decide_eq_false_2 by done. simpl. done.
Qed.

(** C4 (as amended). The parser strips the text, splits it at line
    feeds, drops the lines that are blank, and maps every other line to
    [line.strip().lstrip('•*-–—').strip()], in order. The blank lines are
    dropped before the glyphs are stripped, so a line that holds bullet
    glyphs only is kept: a bullet comes out empty exactly when its line is
    such a line. Apart from these empty bullets, the parser yields the
    list the specification describes. Every bullet is free of surrounding
    white space; the sample text of the specification parses to
    ["Built X"; "Improved Y"; "Led Z"]; and on a successful call the parsed
    list replaces the item's bullets. *)
Theorem C4_parse_bullet_lines :
  (forall content,
      parse_bullet_lines content
      = (fun line => strip (lstrip bullet_glyphs (strip line)))
          <$> filter (fun line => strip line <> []) (split LF (strip content)))
  /\ (forall content,
        [] ∈ parse_bullet_lines content
        <-> exists line,
              line ∈ split LF (strip content) /\ strip line <> []
              /\ Forall (fun c => c ∈ bullet_glyphs) (strip line))
  /\ (forall content,
        filter (fun bullet => bullet <> []) (parse_bullet_lines content)
        = spec_parse_bullet_lines content)
  /\ (forall content b, b ∈ parse_bullet_lines content -> strip b = b)
  /\ parse_bullet_lines
       (lit "- Built X" ++ [LF] ++ lit "* Improved Y" ++ [LF; LF] ++ lit "Led Z")
     = [lit "Built X"; lit "Improved Y"; lit "Led Z"]
  /\ (forall create it item_type l c text,
        it !! "description_bullets" = Some (VList l) -> l <> [] ->
        create 0%nat = Completed c -> message_content c = Some text ->
        (summarize_item true create it item_type).1
        = Return (<["description_bullets" := VList (parse_bullet_lines text)]> it)).
Proof.
  split; [|split; [|split; [|split; [|split]]]].
  - intros content. apply bullet_comprehension_spec.
  - intros content. unfold parse_bullet_lines. rewrite bullet_comprehension_spec.
    rewrite list_elem_of_fmap. split.
    + intros (line & Hb & [Hne Hin]%list_elem_of_filter).
      exists line. split; [done|]. split; [done|]. by apply glyph_line_empty.
    + intros (line & Hin & Hne & Hg). exists line.
      split; [symmetry; by apply glyph_line_empty|].
      by apply list_elem_of_filter.
  - apply parse_bullet_lines_kept.
  - intros content b. unfold parse_bullet_lines. rewrite bullet_comprehension_spec.
    intros (line & -> & _)%list_elem_of_fmap. apply strip_idempotent.
  - vm_compute. reflexivity.
  - intros create it item_type l c text Hl Hne Hc Ht.
    rewrite (summarize_item_list create it item_type l Hl Hne). cbv zeta.
    unfold call_deepseek_api_async. simpl. rewrite Hc. simpl. by rewrite Ht.
Qed.

(** ** Backend and standalone summarizer *)

Lemma messages_agree (title : value) (description_text item_type : pystr) :
  standalone_messages title description_text item_type
  = backend_messages title description_text item_type.
Proof.
  unfold standalone_messages, backend_messages. cbn [join].
  do 2 f_equal. f_equal. rewrite <- !app_assoc. reflexivity.
Qed.

(** C10 (as amended). On an item title, a non-empty bullet list and an
    item type, the backend summarizer and the standalone summarizer build
    the same system and user messages, send the same requests (model,
    messages, temperature 0.7, 512 tokens at most) with the same waits,
    and, whatever the endpoint answers, agree on the outcome: when the
    standalone summarizer reports success with a bullet list, the backend
    item carries exactly that list; when it reports a failure, the backend
    item is unchanged. *)
Theorem C10_backend_standalone_agree (create : endpoint) (it : item)
    (item_type : pystr) (l : list pystr) :
  it !! "description_bullets" = Some (VList l) -> l <> [] ->
  let title := item_title it item_type in
  let b := summarize_item true create it item_type in
  let s := summarize_description_bullets create title (VList l) item_type in
  standalone_messages title (join [LF] l) item_type
  = backend_messages title (join [LF] l) item_type
  /\ requests b.2 = requests s.2
  /\ sleeps b.2 = sleeps s.2
  /\ Forall (fun r => r = make_request deepseek_chat
                            (backend_messages title (join [LF] l) item_type)
                    /\ req_temperature r = Q2Qc (7 # 10)
                    /\ req_max_tokens r = 512%Z) (requests b.2)
  /\ exists sm, s.1 = Return sm
       /\ b.1 = Return (if success sm
                        then <["description_bullets" := VList (bullets sm)]> it
                        else it).
Proof.
  intros Hl Hne title b s.
  split; [apply messages_agree|].
  subst b s. rewrite (summarize_item_list create it item_type l Hl Hne).
  unfold summarize_description_bullets. cbn [join_value].
  rewrite messages_agree, call_sync_async. cbv zeta. fold title.
  destruct (call_async_cases create (backend_messages title (join [LF] l) item_type))
    as [(c & _ & ->)|[(e0 & c & _ & _ & ->)|[(e0 & e1 & c & _ & _ & _ & ->)
       |(e0 & e1 & e2 & _ & _ & _ & ->)]]];
    try (destruct (content (response_of c)) as [text|]);
    cbn -[backend_messages make_request parse_bullet_lines];
    (split; [reflexivity|]); (split; [reflexivity|]);
    (split; [repeat constructor|]); eexists; split; reflexivity.
Qed.

(** ** The orchestrator: preconditions and the empty résumé *)

(** C7. When the embedding model is not loaded, or the summarization
    client is not configured (in particular when the credential is
    missing), the request is answered 503 (service unavailable) and no
    step of the pipeline is performed: the list of steps is empty, so
    there is no fetch, no embedding, no ranking and no summarization. *)
Theorem C7_preconditions (sv : services) (resume_id job_description current_user_id : pystr) :
  (DEEPSEEK_API_KEY sv = None -> DEEPSEEK_MODEL_LOADED sv = false)
  /\ (ST_MODEL_LOADED sv = false \/ DEEPSEEK_MODEL_LOADED sv = false ->
      rank_and_summarize_resume_items sv resume_id job_description current_user_id
      = (HTTPException 503, [])).
Proof.
  split.
  - intros H. unfold DEEPSEEK_MODEL_LOADED, client_initialized. by rewrite H.
  - intros H. unfold rank_and_summarize_resume_items.
    destruct (ST_MODEL_LOADED sv); [|done].
    destruct H as [H|H]; [done|]. by rewrite H.
Qed.

(** C9. When the request passes the preconditions and the fetch (the
    résumé exists and belongs to the caller) and the résumé has no work
    experience and no project, the handler returns the response with two
    empty lists, a success, and the fetch is the only step performed: no
    embedding, no ranking, no selection and no summarization. *)
Theorem C9_empty_resume (sv : services) (resume_id job_description current_user_id : pystr)
    (rd : resume_data) :
  ST_MODEL_LOADED sv = true -> DEEPSEEK_MODEL_LOADED sv = true ->
  ObjectId_is_valid sv resume_id = true ->
  find_one sv resume_id = Some rd ->
  rd_user_id rd = Some (VStr current_user_id) ->
  default [] (rd_work_experience rd) = [] ->
  default [] (rd_projects rd) = [] ->
  rank_and_summarize_resume_items sv resume_id job_description current_user_id
  = (OK {| top_work_experiences := []; top_projects := [] |}, [Fetch resume_id]).
Proof.
  intros Hst Hds Hid Hfind Huser Hw Hp.
  destruct (find_one_collection sv resume_id rd Hfind) as (collection & Hc & Hrd).
  unfold rank_and_summarize_resume_items.
  rewrite Hst, Hds, Hc. simpl. rewrite Hid, Hrd. simpl.
  assert (is_empty_dict rd = false) as ->.
  { unfold is_empty_dict. rewrite Huser. by destruct (rd_work_experience rd), (rd_projects rd). }
  rewrite Huser. simpl. rewrite bool_decide_eq_true_2 by done. simpl.
  unfold build_items_to_rank. rewrite Hw, Hp. done.
Qed.

(** ** Sorting *)

Section Sorting.
Context {A : Type} (key : A -> Qc).

Lemma insert_desc_perm (x : A) (l : list A) :
  Permutation (insert_desc key x l) (x :: l).
Proof.
  induction l as [|y r IH]; simpl; [done|].
  destruct (Qclt_le_dec (key x) (key y)); [|done].
  rewrite IH. apply perm_swap.
Qed.

Lemma sort_reverse_perm (l : list A) : Permutation (sort_reverse key l) l.
Proof.
  induction l as [|x r IH]; simpl; [done|].
  rewrite insert_desc_perm. by constructor.
Qed.

Lemma insert_desc_sorted (x : A) (l : list A) :
  descending key l -> descending key (insert_desc key x l).
Proof.
  unfold descending. induction 1 as [|y r Hr IH Hy]; simpl.
  - repeat constructor.
  - destruct (Qclt_le_dec (key x) (key y)) as [Hlt|Hle].
    + constructor; [exact IH|].
      rewrite insert_desc_perm. constructor; [|exact Hy].
      by apply Qclt_le_weak.
    + constructor; [by constructor|].
      constructor; [exact Hle|].
      eapply Forall_impl; [exact Hy|]. intros z Hz. simpl in Hz.
      by apply Qcle_trans with (key y).
Qed.

Lemma sort_reverse_sorted (l : list A) : descending key (sort_reverse key l).
Proof.
  induction l as [|x r IH]; simpl; [constructor|]. by apply insert_desc_sorted.
Qed.

(** Insertion never moves an element past one of equal key. *)
Lemma insert_desc_filter (s : Qc) (x : A) (l : list A) :
  filter (fun y => key y = s) (insert_desc key x l)
  = filter (fun y => key y = s) (x :: l).
Proof.
  induction l as [|y r IH]; simpl; [done|].
  destruct (Qclt_le_dec (key x) (key y)) as [Hlt|Hle]; [|done].
  rewrite (filter_cons _ y), IH, !(filter_cons _ x), (filter_cons _ y).
  destruct (decide (key y = s)) as [Hy|Hy], (decide (key x = s)) as [Hx|Hx]; try done.
  exfalso. rewrite Hy, Hx in Hlt. by apply Qclt_not_le in Hlt; apply Hlt, Qcle_refl.
Qed.

Lemma sort_reverse_stable (s : Qc) (l : list A) :
  filter (fun y => key y = s) (sort_reverse key l) = filter (fun y => key y = s) l.
Proof.
  induction l as [|x r IH]; simpl; [done|].
  rewrite insert_desc_filter, !(filter_cons _ x), IH. done.
Qed.

Lemma sort_reverse_id (l : list A) : descending key l -> sort_reverse key l = l.
Proof.
  unfold descending. induction 1 as [|x r Hr IH Hx]; simpl; [done|].
  rewrite IH. destruct r as [|y r']; simpl; [done|].
  destruct (Qclt_le_dec (key x) (key y)) as [Hlt|Hle]; [|done].
  apply Forall_cons in Hx as [Hy _]. exfalso. by apply Qclt_not_le in Hlt.
Qed.

Lemma descending_app_inv (l1 l2 : list A) :
  descending key (l1 ++ l2) ->
  descending key l1 /\ descending key l2
  /\ forall x y, x ∈ l1 -> y ∈ l2 -> (key y <= key x)%Qc.
Proof.
  unfold descending. induction l1 as [|a l1 IH]; simpl; intros H.
  - split; [constructor|]. split; [done|]. intros x y Hx. by apply elem_of_nil in Hx.
  - apply StronglySorted_inv in H as [H Ha].
    destruct (IH H) as (H1 & H2 & H3).
    apply Forall_app in Ha as [Ha1 Ha2].
    split; [by constructor|]. split; [done|].
    intros x y [->|Hx]%elem_of_cons Hy.
    + rewrite Forall_forall in Ha2. by apply Ha2.
    + by apply H3.
Qed.

Lemma descending_filter (P : A -> Prop) `{!forall x, Decision (P x)} (l : list A) :
  descending key l -> descending key (filter P l).
Proof.
  unfold descending. induction 1 as [|x r Hr IH Hx]; [constructor|].
  rewrite filter_cons. destruct (decide (P x)); [|done].
  constructor; [done|].
  rewrite Forall_forall in Hx |- *. intros y [_ Hy]%list_elem_of_filter. by apply Hx.
Qed.

Lemma descending_take (n : nat) (l : list A) :
  descending key l -> descending key (take n l).
Proof.
  intros H. rewrite <- (take_drop n l) in H.
  by apply descending_app_inv in H as [H _].
Qed.

End Sorting.

Lemma descending_fmap {A B : Type} (f : A -> B) (key : B -> Qc) (l : list A) :
  descending (fun a => key (f a)) l -> descending key (f <$> l).
Proof.
  unfold descending. induction 1 as [|x r Hr IH Hx]; simpl; [constructor|].
  constructor; [done|]. by apply Forall_fmap.
Qed.

(** ** Ranking *)

Lemma score_items_forget (cosine_scores : nat -> Qc) (items_to_rank : list candidate) :
  (fun x : ranked => delete "score" x.2) <$> score_items cosine_scores items_to_rank
  = (fun c : candidate => delete "score" c.1.2) <$> items_to_rank.
Proof.
  unfold score_items. rewrite fmap_imap, <- imap_const.
  apply imap_ext. intros i c _. simpl. by rewrite delete_insert_eq.
Qed.

(** C5. The ranking step returns a permutation of the input: every
    candidate appears exactly once, as the input item with its score
    written into it, and nothing else appears. The result is in descending
    order of score, and candidates of equal score keep their input order:
    the sort is stable and uses no other key. *)
Theorem C5_rank_permutation_sorted_stable (cosine_scores : nat -> Qc)
    (items_to_rank : list candidate) :
  let ranked_items := rank cosine_scores items_to_rank in
  Permutation ranked_items (score_items cosine_scores items_to_rank)
  /\ Permutation ((fun x : ranked => delete "score" x.2) <$> ranked_items)
                 ((fun c : candidate => delete "score" c.1.2) <$> items_to_rank)
  /\ length ranked_items = length items_to_rank
  /\ descending ranked_score ranked_items
  /\ forall s : Qc,
       filter (fun x => ranked_score x = s) ranked_items
       = filter (fun x => ranked_score x = s) (score_items cosine_scores items_to_rank).
Proof.
  intros ranked_items. subst ranked_items. unfold rank.
  pose proof (sort_reverse_perm ranked_score (score_items cosine_scores items_to_rank)) as Hp.
  split; [exact Hp|]. split; [|split; [|split]].
  - rewrite <- (score_items_forget cosine_scores). by apply fmap_Permutation.
  - rewrite (Permutation_length Hp). unfold score_items. apply length_imap.
  - apply sort_reverse_sorted.
  - intros s. apply sort_reverse_stable.
Qed.

(** ** Selection *)

Lemma select_loop_spec (ranked_items : list ranked) (tw tp : list item) :
  (length tw <= 2)%nat -> (length tp <= 3)%nat ->
  select_loop ranked_items tw tp
  = (tw ++ (snd <$> take (2 - length tw) (entries_of "Work Ex" ranked_items)),
     tp ++ (snd <$> take (3 - length tp) (entries_of "Project" ranked_items))).
Proof.
  revert tw tp. unfold entries_of.
  induction ranked_items as [|[[score category] item_data] rest IH]; intros tw tp Hw Hp.
  - cbn [select_loop]. rewrite !filter_nil, !take_nil. cbn [fmap list_fmap].
    by rewrite !app_nil_r.
  - cbn [select_loop]. rewrite !filter_cons. cbn [fst snd].
    destruct (String.eqb_spec category "Work Ex") as [->|Hnw].
    + rewrite (decide_True (P := "Work Ex" = "Work Ex")) by done.
      rewrite (decide_False (P := "Work Ex" = "Project")) by done.
      destruct (Nat.ltb_spec (length tw) 2) as [Hlt|Hge]; cbn [andb].
      * rewrite IH by (rewrite ?length_app; simpl; lia).
        rewrite length_app. simpl length.
        replace (2 - length tw)%nat with (S (2 - (length tw + 1)))%nat by lia.
        cbn [take fmap list_fmap snd]. by rewrite <- app_assoc.
      * change (String.eqb "Work Ex" "Project") with false. cbn [andb].
        rewrite IH by lia.
        replace (2 - length tw)%nat with 0%nat by lia. done.
    + rewrite (decide_False (P := category = "Work Ex")) by done. cbn [andb].
      destruct (String.eqb_spec category "Project") as [->|Hnp].
      * rewrite (decide_True (P := "Project" = "Project")) by done.
        destruct (Nat.ltb_spec (length tp) 3) as [Hlt|Hge]; cbn [andb].
        -- rewrite IH by (rewrite ?length_app; simpl; lia).
           rewrite length_app. simpl length.
           replace (3 - length tp)%nat with (S (3 - (length tp + 1)))%nat by lia.
           cbn [take fmap list_fmap snd]. by rewrite <- app_assoc.
        -- rewrite IH by lia.
           replace (3 - length tp)%nat with 0%nat by lia. done.
      * rewrite (decide_False (P := category = "Project")) by done.
        apply IH; lia.
Qed.

Lemma select_spec (ranked_items : list ranked) :
  select ranked_items
  = (snd <$> take 2 (entries_of "Work Ex" ranked_items),
     snd <$> take 3 (entries_of "Project" ranked_items)).
Proof. unfold select. rewrite select_loop_spec by (simpl; lia). done. Qed.

(** C3. The selection returns at most 2 work experiences and at most 3
    projects. Each selection is the front of its category's entries taken
    in ranking order, so the relative order within the category is kept
    and nothing is added; a category with no more entries than its cap is
    returned whole. When the ranking is in descending order of score, no
    entry left out of a category scores higher than a selected one, and
    the selected entries are themselves in descending order. *)
Theorem C3_select_top_k (ranked_items : list ranked) :
  let work := entries_of "Work Ex" ranked_items in
  let proj := entries_of "Project" ranked_items in
  let sel := select ranked_items in
  (length sel.1 <= 2)%nat /\ (length sel.2 <= 3)%nat
  /\ sel.1 = snd <$> take 2 work /\ sel.2 = snd <$> take 3 proj
  /\ take 2 work `sublist_of` ranked_items /\ take 3 proj `sublist_of` ranked_items
  /\ ((length work <= 2)%nat -> sel.1 = snd <$> work)
  /\ ((length proj <= 3)%nat -> sel.2 = snd <$> proj)
  /\ (descending ranked_score ranked_items ->
      (forall x y, x ∈ take 2 work -> y ∈ drop 2 work ->
                   (ranked_score y <= ranked_score x)%Qc)
      /\ (forall x y, x ∈ take 3 proj -> y ∈ drop 3 proj ->
                      (ranked_score y <= ranked_score x)%Qc)
      /\ descending ranked_score (take 2 work)
      /\ descending ranked_score (take 3 proj)).
Proof.
  intros work proj sel. subst sel. rewrite select_spec. cbn [fst snd]. fold work proj.
  rewrite !length_fmap, !length_take.
  split; [lia|]. split; [lia|]. split; [done|]. split; [done|].
  split; [etrans; [apply sublist_take|apply sublist_filter]|].
  split; [etrans; [apply sublist_take|apply sublist_filter]|].
  split; [intros H; by rewrite take_ge|].
  split; [intros H; by rewrite take_ge|].
  intros Hd.
  assert (Hw : descending ranked_score work) by by apply descending_filter.
  assert (Hp : descending ranked_score proj) by by apply descending_filter.
  split; [|split; [|split]].
  - rewrite <- (take_drop 2 work) in Hw.
    apply descending_app_inv in Hw as (_ & _ & H). exact H.
  - rewrite <- (take_drop 3 proj) in Hp.
    apply descending_app_inv in Hp as (_ & _ & H). exact H.
  - by apply descending_take.
  - by apply descending_take.
Qed.

(** ** Summarizing a stored item *)

(** Whatever the endpoint does, [summarize_item] on an item whose bullets
    are a list returns that item, with at most its bullets replaced. *)
Lemma summarize_item_returns (client : bool) (create : endpoint) (it : item)
    (item_type : pystr) (l : list pystr) :
  it !! "description_bullets" = Some (VList l) ->
  exists l', (summarize_item client create it item_type).1
             = Return (<["description_bullets" := VList l']> it).
Proof.
  intros Hl.
  assert (Hid : Return it = Return (<["description_bullets" := VList l]> it)).
  { by rewrite insert_id. }
  unfold summarize_item, get. rewrite Hl. simpl.
  destruct (bool_decide (l = [])); simpl; [by exists l|].
  destruct (call_deepseek_api_async _ _ _) as [[[resp|]|e] tr]; simpl;
    [destruct (content resp)|..]; simpl; eauto.
Qed.


Lemma summarize_item_keeps (client : bool) (create : endpoint) (it it' : item)
    (item_type : pystr) (key : string) :
  (summarize_item client create it item_type).1 = Return it' ->
  key <> "description_bullets" -> it' !! key = it !! key.
Proof.
  unfold summarize_item. intros H Hk.
  destruct (truthy _); simpl in H; [|by injection H as <-].
  destruct (join_value _ _) as [text|e]; [|done].
  destruct (call_deepseek_api_async _ _ _) as [[[resp|]|e] tr]; simpl in H;
    [destruct (content resp)|..]; simpl in H; injection H as <-;
    by rewrite ?lookup_insert_ne.
Qed.

Lemma stored_work_experience_score (d : item) (v : value) :
  stored_work_experience (<["score" := v]> d) = stored_work_experience d.
Proof.
  unfold stored_work_experience, is_str, is_optional_str, is_str_list.
  by rewrite !lookup_insert_ne.
Qed.

Lemma stored_project_score (d : item) (v : value) :
  stored_project (<["score" := v]> d) = stored_project d.
Proof.
  unfold stored_project, is_str, is_optional_str, is_str_list.
  by rewrite !lookup_insert_ne.
Qed.

Lemma stored_work_experience_bullets (d : item) (l : list pystr) :
  stored_work_experience d = true ->
  stored_work_experience (<["description_bullets" := VList l]> d) = true.
Proof.
  unfold stored_work_experience, is_str, is_optional_str, is_str_list.
  rewrite !lookup_insert_ne by done. rewrite lookup_insert_eq.
  rewrite !andb_true_iff. intuition done.
Qed.

Lemma stored_project_bullets (d : item) (l : list pystr) :
  stored_project d = true ->
  stored_project (<["description_bullets" := VList l]> d) = true.
Proof.
  unfold stored_project, is_str, is_optional_str, is_str_list.
  rewrite !andb_true_iff, !bool_decide_eq_true.
  rewrite !lookup_insert_ne by done. rewrite lookup_insert_eq.
  intros (H1 & H2). split; [intuition done|].
  rewrite <- H2. by apply lookup_insert_ne.
Qed.

Lemma stored_work_experience_list (d : item) :
  stored_work_experience d = true ->
  exists l, d !! "description_bullets" = Some (VList l).
Proof.
  unfold stored_work_experience, is_str_list. rewrite !andb_true_iff.
  intros (_ & H). destruct (d !! "description_bullets") as [[]|]; try done. eauto.
Qed.

Lemma stored_project_list (d : item) :
  stored_project d = true ->
  exists l, d !! "description_bullets" = Some (VList l).
Proof.
  unfold stored_project, is_str_list. rewrite !andb_true_iff.
  intros ((_ & H) & _). destruct (d !! "description_bullets") as [[]|]; try done. eauto.
Qed.

(** Validation of a stored, scored work experience succeeds and copies
    the identifier, the bullets and the score. *)
Lemma validate_work_ex_stored (d : item) (s : Qc) (l : list pystr) :
  stored_work_experience d = true ->
  d !! "score" = Some (VFloat s) ->
  d !! "description_bullets" = Some (VList l) ->
  exists w, validate_work_ex d = Return w
            /\ d !! "work_ex_id" = Some (VStr (w_work_ex_id w))
            /\ w_description_bullets w = Some l
            /\ w_score w = s.
Proof.
  unfold stored_work_experience, is_str, is_optional_str, is_str_list.
  rewrite !andb_true_iff. intros ((((((H1 & H2) & H3) & H4) & H5) & H6) & H7) Hs Hl.
  unfold validate_work_ex, required_str, optional_str, optional_str_list, required_float.
  rewrite Hs, Hl.
  destruct (d !! "work_ex_id") as [[]|]; try done.
  destruct (d !! "job_title") as [[]|]; try done.
  destruct (d !! "company_name") as [[]|]; try done.
  destruct (d !! "location") as [[]|]; try done;
  destruct (d !! "start_date") as [[]|]; try done;
  destruct (d !! "end_date") as [[]|]; try done;
  simpl; eexists; (split; [reflexivity|]); done.
Qed.

Lemma validate_project_stored (d : item) (s : Qc) (l : list pystr) :
  stored_project d = true ->
  d !! "score" = Some (VFloat s) ->
  d !! "description_bullets" = Some (VList l) ->
  exists p, validate_project d = Return p
            /\ d !! "project_id" = Some (VStr (p_project_id p))
            /\ p_description_bullets p = Some l
            /\ p_score p = s.
Proof.
  unfold stored_project, is_str, is_optional_str, is_str_list.
  rewrite !andb_true_iff. intros ((((H1 & H2) & H3) & H4) & H5) Hs Hl.
  unfold validate_project, required_str, optional_str, optional_str_list, required_float.
  rewrite Hs, Hl.
  destruct (d !! "project_id") as [[]|]; try done.
  destruct (d !! "project_name") as [[]|]; try done.
  destruct (d !! "repository_url") as [[]|]; try done;
  simpl; eexists; (split; [reflexivity|]); done.
Qed.

(** ** Candidates, ranking and selection of stored items *)

Lemma collect_stored (category : string) (items : list item) :
  Forall (fun it => exists l, it !! "description_bullets" = Some (VList l)) items ->
  exists cands, collect category items = Return cands
    /\ (fun c : candidate => c.1) <$> cands = (fun it => (category, it)) <$> items.
Proof.
  induction 1 as [|it rest [l Hl] _ (cands & Hc & Hf)]; simpl.
  - by exists [].
  - unfold get. rewrite Hl. simpl. rewrite Hc. simpl.
    eexists. split; [reflexivity|]. rewrite !fmap_cons. f_equal. exact Hf.
Qed.

Lemma build_items_to_rank_stored (rd : resume_data) :
  stored_resume rd = true ->
  exists cands, build_items_to_rank rd = Return cands /\ Forall candidate_ok cands.
Proof.
  unfold stored_resume. rewrite andb_true_iff, !forallb_forall.
  intros [Hw Hp]. unfold build_items_to_rank.
  destruct (collect_stored "Work Ex" (default [] (rd_work_experience rd)))
    as (cw & Hcw & Hfw).
  { apply Forall_forall. intros it Hit%list_elem_of_In.
    by apply stored_work_experience_list, Hw. }
  destruct (collect_stored "Project" (default [] (rd_projects rd)))
    as (cp & Hcp & Hfp).
  { apply Forall_forall. intros it Hit%list_elem_of_In.
    by apply stored_project_list, Hp. }
  rewrite Hcw, Hcp. simpl. eexists. split; [reflexivity|].
  apply Forall_app. split; apply Forall_forall; intros c Hc.
  - assert (Hin : c.1 ∈ (fun c : candidate => c.1) <$> cw)
      by (apply list_elem_of_fmap; eauto).
    rewrite Hfw in Hin. apply list_elem_of_fmap in Hin as (it & Heq & Hit).
    left. rewrite Heq. simpl. split; [done|]. by apply Hw, list_elem_of_In.
  - assert (Hin : c.1 ∈ (fun c : candidate => c.1) <$> cp)
      by (apply list_elem_of_fmap; eauto).
    rewrite Hfp in Hin. apply list_elem_of_fmap in Hin as (it & Heq & Hit).
    right. rewrite Heq. simpl. split; [done|]. by apply Hp, list_elem_of_In.
Qed.

Lemma rank_entries_ok (cosine_scores : nat -> Qc) (cands : list candidate) :
  Forall candidate_ok cands -> Forall entry_ok (rank cosine_scores cands).
Proof.
  intros Hc. unfold rank. rewrite sort_reverse_perm.
  apply Forall_forall. intros x Hx. unfold score_items in Hx.
  apply elem_of_lookup_imap in Hx as (i & c & -> & Hi).
  rewrite Forall_forall in Hc. specialize (Hc c (list_elem_of_lookup_2 _ _ _ Hi)).
  split; simpl; [by rewrite lookup_insert_eq|].
  rewrite stored_work_experience_score, stored_project_score. exact Hc.
Qed.

Lemma descending_Forall2 {A B : Type} (ka : A -> Qc) (kb : B -> Qc)
    (la : list A) (lb : list B) :
  Forall2 (fun a b => ka a = kb b) la lb -> descending ka la -> descending kb lb.
Proof.
  unfold descending. induction 1 as [|a b la lb Hab Hl IH]; intros Hd; [constructor|].
  apply StronglySorted_inv in Hd as [Hd Ha]. constructor; [by apply IH|].
  clear IH Hd. induction Hl as [|a' b' la lb Hab' Hl IH]; [constructor|].
  apply Forall_cons in Ha as [Ha' Ha]. constructor; [|by apply IH].
  by rewrite <- Hab, <- Hab'.
Qed.

Lemma entry_ok_score (x : ranked) : entry_ok x -> item_score x.2 = ranked_score x.
Proof. intros [H _]. unfold item_score, ranked_score. by rewrite H. Qed.

Lemma descending_entries_items (l : list ranked) :
  Forall entry_ok l -> descending ranked_score l -> descending item_score (snd <$> l).
Proof.
  intros Hok. apply descending_Forall2.
  apply Forall2_fmap_r, Forall_Forall2_diag.
  eapply Forall_impl; [exact Hok|]. intros x Hx. simpl. symmetry. by apply entry_ok_score.
Qed.

Lemma select_stored (ranked_items : list ranked) :
  Forall entry_ok ranked_items -> descending ranked_score ranked_items ->
  Forall scored_work (select ranked_items).1
  /\ Forall scored_project (select ranked_items).2
  /\ descending item_score (select ranked_items).1
  /\ descending item_score (select ranked_items).2.
Proof.
  intros Hok Hd. rewrite select_spec. cbn [fst snd].
  assert (Hsub : forall n category,
             Forall entry_ok (take n (entries_of category ranked_items))).
  { intros n category. apply Forall_forall. intros x Hx.
    apply elem_of_take in Hx as (i & Hx & _).
    apply list_elem_of_lookup_2 in Hx.
    apply list_elem_of_filter in Hx as [_ Hx].
    rewrite Forall_forall in Hok. by apply Hok. }
  split; [|split; [|split]].
  - apply Forall_fmap, Forall_forall. intros x Hx.
    pose proof (Hsub 2%nat "Work Ex") as H. rewrite Forall_forall in H.
    destruct (H x Hx) as (Hs & [[_ Hst]|[Hc _]]).
    + split; [done|]. eauto.
    + apply elem_of_take in Hx as (i & Hx & _).
      apply list_elem_of_lookup_2, list_elem_of_filter in Hx as [Hx _].
      rewrite Hx in Hc. discriminate.
  - apply Forall_fmap, Forall_forall. intros x Hx.
    pose proof (Hsub 3%nat "Project") as H. rewrite Forall_forall in H.
    destruct (H x Hx) as (Hs & [[Hc _]|[_ Hst]]).
    + apply elem_of_take in Hx as (i & Hx & _).
      apply list_elem_of_lookup_2, list_elem_of_filter in Hx as [Hx _].
      rewrite Hx in Hc. discriminate.
    + split; [done|]. eauto.
  - apply descending_entries_items; [apply Hsub|].
    by apply descending_take, descending_filter.
  - apply descending_entries_items; [apply Hsub|].
    by apply descending_take, descending_filter.
Qed.

(** ** The fan-out and its join *)

Lemma gather_app {A : Type} (l1 l2 : list (result A)) (r1 r2 : list A) :
  gather l1 = Return r1 -> gather l2 = Return r2 -> gather (l1 ++ l2) = Return (r1 ++ r2).
Proof.
  revert r1. induction l1 as [|t l1 IH]; simpl; intros r1 H1 H2.
  - by injection H1 as <-.
  - destruct t as [a|e]; simpl in *; [|done].
    destruct (gather l1) as [r|e] eqn:Hg; simpl in *; [|done].
    injection H1 as <-. by rewrite (IH r eq_refl H2).
Qed.

Lemma gather_imap {A B E : Type} (f : nat -> A -> result B * E) (g : nat -> A -> B)
    (l : list A) :
  (forall i x, l !! i = Some x -> (f i x).1 = Return (g i x)) ->
  gather (fst <$> imap f l) = Return (imap g l).
Proof.
  revert f g. induction l as [|x l IH]; intros f g H; [done|].
  rewrite !imap_cons, fmap_cons. simpl.
  rewrite (H 0%nat x eq_refl). simpl.
  rewrite (IH (f ∘ S) (g ∘ S)); [done|]. intros i y Hy. by apply (H (S i)).
Qed.

Lemma task_item_spec (sv : services) (i : nat) (it : item) (item_type : pystr)
    (l : list pystr) :
  it !! "description_bullets" = Some (VList l) ->
  (summarize_item (client_initialized sv) (chat_create sv i) it item_type).1
  = Return (task_item sv i it item_type)
  /\ exists l', task_item sv i it item_type = <["description_bullets" := VList l']> it.
Proof.
  intros Hl. unfold task_item.
  destruct (summarize_item_returns (client_initialized sv) (chat_create sv i)
              it item_type l Hl) as [l' ->].
  split; [done|]. by exists l'.
Qed.

Lemma task_item_work (sv : services) (i : nat) (it : item) (item_type : pystr) :
  scored_work it ->
  scored_work (task_item sv i it item_type)
  /\ item_score (task_item sv i it item_type) = item_score it
  /\ (task_item sv i it item_type) !! "work_ex_id" = it !! "work_ex_id".
Proof.
  intros [Hst [s Hs]].
  destruct (stored_work_experience_list it Hst) as [l Hl].
  destruct (task_item_spec sv i it item_type l Hl) as [_ [l' ->]].
  unfold scored_work, item_score. rewrite !lookup_insert_ne by done.
  split; [|done]. split; [by apply stored_work_experience_bullets|by exists s].
Qed.

Lemma task_item_project (sv : services) (i : nat) (it : item) (item_type : pystr) :
  scored_project it ->
  scored_project (task_item sv i it item_type)
  /\ item_score (task_item sv i it item_type) = item_score it
  /\ (task_item sv i it item_type) !! "project_id" = it !! "project_id".
Proof.
  intros [Hst [s Hs]].
  destruct (stored_project_list it Hst) as [l Hl].
  destruct (task_item_spec sv i it item_type l Hl) as [_ [l' ->]].
  unfold scored_project, item_score. rewrite !lookup_insert_ne by done.
  split; [|done]. split; [by apply stored_project_bullets|by exists s].
Qed.

Lemma summarize_tasks_gather (sv : services) (tw tp : list item) :
  Forall scored_work tw -> Forall scored_project tp ->
  gather (fst <$> summarize_tasks (client_initialized sv) (chat_create sv) tw tp)
  = Return ((task_items sv (tw, tp)).1 ++ (task_items sv (tw, tp)).2).
Proof.
  intros Hw Hp. unfold summarize_tasks, task_items. rewrite fmap_app. cbn [fst snd].
  apply gather_app; apply gather_imap; intros i it Hi.
  - rewrite Forall_forall in Hw.
    destruct (Hw it (list_elem_of_lookup_2 _ _ _ Hi)) as [Hst _].
    destruct (stored_work_experience_list it Hst) as [l Hl].
    by destruct (task_item_spec sv i it (lit "work experience") l Hl).
  - rewrite Forall_forall in Hp.
    destruct (Hp it (list_elem_of_lookup_2 _ _ _ Hi)) as [Hst _].
    destruct (stored_project_list it Hst) as [l Hl].
    by destruct (task_item_spec sv (length tw + i) it (lit "project") l Hl).
Qed.

Lemma task_items_scored (sv : services) (tw tp : list item) :
  Forall scored_work tw -> Forall scored_project tp ->
  Forall scored_work (task_items sv (tw, tp)).1
  /\ Forall scored_project (task_items sv (tw, tp)).2
  /\ Forall2 (fun it it' => item_score it = item_score it'
                            /\ it' !! "work_ex_id" = it !! "work_ex_id")
             tw (task_items sv (tw, tp)).1
  /\ Forall2 (fun it it' => item_score it = item_score it'
                            /\ it' !! "project_id" = it !! "project_id")
             tp (task_items sv (tw, tp)).2.
Proof.
  intros Hw Hp. unfold task_items. cbn [fst snd].
  rewrite Forall_forall in Hw. rewrite Forall_forall in Hp.
  split; [|split; [|split]].
  - apply Forall_forall. intros x (i & it & -> & Hi)%elem_of_lookup_imap.
    by apply task_item_work, Hw, (list_elem_of_lookup_2 _ i).
  - apply Forall_forall. intros x (i & it & -> & Hi)%elem_of_lookup_imap.
    by apply task_item_project, Hp, (list_elem_of_lookup_2 _ i).
  - apply Forall2_same_length_lookup. split; [by rewrite length_imap|].
    intros i it it' Hi Hi'. rewrite list_lookup_imap, Hi in Hi'.
    injection Hi' as <-.
    destruct (task_item_work sv i it (lit "work experience")) as (_ & H1 & H2);
      [by apply Hw, (list_elem_of_lookup_2 _ i)|]. done.
  - apply Forall2_same_length_lookup. split; [by rewrite length_imap|].
    intros i it it' Hi Hi'. rewrite list_lookup_imap, Hi in Hi'.
    injection Hi' as <-.
    destruct (task_item_project sv (length tw + i) it (lit "project")) as (_ & H1 & H2);
      [by apply Hp, (list_elem_of_lookup_2 _ i)|]. done.
Qed.

(** ** Reassembly *)

Lemma gather_Return {A : Type} (tasks : list (result A)) (r : list A) :
  gather tasks = Return r <-> tasks = Return <$> r.
Proof.
  revert r. induction tasks as [|t tasks IH]; intros r; simpl.
  - split; [by intros [= <-]|]. by destruct r.
  - destruct t as [a|e]; simpl.
    + destruct (gather tasks) as [r'|e] eqn:Hg; simpl.
      * split.
        -- intros [= <-]. rewrite fmap_cons. f_equal. by apply IH.
        -- destruct r as [|a' r]; [done|]. rewrite fmap_cons. intros [= <- Ht].
           apply IH in Ht. by injection Ht as <-.
      * split; [done|]. destruct r as [|a' r]; [done|]. rewrite fmap_cons.
        intros [= _ Ht]. by apply IH in Ht.
    + split; [done|]. by destruct r.
Qed.

Lemma reassemble_loop_step (work_ex_ids project_ids : list value)
    (it : item) (rest : list item)
    (final_work_ex : list RankedWorkExperience) (final_projects : list RankedProject) :
  reassemble_loop work_ex_ids project_ids (it :: rest) final_work_ex final_projects
  = c ← classify work_ex_ids project_ids it;
    match c with
    | Some (inl w) =>
        reassemble_loop work_ex_ids project_ids rest (final_work_ex ++ [w]) final_projects
    | Some (inr p) =>
        reassemble_loop work_ex_ids project_ids rest final_work_ex (final_projects ++ [p])
    | None => reassemble_loop work_ex_ids project_ids rest final_work_ex final_projects
    end.
Proof.
  cbn [reassemble_loop]. unfold classify.
  destruct (has_id_in it "work_ex_id" work_ex_ids) as [[]|e]; simpl; [| |done].
  - by destruct (validate_work_ex it).
  - destruct (has_id_in it "project_id" project_ids) as [[]|e]; simpl; [| |done].
    + by destruct (validate_project it).
    + done.
Qed.

(** The loop sends each item where [classify] says, whatever its position. *)
Lemma reassemble_loop_classify (work_ex_ids project_ids : list value)
    (summarized_results : list item)
    (final_work_ex : list RankedWorkExperience) (final_projects : list RankedProject) :
  reassemble_loop work_ex_ids project_ids summarized_results final_work_ex final_projects
  = cs ← gather (classify work_ex_ids project_ids <$> summarized_results);
    Return (final_work_ex ++ work_entries cs, final_projects ++ project_entries cs).
Proof.
  revert final_work_ex final_projects.
  induction summarized_results as [|it rest IH]; intros fw fp.
  - simpl. by rewrite !app_nil_r.
  - rewrite reassemble_loop_step. cbn [fmap list_fmap gather].
    destruct (classify work_ex_ids project_ids it) as [[[w|p]|]|e]; simpl; [| | |done];
      rewrite IH; destruct (gather _) as [cs|e]; simpl; try done;
      by rewrite <- app_assoc.
Qed.

(** Reassembly does not depend on the order in which the results arrive:
    on a reordered list of results it succeeds as well, with the same
    entries in each category, again in descending order of score. *)
Lemma reassemble_permutation (tw tp results results' : list item) (body : RankResponse) :
  Permutation results results' ->
  reassemble tw tp results = Return body ->
  exists body', reassemble tw tp results' = Return body'
    /\ Permutation (top_work_experiences body) (top_work_experiences body')
    /\ Permutation (top_projects body) (top_projects body')
    /\ descending w_score (top_work_experiences body')
    /\ descending p_score (top_projects body').
Proof.
  intros Hperm. unfold reassemble.
  destruct (id_set "work_ex_id" tw) as [wids|e]; simpl; [|done].
  destruct (id_set "project_id" tp) as [pids|e]; simpl; [|done].
  rewrite !reassemble_loop_classify.
  destruct (gather (classify wids pids <$> results)) as [cs|e] eqn:Hg; simpl; [|done].
  intros [= <-]. simpl.
  apply gather_Return in Hg.
  assert (Hp : Permutation (classify wids pids <$> results') (Return <$> cs)).
  { rewrite <- Hg. by apply fmap_Permutation. }
  apply Permutation_map_inv in Hp as (cs' & Hcs' & Hpc).
  apply gather_Return in Hcs'. rewrite Hcs'. simpl.
  eexists. split; [reflexivity|]. simpl.
  assert (Hw : Permutation (work_entries cs) (work_entries cs'))
    by (unfold work_entries; by rewrite Hpc).
  assert (Hq : Permutation (project_entries cs) (project_entries cs'))
    by (unfold project_entries; by rewrite Hpc).
  split; [by rewrite !sort_reverse_perm|]. split; [by rewrite !sort_reverse_perm|].
  split; apply sort_reverse_sorted.
Qed.

Lemma id_set_stored (key : string) (items : list item) :
  Forall (fun it => is_str it key = true) items ->
  id_set key items = Return ((fun it => default VNone (it !! key)) <$> items).
Proof.
  induction 1 as [|it rest Hit _ IH]; [done|].
  simpl. unfold is_str in Hit. rewrite IH.
  by destruct (it !! key) as [[]|].
Qed.

Lemma scored_work_id (it : item) : scored_work it -> is_str it "work_ex_id" = true.
Proof.
  intros [H _]. unfold stored_work_experience in H.
  rewrite !andb_true_iff in H. tauto.
Qed.

Lemma scored_project_id (it : item) :
  scored_project it -> is_str it "project_id" = true /\ it !! "work_ex_id" = None.
Proof.
  intros [H _]. unfold stored_project in H.
  rewrite !andb_true_iff, bool_decide_eq_true in H. tauto.
Qed.

Lemma classify_work (work_ex_ids project_ids : list value) (it : item) :
  scored_work it -> default VNone (it !! "work_ex_id") ∈ work_ex_ids ->
  exists w, classify work_ex_ids project_ids it = Return (Some (inl w))
            /\ work_entry_of it w.
Proof.
  intros Hs Hin. pose proof (scored_work_id it Hs) as Hid.
  destruct Hs as [Hst [s Hs]].
  destruct (stored_work_experience_list it Hst) as [l Hl].
  destruct (validate_work_ex_stored it s l Hst Hs Hl) as (w & Hv & H1 & H2 & H3).
  exists w. split.
  - unfold classify, has_id_in. unfold is_str in Hid.
    destruct (it !! "work_ex_id") as [[]|]; try done. simpl in *.
    rewrite bool_decide_eq_true_2 by done. simpl. by rewrite Hv.
  - split; [done|]. split; [by rewrite H3|]. by exists l.
Qed.

Lemma classify_project (work_ex_ids project_ids : list value) (it : item) :
  scored_project it -> default VNone (it !! "project_id") ∈ project_ids ->
  exists p, classify work_ex_ids project_ids it = Return (Some (inr p))
            /\ project_entry_of it p.
Proof.
  intros Hs Hin. destruct (scored_project_id it Hs) as [Hid Hnone].
  destruct Hs as [Hst [s Hs]].
  destruct (stored_project_list it Hst) as [l Hl].
  destruct (validate_project_stored it s l Hst Hs Hl) as (p & Hv & H1 & H2 & H3).
  exists p. split.
  - unfold classify, has_id_in. rewrite Hnone. simpl. unfold is_str in Hid.
    destruct (it !! "project_id") as [[]|]; try done. simpl in *.
    rewrite bool_decide_eq_true_2 by done. simpl. by rewrite Hv.
  - split; [done|]. split; [by rewrite H3|]. by exists l.
Qed.

Lemma gather_classify_work (work_ex_ids project_ids : list value) (items : list item) :
  Forall scored_work items ->
  Forall (fun it => default VNone (it !! "work_ex_id") ∈ work_ex_ids) items ->
  exists fw, gather (classify work_ex_ids project_ids <$> items)
             = Return ((fun w => Some (inl w)) <$> fw)
             /\ Forall2 work_entry_of items fw.
Proof.
  induction 1 as [|it rest Hit _ IH]; intros Hin.
  - by exists [].
  - apply Forall_cons in Hin as [Hi Hin].
    destruct (IH Hin) as (fw & Hg & Hf).
    destruct (classify_work work_ex_ids project_ids it Hit Hi) as (w & Hc & Hw).
    exists (w :: fw). split; [|by constructor].
    rewrite fmap_cons. simpl. rewrite Hc. simpl. by rewrite Hg.
Qed.

Lemma gather_classify_project (work_ex_ids project_ids : list value) (items : list item) :
  Forall scored_project items ->
  Forall (fun it => default VNone (it !! "project_id") ∈ project_ids) items ->
  exists fp, gather (classify work_ex_ids project_ids <$> items)
             = Return ((fun p => Some (inr p)) <$> fp)
             /\ Forall2 project_entry_of items fp.
Proof.
  induction 1 as [|it rest Hit _ IH]; intros Hin.
  - by exists [].
  - apply Forall_cons in Hin as [Hi Hin].
    destruct (IH Hin) as (fp & Hg & Hf).
    destruct (classify_project work_ex_ids project_ids it Hit Hi) as (p & Hc & Hp).
    exists (p :: fp). split; [|by constructor].
    rewrite fmap_cons. simpl. rewrite Hc. simpl. by rewrite Hg.
Qed.

Lemma omap_fmap_Some {X Y : Type} (f : X -> Y) (g : Y -> option X) (l : list X) :
  (forall a, g (f a) = Some a) -> omap g (f <$> l) = l.
Proof.
  intros H. induction l as [|a l IH]; [done|].
  rewrite fmap_cons. simpl. rewrite H. f_equal. exact IH.
Qed.

Lemma omap_fmap_None {X Y Z : Type} (f : X -> Y) (g : Y -> option Z) (l : list X) :
  (forall a, g (f a) = None) -> omap g (f <$> l) = [].
Proof.
  intros H. induction l as [|a l IH]; [done|].
  rewrite fmap_cons. simpl. rewrite H. exact IH.
Qed.

Lemma entries_split (fw : list RankedWorkExperience) (fp : list RankedProject) :
  let cs := ((fun w => Some (inl w)) <$> fw) ++ ((fun p => Some (inr p)) <$> fp) in
  work_entries cs = fw /\ project_entries cs = fp.
Proof.
  unfold work_entries, project_entries. simpl. rewrite !omap_app. split.
  - rewrite omap_fmap_Some, omap_fmap_None by done. by rewrite app_nil_r.
  - by rewrite omap_fmap_None, omap_fmap_Some by done.
Qed.

Lemma work_entry_score (it : item) (w : RankedWorkExperience) :
  work_entry_of it w -> item_score it = w_score w.
Proof. intros (_ & H & _). unfold item_score. by rewrite H. Qed.

Lemma project_entry_score (it : item) (p : RankedProject) :
  project_entry_of it p -> item_score it = p_score p.
Proof. intros (_ & H & _). unfold item_score. by rewrite H. Qed.

(** Reassembly of the tasks' items, work experiences first: every item is
    rendered, in the same order. *)
Lemma reassemble_stored (tw tp : list item) :
  Forall scored_work tw -> Forall scored_project tp ->
  descending item_score tw -> descending item_score tp ->
  exists fw fp,
    reassemble tw tp (tw ++ tp)
    = Return {| top_work_experiences := fw; top_projects := fp |}
    /\ Forall2 work_entry_of tw fw /\ Forall2 project_entry_of tp fp.
Proof.
  intros Hw Hp Hdw Hdp. unfold reassemble.
  rewrite (id_set_stored "work_ex_id" tw)
    by (eapply Forall_impl; [exact Hw|]; apply scored_work_id).
  rewrite (id_set_stored "project_id" tp)
    by (eapply Forall_impl; [exact Hp|]; intros it Hit; by apply scored_project_id).
  simpl. rewrite reassemble_loop_classify, fmap_app.
  set (wids := (fun it => default VNone (it !! "work_ex_id")) <$> tw).
  set (pids := (fun it => default VNone (it !! "project_id")) <$> tp).
  destruct (gather_classify_work wids pids tw Hw) as (fw & Hgw & Hfw).
  { apply Forall_forall. intros it Hit. subst wids.
    apply list_elem_of_fmap. by exists it. }
  destruct (gather_classify_project wids pids tp Hp) as (fp & Hgp & Hfp).
  { apply Forall_forall. intros it Hit. subst pids.
    apply list_elem_of_fmap. by exists it. }
  rewrite (gather_app _ _ _ _ Hgw Hgp). simpl.
  destruct (entries_split fw fp) as [-> ->].
  exists fw, fp. split; [|done]. do 2 f_equal.
  - apply sort_reverse_id. eapply descending_Forall2; [|exact Hdw].
    eapply Forall2_impl; [exact Hfw|]. apply work_entry_score.
  - apply sort_reverse_id. eapply descending_Forall2; [|exact Hdp].
    eapply Forall2_impl; [exact Hfp|]. apply project_entry_score.
Qed.

(** The body of the [try] on stored candidates. *)
Lemma rank_and_summarize_stored (sv : services) (job_description : pystr)
    (cands : list candidate) :
  Forall candidate_ok cands ->
  let sel := select (rank (cos_sim sv job_description ((fun c : candidate => c.2) <$> cands))
                          cands) in
  Forall scored_work sel.1 /\ Forall scored_project sel.2
  /\ descending item_score sel.1 /\ descending item_score sel.2
  /\ exists fw fp steps,
       rank_and_summarize sv job_description cands
       = (OK {| top_work_experiences := fw; top_projects := fp |}, steps)
       /\ Forall2 work_entry_of (task_items sv sel).1 fw
       /\ Forall2 project_entry_of (task_items sv sel).2 fp.
Proof.
  intros Hc sel.
  destruct (select_stored
              (rank (cos_sim sv job_description ((fun c : candidate => c.2) <$> cands)) cands))
    as (Hw & Hp & Hdw & Hdp).
  { by apply rank_entries_ok. }
  { unfold rank. apply sort_reverse_sorted. }
  fold sel in Hw, Hp, Hdw, Hdp.
  split; [done|]. split; [done|]. split; [done|]. split; [done|].
  unfold rank_and_summarize. fold sel. destruct sel as [tw tp] eqn:Hsel.
  cbn [fst snd] in *.
  rewrite (summarize_tasks_gather sv tw tp Hw Hp).
  destruct (task_items_scored sv tw tp Hw Hp) as (Hw' & Hp' & Hfw & Hfp).
  set (tw' := (task_items sv (tw, tp)).1) in *.
  set (tp' := (task_items sv (tw, tp)).2) in *.
  assert (Hlen : length tw = length tw') by (by eapply Forall2_length).
  rewrite Hlen, take_app_length, drop_app_length.
  destruct (reassemble_stored tw' tp' Hw' Hp') as (fw & fp & -> & H1 & H2).
  - eapply descending_Forall2; [|exact Hdw].
    eapply Forall2_impl; [exact Hfw|]. by intros it it' [H _].
  - eapply descending_Forall2; [|exact Hdp].
    eapply Forall2_impl; [exact Hfp|]. by intros it it' [H _].
  - by eexists fw, fp, _.
Qed.

(** ** The whole request *)

Lemma selection_empty (sv : services) (job_description : pystr) (rd : resume_data) :
  build_items_to_rank rd = Return [] -> selection sv job_description rd = ([], []).
Proof. intros H. unfold selection. by rewrite H. Qed.

(** An accepted request on a stored résumé is answered, and the answer
    renders the items the tasks handed back, category by category and in
    the order of the selection. *)
Lemma pipeline_response (sv : services) (resume_id job_description current_user_id : pystr)
    (rd : resume_data) :
  accepted sv resume_id current_user_id rd -> stored_resume rd = true ->
  let sel := selection sv job_description rd in
  Forall scored_work sel.1 /\ Forall scored_project sel.2
  /\ descending item_score sel.1 /\ descending item_score sel.2
  /\ exists fw fp steps,
       rank_and_summarize_resume_items sv resume_id job_description current_user_id
       = (OK {| top_work_experiences := fw; top_projects := fp |}, steps)
       /\ Forall2 work_entry_of (task_items sv sel).1 fw
       /\ Forall2 project_entry_of (task_items sv sel).2 fp.
Proof.
  intros (Hst & Hds & Hid & Hfind & Huser) Hrd sel.
  destruct (build_items_to_rank_stored rd Hrd) as (cands & Hb & Hc).
  destruct (find_one_collection sv resume_id rd Hfind) as (coll & Hcoll & Hdoc).
  unfold rank_and_summarize_resume_items.
  rewrite Hst, Hds, Hcoll. simpl. rewrite Hid, Hdoc. simpl.
  assert (is_empty_dict rd = false) as ->.
  { unfold is_empty_dict. rewrite Huser. by destruct (rd_work_experience rd), (rd_projects rd). }
  rewrite Huser. simpl. rewrite bool_decide_eq_true_2 by done. simpl.
  subst sel. unfold selection. rewrite Hb.
  destruct cands as [|c cands].
  - repeat (split; [by constructor|]). eexists [], [], _. split; [done|].
    split; constructor.
  - destruct (rank_and_summarize_stored sv job_description (c :: cands) Hc)
      as (Hw & Hp & Hdw & Hdp & fw & fp & steps & -> & H1 & H2).
    repeat (split; [done|]). by eexists fw, fp, _.
Qed.

Lemma Forall2_compose {X Y Z : Type} (P : X -> Y -> Prop) (Q : Y -> Z -> Prop)
    (R : X -> Z -> Prop) (lx : list X) (ly : list Y) (lz : list Z) :
  (forall x y z, x ∈ lx -> P x y -> Q y z -> R x z) ->
  Forall2 P lx ly -> Forall2 Q ly lz -> Forall2 R lx lz.
Proof.
  intros H Hxy. revert lz H. induction Hxy as [|x y lx ly Hp _ IH]; intros lz H Hyz.
  - inversion Hyz. constructor.
  - inversion Hyz as [|? z ? lz' Hq Hyz']; subst. constructor.
    + eapply H; [|done..]. by left.
    + apply IH; [|done]. intros a b c Ha. apply H. by right.
Qed.

(** C8. After the join, every returned item is sent to its category by
    its identifier key ([work_ex_id] or [project_id]) and not by its
    position: reassembling a reordered list of results gives the same
    entries in each category. Each category is sorted again in descending
    order of score, the score being the one the ranking step wrote, which
    [summarize_item] leaves untouched together with the identifiers. So,
    for an accepted request on a stored résumé, the response holds one
    entry per selected item, in the order of the selection, with that
    item's identifier and ranking score. *)
Theorem C8_reassemble_by_identifier (sv : services)
    (resume_id job_description current_user_id : pystr) (rd : resume_data) :
  accepted sv resume_id current_user_id rd -> stored_resume rd = true ->
  let sel := selection sv job_description rd in
  (exists body steps,
      rank_and_summarize_resume_items sv resume_id job_description current_user_id
      = (OK body, steps)
      /\ Forall2 (fun it w => it !! "work_ex_id" = Some (VStr (w_work_ex_id w))
                              /\ it !! "score" = Some (VFloat (w_score w)))
                 sel.1 (top_work_experiences body)
      /\ Forall2 (fun it p => it !! "project_id" = Some (VStr (p_project_id p))
                              /\ it !! "score" = Some (VFloat (p_score p)))
                 sel.2 (top_projects body)
      /\ descending w_score (top_work_experiences body)
      /\ descending p_score (top_projects body))
  /\ (forall client create it it' item_type,
        (summarize_item client create it item_type).1 = Return it' ->
        it' !! "score" = it !! "score"
        /\ it' !! "work_ex_id" = it !! "work_ex_id"
        /\ it' !! "project_id" = it !! "project_id")
  /\ (forall tw tp results results' body,
        Permutation results results' ->
        reassemble tw tp results = Return body ->
        exists body', reassemble tw tp results' = Return body'
          /\ Permutation (top_work_experiences body) (top_work_experiences body')
          /\ Permutation (top_projects body) (top_projects body')
          /\ descending w_score (top_work_experiences body')
          /\ descending p_score (top_projects body')).
Proof.
  intros Hacc Hrd sel. split; [|split].
  - destruct (pipeline_response sv resume_id job_description current_user_id rd Hacc Hrd)
      as (Hw & Hp & Hdw & Hdp & fw & fp & steps & Hres & H1 & H2).
    fold sel in Hw, Hp, Hdw, Hdp, H1, H2.
    destruct (task_items_scored sv sel.1 sel.2 Hw Hp) as (_ & _ & Hfw & Hfp).
    replace (sel.1, sel.2) with sel in Hfw, Hfp by by destruct sel.
    exists {| top_work_experiences := fw; top_projects := fp |}, steps.
    split; [done|]. cbn [top_work_experiences top_projects].
    assert (Hrw : Forall2 (fun it w => it !! "work_ex_id" = Some (VStr (w_work_ex_id w))
                              /\ it !! "score" = Some (VFloat (w_score w))) sel.1 fw).
    { eapply Forall2_compose; [|exact Hfw|exact H1].
      intros it it' w Hin [Hs Hi] (Hid & Hsc & _). rewrite <- Hi. split; [done|].
      rewrite Forall_forall in Hw. destruct (Hw it Hin) as [_ [s Hit]].
      unfold item_score in Hs. rewrite Hit, Hsc in Hs. by rewrite Hit, Hs. }
    assert (Hrp : Forall2 (fun it p => it !! "project_id" = Some (VStr (p_project_id p))
                              /\ it !! "score" = Some (VFloat (p_score p))) sel.2 fp).
    { eapply Forall2_compose; [|exact Hfp|exact H2].
      intros it it' p Hin [Hs Hi] (Hid & Hsc & _). rewrite <- Hi. split; [done|].
      rewrite Forall_forall in Hp. destruct (Hp it Hin) as [_ [s Hit]].
      unfold item_score in Hs. rewrite Hit, Hsc in Hs. by rewrite Hit, Hs. }
    split; [done|]. split; [done|]. split.
    + eapply descending_Forall2; [|exact Hdw].
      eapply Forall2_impl; [exact Hrw|]. intros it w [_ H]. unfold item_score. by rewrite H.
    + eapply descending_Forall2; [|exact Hdp].
      eapply Forall2_impl; [exact Hrp|]. intros it p [_ H]. unfold item_score. by rewrite H.
  - intros client create it it' item_type H.
    split; [|split]; by apply (summarize_item_keeps client create it it' item_type).
  - intros tw tp results results' body. apply reassemble_permutation.
Qed.




(** * Further properties of the code *)

(** ** The clients of the endpoint *)

Lemma call_requests_bounded (client : bool) (create : endpoint)
    (messages : list (pystr * pystr)) :
  (length (requests (call_deepseek_api_async client create messages).2) <= 3)%nat.
Proof.
  destruct client; [|by cbn; lia].
  destruct (call_async_cases create messages)
    as [(c & _ & ->)|[(e0 & c & _ & _ & ->)|[(e0 & e1 & c & _ & _ & _ & ->)
       |(e0 & e1 & e2 & _ & _ & _ & ->)]]]; cbn; lia.
Qed.

(** Whatever the endpoint does, one call of the client sends at most three
    requests, all of them the same request, and waits at most three time
    units in all; without a configured client the backend sends nothing.
    The standalone client obeys the same bounds. *)
Theorem call_bounded (client : bool) (create : endpoint)
    (messages : list (pystr * pystr)) :
  let req := make_request deepseek_chat messages in
  let tr := (call_deepseek_api_async client create messages).2 in
  let tr' := (call_deepseek_api create messages deepseek_chat).2 in
  (length (requests tr) <= 3)%nat
  /\ (total_sleep tr <= 3)%N
  /\ Forall (fun r => r = req) (requests tr)
  /\ (if client then (1 <= length (requests tr))%nat else tr = [])
  /\ (1 <= length (requests tr') <= 3)%nat
  /\ (total_sleep tr' <= 3)%N
  /\ Forall (fun r => r = req) (requests tr').
Proof.
  intros req tr tr'.
  assert (Hsync : let t := (call_deepseek_api_async true create messages).2 in
                  (1 <= length (requests t) <= 3)%nat /\ (total_sleep t <= 3)%N
                  /\ Forall (fun r => r = req) (requests t)).
  { destruct (call_async_cases create messages)
      as [(c & _ & ->)|[(e0 & c & _ & _ & ->)|[(e0 & e1 & c & _ & _ & _ & ->)
         |(e0 & e1 & e2 & _ & _ & _ & ->)]]];
      fold req; cbn -[req]; repeat split; try lia; repeat constructor. }
  subst tr'. rewrite call_sync_async.
  destruct Hsync as ([H1 H2] & H3 & H4).
  destruct client; subst tr.
  - repeat split; done.
  - cbn. repeat split; try done; try lia; constructor.
Qed.

Lemma call_first_completion (create : endpoint) (messages : list (pystr * pystr))
    (k : nat) (c : completion) :
  (k < max_retries)%nat ->
  create k = Completed c ->
  (forall j, (j < k)%nat -> exists e, create j = Failed e) ->
  let call := call_deepseek_api_async true create messages in
  call.1 = Return (Some (response_of c))
  /\ length (requests call.2) = S k
  /\ sleeps call.2 = (fun j => (2 ^ N.of_nat j)%N) <$> seq 0 k.
Proof.
  intros Hk Hc Hfail call. subst call.
  unfold max_retries in Hk. unfold call_deepseek_api_async. cbn [negb].
  destruct k as [|[|[|k]]]; [| | |lia].
  - simpl. rewrite Hc. done.
  - destruct (Hfail 0%nat) as [e0 H0]; [lia|].
    simpl. rewrite H0, Hc. done.
  - destruct (Hfail 0%nat) as [e0 H0]; [lia|].
    destruct (Hfail 1%nat) as [e1 H1]; [lia|].
    simpl. rewrite H0, H1, Hc. done.
Qed.

(** The first attempt that completes decides the call: when attempt [k]
    completes after [k] failures, its response is returned, exactly
    [k + 1] requests have been sent, and the waits were [2^j] after each
    failed attempt [j]; the standalone client does the same. *)
Theorem first_completion_wins (create : endpoint) (messages : list (pystr * pystr))
    (k : nat) (c : completion) :
  (k < max_retries)%nat ->
  create k = Completed c ->
  (forall j, (j < k)%nat -> exists e, create j = Failed e) ->
  let call := call_deepseek_api_async true create messages in
  call.1 = Return (Some (response_of c))
  /\ length (requests call.2) = S k
  /\ sleeps call.2 = (fun j => (2 ^ N.of_nat j)%N) <$> seq 0 k
  /\ call_deepseek_api create messages deepseek_chat = call.
Proof.
  intros Hk Hc Hfail call.
  destruct (call_first_completion create messages k c Hk Hc Hfail) as (H1 & H2 & H3).
  repeat split; try done.
Qed.

(** ** The backend summarizer *)

(** Without a configured client [summarize_item] sends nothing: it hands
    the item back as it is (or raises the [TypeError] of joining bullets
    that are not iterable). *)
Theorem summarize_item_without_client (create : endpoint) (it : item)
    (item_type : pystr) :
  let r := summarize_item false create it item_type in
  requests r.2 = [] /\ (r.1 = Return it \/ r.1 = Raise TypeError).
Proof.
  unfold summarize_item.
  destruct (truthy _); simpl; [|by split; [|left]].
  destruct (get it "description_bullets" (VList [])); simpl; split; auto.
Qed.

Lemma parse_blank (text : pystr) : strip text = [] -> parse_bullet_lines text = [].
Proof. intros H. unfold parse_bullet_lines. rewrite H. reflexivity. Qed.

(** An answer that is blank (empty or white space only) is a success all
    the same: the item's bullets are replaced by the empty list. *)
Theorem blank_answer_empties_bullets (create : endpoint) (it : item)
    (item_type : pystr) (l : list pystr) (k : nat) (c : completion) (text : pystr) :
  it !! "description_bullets" = Some (VList l) -> l <> [] ->
  (k < max_retries)%nat -> create k = Completed c ->
  (forall j, (j < k)%nat -> exists e, create j = Failed e) ->
  message_content c = Some text -> strip text = [] ->
  (summarize_item true create it item_type).1
  = Return (<["description_bullets" := VList []]> it).
Proof.
  intros Hl Hne Hk Hc Hfail Ht Hblank.
  rewrite (summarize_item_list create it item_type l Hl Hne). cbv zeta.
  destruct (call_first_completion create
              (backend_messages (item_title it item_type) (join [LF] l) item_type)
              k c Hk Hc Hfail) as (H1 & _).
  destruct (call_deepseek_api_async _ _ _) as [r tr]. simpl in H1. subst r.
  simpl. rewrite Ht. by rewrite (parse_blank text Hblank).
Qed.

Lemma split_no_sep (sep : N) (s line : pystr) :
  line ∈ split sep s -> sep ∉ line.
Proof.
  revert line. induction s as [|c r IH]; intros line; simpl.
  - intros ->%list_elem_of_singleton. apply not_elem_of_nil.
  - destruct (N.eqb_spec c sep) as [->|Hne].
    + intros [->|H]%elem_of_cons; [apply not_elem_of_nil|by apply IH].
    + destruct (split sep r) as [|l ls] eqn:Hs.
      * intros ->%list_elem_of_singleton. intros [?|H]%elem_of_cons; [done|].
        by apply elem_of_nil in H.
      * intros [->|H]%elem_of_cons.
        -- intros [?|H]%elem_of_cons; [done|]. apply (IH l); [by left|done].
        -- apply IH. by right.
Qed.

Lemma dropwhile_elem (p : N -> bool) (s : pystr) (x : N) :
  x ∈ dropwhile p s -> x ∈ s.
Proof.
  destruct (dropwhile_suffix p s) as [a Ha]. intros H. rewrite Ha.
  apply elem_of_app. by right.
Qed.

Lemma strip_elem (s : pystr) (x : N) : x ∈ strip s -> x ∈ s.
Proof.
  unfold strip. intros H. apply list_elem_of_In, in_rev, list_elem_of_In in H.
  apply dropwhile_elem in H. apply list_elem_of_In, in_rev, list_elem_of_In in H.
  by apply dropwhile_elem in H.
Qed.

Lemma bullet_comprehension_elem (lines : list pystr) (b : pystr) :
  b ∈ bullet_comprehension lines ->
  exists line, b = strip (lstrip bullet_glyphs (strip line)) /\ line ∈ lines.
Proof.
  induction lines as [|line rest IH]; simpl.
  - intros H. by apply elem_of_nil in H.
  - destruct (strip line) as [|c s] eqn:Hs.
    + intros (l & -> & Hl)%IH. exists l. split; [reflexivity|by right].
    + intros [->|(l & -> & Hl)%IH]%elem_of_cons.
      * exists line. rewrite Hs. split; [reflexivity|by left].
      * exists l. split; [reflexivity|by right].
Qed.

(** Every bullet the parser yields is a single line: it holds no line
    feed, and no character that the answer did not hold. *)
Theorem bullets_are_single_lines (content b : pystr) :
  b ∈ parse_bullet_lines content ->
  (LF ∉ b) /\ forall x, x ∈ b -> x ∈ content.
Proof.
  unfold parse_bullet_lines.
  intros (line & -> & Hline)%bullet_comprehension_elem.
  assert (Hsub : forall x, x ∈ strip (lstrip bullet_glyphs (strip line)) -> x ∈ line).
  { intros x Hx. apply strip_elem in Hx. unfold lstrip in Hx.
    by apply dropwhile_elem, strip_elem in Hx. }
  split.
  - intros H%Hsub. by apply (split_no_sep LF (strip content) line).
  - intros x Hx%Hsub. apply strip_elem.
    clear -Hline Hx. revert line Hline Hx.
    induction (strip content) as [|c r IH]; intros line; simpl.
    + intros ->%list_elem_of_singleton Hx. by apply elem_of_nil in Hx.
    + destruct (N.eqb_spec c LF) as [->|Hne].
      * intros [->|H]%elem_of_cons Hx; [by apply elem_of_nil in Hx|].
        right. by apply (IH line).
      * destruct (split LF r) as [|l ls] eqn:Hs.
        -- intros ->%list_elem_of_singleton [->|Hx]%elem_of_cons; [by left|].
           by apply elem_of_nil in Hx.
        -- intros [->|H]%elem_of_cons Hx.
           ++ apply elem_of_cons in Hx as [->|Hx]; [by left|].
              right. apply (IH l); [by left|done].
           ++ right. apply (IH line); [by right|done].
Qed.

(** ** The standalone summarizer *)

(** On a list of bullets, empty or not, [summarize_description_bullets]
    never raises. A success carries the parsed text and the token counts of
    an attempt that completed; a failure carries no bullet, no token and
    the error. *)
Theorem standalone_summary_shape (create : endpoint) (title : value)
    (l : list pystr) (item_type : pystr) :
  exists sm,
    (summarize_description_bullets create title (VList l) item_type).1 = Return sm
    /\ (success sm = true ->
        error sm = None
        /\ exists k c text,
             (k < max_retries)%nat /\ create k = Completed c
             /\ message_content c = Some text
             /\ bullets sm = parse_bullet_lines text
             /\ input_tokens sm = prompt_tokens c
             /\ output_tokens sm = completion_tokens c)
    /\ (success sm = false ->
        bullets sm = [] /\ input_tokens sm = 0%N /\ output_tokens sm = 0%N
        /\ is_Some (error sm)).
Proof.
  unfold summarize_description_bullets. cbn [join_value].
  rewrite call_sync_async. unfold max_retries.
  destruct (call_async_cases create (standalone_messages title (join [LF] l) item_type))
    as [(c & H0 & ->)|[(e0 & c & _ & H1 & ->)|[(e0 & e1 & c & _ & _ & H2 & ->)
       |(e0 & e1 & e2 & _ & _ & _ & ->)]]];
    try (destruct (content (response_of c)) as [text|] eqn:Hc);
    cbn -[parse_bullet_lines]; eexists; (split; [reflexivity|]);
    cbn -[parse_bullet_lines]; (split; [intros Hs|intros Hf]); try discriminate;
    try (repeat split; eauto; fail).
  - split; [done|]. exists 0%nat, c, text. repeat split; try done. lia.
  - split; [done|]. exists 1%nat, c, text. repeat split; try done. lia.
  - split; [done|]. exists 2%nat, c, text. repeat split; try done. lia.
Qed.

(** ** The ranking request *)

Lemma rank_and_summarize_steps (sv : services) (job_description : pystr)
    (cands : list candidate) :
  exists tw tp,
    (length tw <= 2)%nat /\ (length tp <= 3)%nat
    /\ (rank_and_summarize sv job_description cands).2
       = [Encode [job_description]; Encode ((fun c : candidate => c.2) <$> cands); CosSim;
          Summarize (snd <$> summarize_tasks (client_initialized sv) (chat_create sv) tw tp)]
    /\ forall body, (rank_and_summarize sv job_description cands).1 = OK body ->
         (length (top_work_experiences body) + length (top_projects body)
          <= length tw + length tp)%nat.
Proof.
  unfold rank_and_summarize.
  set (r := rank _ cands).
  rewrite (select_spec r).
  set (tw := snd <$> take 2 (entries_of "Work Ex" r)).
  set (tp := snd <$> take 3 (entries_of "Project" r)).
  exists tw, tp.
  split; [subst tw; rewrite length_fmap, length_take; lia|].
  split; [subst tp; rewrite length_fmap, length_take; lia|].
  set (tasks := summarize_tasks _ _ tw tp).
  assert (Hlen : length tasks = (length tw + length tp)%nat).
  { subst tasks. unfold summarize_tasks. by rewrite length_app, !length_imap. }
  destruct (gather (fst <$> tasks)) as [results|e] eqn:Hg; [|by split].
  apply gather_Return in Hg.
  assert (Hres : length results = (length tw + length tp)%nat).
  { rewrite <- Hlen, <- (length_fmap fst tasks), Hg. by rewrite length_fmap. }
  destruct (reassemble _ _ results) as [body|e] eqn:Hr; [|by split].
  split; [done|]. intros body' [= <-]. cbn [fst].
  unfold reassemble in Hr.
  destruct (id_set "work_ex_id" _) as [wids|e]; simpl in Hr; [|done].
  destruct (id_set "project_id" _) as [pids|e]; simpl in Hr; [|done].
  rewrite reassemble_loop_classify in Hr.
  destruct (gather (classify wids pids <$> results)) as [cs|e] eqn:Hc; simpl in Hr; [|done].
  injection Hr as <-. cbn [top_work_experiences top_projects].
  rewrite !(Permutation_length (sort_reverse_perm _ _)).
  apply gather_Return in Hc.
  assert (Hcs : length cs = length results).
  { rewrite <- (length_fmap Return cs), <- Hc. by rewrite length_fmap. }
  rewrite <- Hres, <- Hcs. clear.
  unfold work_entries, project_entries.
  induction cs as [|[[w|p]|] cs IH]; simpl;
    [done
    |apply le_n_S; exact IH
    |rewrite Nat.add_succ_r; apply le_n_S; exact IH
    |apply le_S; exact IH].
Qed.

Lemma summarize_item_requests_bounded (client : bool) (create : endpoint)
    (it : item) (item_type : pystr) :
  (length (requests (summarize_item client create it item_type).2) <= 3)%nat.
Proof.
  unfold summarize_item.
  destruct (truthy _); simpl; [|lia].
  destruct (join_value _ _) as [text|e]; simpl; [|lia].
  pose proof (call_requests_bounded client create
                (backend_messages (item_title it item_type) text item_type)) as H.
  destruct (call_deepseek_api_async _ _ _) as [[[resp|]|e] tr]; simpl in *;
    [destruct (content resp)|..]; simpl;
    unfold requests in *; rewrite omap_app; simpl; by rewrite app_nil_r.
Qed.

Lemma handler_steps (sv : services) (resume_id job_description current_user_id : pystr) :
  let r := rank_and_summarize_resume_items sv resume_id job_description current_user_id in
  (r.2 = [] /\ forall body, r.1 <> OK body)
  \/ (r.2 = [Fetch resume_id]
      /\ forall body, r.1 = OK body ->
           body = {| top_work_experiences := []; top_projects := [] |})
  \/ exists rd cands,
       accepted sv resume_id current_user_id rd
       /\ build_items_to_rank rd = Return cands
       /\ r = ((rank_and_summarize sv job_description cands).1,
               Fetch resume_id :: (rank_and_summarize sv job_description cands).2).
Proof.
  unfold rank_and_summarize_resume_items.
  destruct (ST_MODEL_LOADED sv) eqn:Hst; simpl; [|by left].
  destruct (DEEPSEEK_MODEL_LOADED sv) eqn:Hds; simpl; [|by left].
  destruct (resume_collection sv) as [coll|e] eqn:Hcoll; simpl; [|by left].
  destruct (ObjectId_is_valid sv resume_id) eqn:Hid; simpl; [|by left].
  destruct (coll resume_id) as [rd|] eqn:Hdoc; [|by right; left].
  assert (Hfind : find_one sv resume_id = Some rd)
    by (unfold find_one; by rewrite Hcoll).
  destruct (is_empty_dict rd); [by right; left|].
  destruct (bool_decide _) eqn:Hu; simpl; [|by right; left].
  apply bool_decide_eq_true in Hu.
  destruct (build_items_to_rank rd) as [[|c cands]|e] eqn:Hb; [| |by right; left].
  { right. left. split; [done|]. by intros body [= <-]. }
  right. right. exists rd, (c :: cands).
  split.
  - repeat split; try done. destruct (rd_user_id rd); simpl in Hu; by subst.
  - split; [done|]. by destruct (rank_and_summarize _ _ _).
Qed.

(** Embedding, ranking and summarization are performed only for a request
    that passed the two service checks, obtained the collection, named a
    valid identifier, and found a résumé that belongs to the caller. A
    résumé of somebody else is answered 403 after the fetch and nothing
    more. The collection is asked for before the identifier is looked at:
    when the database client raises, its exception leaves the handler
    uncaught, whatever the identifier; when the collection is handed out,
    an identifier that is not valid is answered 400 without a fetch. *)
Theorem pipeline_runs_only_for_owner (sv : services)
    (resume_id job_description current_user_id : pystr) :
  let r := rank_and_summarize_resume_items sv resume_id job_description current_user_id in
  (forall s, s ∈ r.2 -> is_pipeline_step s = true ->
             exists rd, accepted sv resume_id current_user_id rd)
  /\ (forall rd owner,
        ST_MODEL_LOADED sv = true -> DEEPSEEK_MODEL_LOADED sv = true ->
        ObjectId_is_valid sv resume_id = true ->
        find_one sv resume_id = Some rd ->
        rd_user_id rd = Some owner -> owner <> VStr current_user_id ->
        r = (HTTPException 403, [Fetch resume_id]))
  /\ (forall e,
        ST_MODEL_LOADED sv = true -> DEEPSEEK_MODEL_LOADED sv = true ->
        resume_collection sv = Raise e ->
        r = (Uncaught e, []))
  /\ (forall collection,
        ST_MODEL_LOADED sv = true -> DEEPSEEK_MODEL_LOADED sv = true ->
        resume_collection sv = Return collection ->
        ObjectId_is_valid sv resume_id = false ->
        r = (HTTPException 400, [])).
Proof.
  intros r. split; [|split; [|split]].
  - intros s Hs Hp. subst r.
    destruct (handler_steps sv resume_id job_description current_user_id)
      as [[H _]|[[H _]|(rd & cands & Hacc & _)]].
    + rewrite H in Hs. by apply elem_of_nil in Hs.
    + rewrite H in Hs. apply list_elem_of_singleton in Hs. by subst s.
    + by exists rd.
  - intros rd owner Hst Hds Hid Hfind Hown Hne. subst r.
    destruct (find_one_collection sv resume_id rd Hfind) as (coll & Hcoll & Hdoc).
    unfold rank_and_summarize_resume_items.
    rewrite Hst, Hds, Hcoll. simpl. rewrite Hid, Hdoc. simpl.
    assert (is_empty_dict rd = false) as ->.
    { unfold is_empty_dict. rewrite Hown.
      by destruct (rd_work_experience rd), (rd_projects rd). }
    rewrite Hown. simpl. by rewrite bool_decide_eq_false_2.
  - intros e Hst Hds Hcoll. subst r.
    unfold rank_and_summarize_resume_items. by rewrite Hst, Hds, Hcoll.
  - intros collection Hst Hds Hcoll Hid. subst r.
    unfold rank_and_summarize_resume_items. rewrite Hst, Hds, Hcoll. simpl.
    by rewrite Hid.
Qed.

Lemma requests_total_bound (l : list (list event)) :
  Forall (fun t => (length (requests t) <= 3)%nat) l ->
  (length (mjoin (requests <$> l)) <= 3 * length l)%nat.
Proof.
  induction 1 as [|t l Ht _ IH]; [simpl; lia|].
  change (mjoin (requests <$> (t :: l))) with (requests t ++ mjoin (requests <$> l)).
  rewrite length_app. simpl length. lia.
Qed.

(** Whatever the stored documents and whatever the endpoint does, one
    request runs at most five summarization tasks, sends at most fifteen
    requests to the endpoint, and a successful response holds at most five
    entries in all. *)
Theorem fan_out_bounded (sv : services)
    (resume_id job_description current_user_id : pystr) :
  let r := rank_and_summarize_resume_items sv resume_id job_description current_user_id in
  (length (tasks_of r.2) <= 5)%nat
  /\ (requests_sent r.2 <= 15)%nat
  /\ forall body, r.1 = OK body ->
       (length (top_work_experiences body) + length (top_projects body) <= 5)%nat.
Proof.
  intros r. subst r.
  destruct (handler_steps sv resume_id job_description current_user_id)
    as [[H Hno]|[[H Hempty]|(rd & cands & _ & Hb & H)]].
  - rewrite H. cbn. split; [lia|]. split; [lia|].
    intros body Hr. by destruct (Hno body).
  - rewrite H. cbn. split; [lia|]. split; [lia|].
    intros body Hr. rewrite (Hempty body Hr). simpl. lia.
  - rewrite H. cbn [fst snd].
    destruct (rank_and_summarize_steps sv job_description cands)
      as (tw & tp & Hw & Hp & Hsteps & Hbody).
    rewrite Hsteps.
    set (tasks := summarize_tasks _ _ tw tp).
    assert (Htasks : tasks_of (Fetch resume_id
                       :: [Encode [job_description];
                           Encode ((fun c : candidate => c.2) <$> cands); CosSim;
                           Summarize (snd <$> tasks)]) = snd <$> tasks).
    { unfold tasks_of. cbn. by rewrite app_nil_r. }
    assert (Hlen : length tasks = (length tw + length tp)%nat).
    { subst tasks. unfold summarize_tasks. by rewrite length_app, !length_imap. }
    split; [rewrite Htasks, length_fmap; lia|].
    split.
    + unfold requests_sent. rewrite Htasks.
      assert (Hall : Forall (fun t => (length (requests t) <= 3)%nat) (snd <$> tasks)).
      { apply Forall_fmap, Forall_forall. intros t Ht. subst tasks.
        unfold summarize_tasks in Ht.
        apply elem_of_app in Ht as [Ht|Ht];
          apply elem_of_lookup_imap in Ht as (i & it & -> & _);
          apply summarize_item_requests_bounded. }
      pose proof (requests_total_bound _ Hall) as Hb'.
      rewrite length_fmap in Hb'. lia.
    + intros body Hr. specialize (Hbody body Hr). lia.
Qed.

Lemma score_items_category_length (category : string) (cosine_scores : nat -> Qc)
    (cands : list candidate) :
  length (filter (fun x : ranked => x.1.2 = category) (score_items cosine_scores cands))
  = length (filter (fun c : candidate => c.1.1 = category) cands).
Proof.
  unfold score_items. revert cosine_scores.
  induction cands as [|c cands IH]; intros cosine_scores; [done|].
  rewrite imap_cons, !filter_cons. cbn [fst snd].
  specialize (IH (cosine_scores ∘ S)).
  destruct (decide (c.1.1 = category)); simpl; [f_equal|]; exact IH.
Qed.

Lemma entries_of_rank_length (category : string) (cosine_scores : nat -> Qc)
    (cands : list candidate) :
  length (entries_of category (rank cosine_scores cands))
  = length (filter (fun c : candidate => c.1.1 = category) cands).
Proof.
  unfold entries_of, rank.
  rewrite (Permutation_length
             (filter_Permutation _ _ _ (sort_reverse_perm ranked_score _))).
  apply score_items_category_length.
Qed.

Lemma collect_categories (category other : string) (items : list item)
    (cands : list candidate) :
  collect category items = Return cands ->
  length cands = length items
  /\ length (filter (fun c : candidate => c.1.1 = category) cands) = length items
  /\ (other <> category ->
      length (filter (fun c : candidate => c.1.1 = other) cands) = 0%nat).
Proof.
  revert cands. induction items as [|it rest IH]; intros cands; simpl.
  - by intros [= <-].
  - destruct (join_value _ _) as [text|e]; simpl; [|done].
    destruct (collect category rest) as [tail|e]; simpl; [|done].
    intros [= <-]. destruct (IH tail eq_refl) as (H1 & H2 & H3).
    rewrite !filter_cons. cbn [fst snd length].
    rewrite decide_True by done. cbn [length].
    split; [by rewrite H1|]. split; [by rewrite H2|].
    intros Hne. rewrite decide_False by done. by apply H3.
Qed.

Lemma response_sizes_stored (sv : services)
    (resume_id job_description current_user_id : pystr) (rd : resume_data) :
  accepted sv resume_id current_user_id rd -> stored_resume rd = true ->
  exists body steps,
    rank_and_summarize_resume_items sv resume_id job_description current_user_id
    = (OK body, steps)
    /\ length (top_work_experiences body)
       = (2 `min` length (default [] (rd_work_experience rd)))%nat
    /\ length (top_projects body)
       = (3 `min` length (default [] (rd_projects rd)))%nat.
Proof.
  intros Hacc Hrd.
  destruct (pipeline_response sv resume_id job_description current_user_id rd Hacc Hrd)
    as (_ & _ & _ & _ & fw & fp & steps & Hres & H1 & H2).
  exists {| top_work_experiences := fw; top_projects := fp |}, steps.
  split; [exact Hres|]. cbn [top_work_experiences top_projects].
  apply Forall2_length in H1, H2. rewrite <- H1, <- H2.
  unfold task_items. cbn [fst snd]. rewrite !length_imap.
  unfold selection.
  destruct (build_items_to_rank_stored rd Hrd) as (cands & Hb & _).
  rewrite Hb, select_spec. cbn [fst snd].
  rewrite !length_fmap, !length_take, !entries_of_rank_length.
  unfold build_items_to_rank in Hb.
  destruct (collect "Work Ex" _) as [cw|e] eqn:Hw; simpl in Hb; [|done].
  destruct (collect "Project" _) as [cp|e] eqn:Hp; simpl in Hb; [|done].
  injection Hb as <-.
  destruct (collect_categories "Work Ex" "Project" _ _ Hw) as (_ & Hw1 & Hw2).
  destruct (collect_categories "Project" "Work Ex" _ _ Hp) as (_ & Hp1 & Hp2).
  rewrite !filter_app, !length_app, Hw1, Hp1, Hw2, Hp2 by done.
  split; f_equal; lia.
Qed.

(** For an accepted request on a stored résumé, the response holds
    exactly [min 2 n] work experiences and [min 3 m] projects, [n] and [m]
    being the numbers of work experiences and of projects of the résumé:
    nothing is dropped below the caps and nothing is padded. *)
Theorem response_sizes (sv : services)
    (resume_id job_description current_user_id : pystr) (rd : resume_data) :
  accepted sv resume_id current_user_id rd -> stored_resume rd = true ->
  exists body steps,
    rank_and_summarize_resume_items sv resume_id job_description current_user_id
    = (OK body, steps)
    /\ length (top_work_experiences body)
       = (2 `min` length (default [] (rd_work_experience rd)))%nat
    /\ length (top_projects body)
       = (3 `min` length (default [] (rd_projects rd)))%nat.
Proof. apply response_sizes_stored. Qed.

Lemma collect_error (category : string) (items : list item) (e : exn) :
  collect category items = Raise e -> e = TypeError.
Proof.
  induction items as [|it rest IH]; simpl; [done|].
  destruct (get it "description_bullets" (VList [])); simpl;
    try (by intros [= <-]);
    destruct (collect category rest); simpl; try done; intros [= <-]; by apply IH.
Qed.

Lemma collect_null (category : string) (items : list item) (it : item) :
  it ∈ items -> it !! "description_bullets" = Some VNone ->
  collect category items = Raise TypeError.
Proof.
  intros Hin Hnull. induction items as [|x rest IH]; [by apply elem_of_nil in Hin|].
  apply elem_of_cons in Hin as [<-|Hin]; simpl.
  - unfold get. by rewrite Hnull.
  - rewrite (IH Hin). by destruct (get x "description_bullets" (VList [])).
Qed.

(** The bullets of a stored item may be absent but not null. An item
    without a [description_bullets] key is ranked on the empty text; an
    item whose [description_bullets] is [None], which the stored model
    allows, makes the request fail with a [TypeError] raised outside the
    handler's [try], after the fetch and before any embedding. *)
Theorem null_bullets_uncaught (sv : services)
    (resume_id job_description current_user_id : pystr) (rd : resume_data) (it : item) :
  accepted sv resume_id current_user_id rd ->
  it ∈ default [] (rd_work_experience rd) ++ default [] (rd_projects rd) ->
  (it !! "description_bullets" = Some VNone ->
   rank_and_summarize_resume_items sv resume_id job_description current_user_id
   = (Uncaught TypeError, [Fetch resume_id]))
  /\ (it !! "description_bullets" = None ->
      forall category, collect category [it] = Return [(category, it, [])]).
Proof.
  intros (Hst & Hds & Hid & Hfind & Huser) Hin. split.
  - intros Hnull. unfold rank_and_summarize_resume_items.
    destruct (find_one_collection sv resume_id rd Hfind) as (coll & Hcoll & Hdoc).
    rewrite Hst, Hds, Hcoll. simpl. rewrite Hid, Hdoc. simpl.
    assert (is_empty_dict rd = false) as ->.
    { unfold is_empty_dict. rewrite Huser.
      by destruct (rd_work_experience rd), (rd_projects rd). }
    rewrite Huser. simpl. rewrite bool_decide_eq_true_2 by done. simpl.
    assert (build_items_to_rank rd = Raise TypeError) as ->; [|done].
    unfold build_items_to_rank. apply elem_of_app in Hin as [Hin|Hin].
    + by rewrite (collect_null "Work Ex" _ it Hin Hnull).
    + rewrite (collect_null "Project" _ it Hin Hnull).
      destruct (collect "Work Ex" _) as [cw|e] eqn:Hw; simpl; [done|].
      by rewrite (collect_error _ _ _ Hw).
  - intros Hmiss category. simpl. unfold get. by rewrite Hmiss.
Qed.

(** ** Creating a résumé *)

Lemma transform_experience_spec (uuid4 : nat -> pystr) (n : nat)
    (l : list IngestExperience) :
  let r := transform_experience uuid4 n l in
  r.2 = (n + length r.1)%nat
  /\ Forall2 (fun it exp =>
                it !! "job_title" = Some (dump_optional (ix_role exp))
                /\ it !! "company_name" = Some (dump_optional (ix_company exp))
                /\ it !! "start_date" = Some (dump_optional (ix_start exp))
                /\ it !! "end_date" = Some (dump_optional (ix_end exp))
                /\ it !! "description_bullets" = Some (VList (experience_bullets exp)))
             r.1 (List.filter kept_experience l)
  /\ (fun it : item => it !! "work_ex_id") <$> r.1
     = (fun k => Some (VStr (lit "work-" ++ uuid4 k))) <$> seq n (length r.1)
  /\ forallb stored_work_experience r.1 = true.
Proof.
  revert n. induction l as [|exp rest IH]; intros n; simpl.
  - repeat split; [lia|constructor].
  - unfold kept_experience at 1.
    destruct (given (ix_company exp)) eqn:Hc; simpl; [|apply IH].
    destruct (given (ix_role exp)) eqn:Hr; simpl; [|apply IH].
    specialize (IH (S n)).
    destruct (transform_experience uuid4 (S n) rest) as [tail n'].
    cbn [fst snd length] in *. destruct IH as (H1 & H2 & H3 & H4).
    split; [lia|]. split; [|split].
    + constructor; [|exact H2]. by repeat split.
    + rewrite fmap_cons. cbn [seq]. rewrite fmap_cons, H3. f_equal.
    + cbn [forallb]. rewrite H4, andb_true_r.
      destruct (ix_company exp) as [[|? ?]|]; try done.
      destruct (ix_role exp) as [[|? ?]|]; try done.
      by destruct (ix_start exp), (ix_end exp).
Qed.

Lemma transform_projects_spec (uuid4 : nat -> pystr) (n : nat) (l : list IngestProject) :
  let r := transform_projects uuid4 n l in
  r.2 = (n + length r.1)%nat
  /\ Forall2 (fun it proj =>
                it !! "project_name" = Some (dump_optional (ij_title proj))
                /\ it !! "description_bullets" = Some (VList (project_bullets proj)))
             r.1 (List.filter kept_project l)
  /\ (fun it : item => it !! "project_id") <$> r.1
     = (fun k => Some (VStr (lit "proj-" ++ uuid4 k))) <$> seq n (length r.1)
  /\ forallb stored_project r.1 = true.
Proof.
  revert n. induction l as [|proj rest IH]; intros n; simpl.
  - repeat split; [lia|constructor].
  - unfold kept_project at 1.
    destruct (given (ij_title proj)) eqn:Ht; simpl; [|apply IH].
    specialize (IH (S n)).
    destruct (transform_projects uuid4 (S n) rest) as [tail n'].
    cbn [fst snd length] in *. destruct IH as (H1 & H2 & H3 & H4).
    split; [lia|]. split; [|split].
    + constructor; [|exact H2]. by repeat split.
    + rewrite fmap_cons. cbn [seq]. rewrite fmap_cons, H3. f_equal.
    + cbn [forallb]. rewrite H4, andb_true_r.
      by destruct (ij_title proj) as [[|? ?]|].
Qed.

(** What [create_resume] does to the collection. *)
Lemma create_resume_cases (uuid4 : nat -> pystr) (existing : bool)
    (insert : resume_document -> insert_outcome)
    (payload : IngestResume) (current_user_id : pystr) :
  let r := create_resume uuid4 existing insert payload current_user_id in
  (has_personal payload = false /\ r = (Failure 422, []))
  \/ (has_personal payload = true /\ existing = true
      /\ r = (Failure 409, [FindByUser current_user_id]))
  \/ (has_personal payload = true /\ existing = false
      /\ exists d n1 n2,
           r.2 = [FindByUser current_user_id; InsertOne d]
           /\ r.1 = match insert d with
                    | Acknowledged inserted_id =>
                        Created (lit "Resume created successfully") inserted_id
                    | NotAcknowledged | InsertError _ => Failure 500
                    end
           /\ doc_user_id d = current_user_id
           /\ doc_work_experience d
              = (transform_experience uuid4 n1 (ir_experience payload)).1
           /\ doc_projects d = (transform_projects uuid4 n2 (ir_projects payload)).1
           /\ exists personal,
                ir_personal payload = Some personal
                /\ (doc_first_name d, doc_last_name d)
                   = split_once SPACE (strip (ip_name personal))).
Proof.
  unfold create_resume, has_personal.
  destruct (ir_personal payload) as [personal|]; [|by left].
  destruct (bool_decide (ip_name personal = [])); simpl; [by left|].
  destruct (bool_decide (ip_email personal = [])); simpl; [by left|].
  destruct existing; [by right; left|].
  right. right. split; [done|]. split; [done|].
  destruct (transform_education _ _ _) as [te n1].
  destruct (transform_experience _ _ _) as [tw n2] eqn:Hw.
  destruct (transform_projects _ _ _) as [tp n3] eqn:Hp.
  destruct (transform_skills _ _ _) as [ts n4].
  eexists _, n1, n2. rewrite Hw, Hp.
  split; [by destruct (insert _)|]. split; [by destruct (insert _)|].
  repeat split. exists personal. split; [done|]. simpl.
  by destruct (split_once _ _).
Qed.

(** [create_resume] touches the collection only as far as it has to: a
    payload without a name and an e-mail is refused (422) before any
    call; a user who already has a résumé is refused (409) after the
    look-up, without an insertion; otherwise one document, carrying the
    identifier of the caller, is inserted after the look-up, and nothing
    else is done to the collection: the request is a success, with the
    identifier of the insertion, when the insertion is acknowledged, and
    a failure (500) when it is not or when it raises. So an insertion is
    made only for a complete payload of a user without a résumé, exactly
    once, and the request is a success exactly when that insertion is
    acknowledged. *)
Theorem create_resume_inserts_once (uuid4 : nat -> pystr) (existing : bool)
    (insert : resume_document -> insert_outcome)
    (payload : IngestResume) (current_user_id : pystr) :
  let r := create_resume uuid4 existing insert payload current_user_id in
  (has_personal payload = false -> r = (Failure 422, []))
  /\ (has_personal payload = true -> existing = true ->
      r = (Failure 409, [FindByUser current_user_id]))
  /\ (has_personal payload = true -> existing = false ->
      exists d,
        r.2 = [FindByUser current_user_id; InsertOne d]
        /\ doc_user_id d = current_user_id
        /\ r.1 = match insert d with
                 | Acknowledged inserted_id =>
                     Created (lit "Resume created successfully") inserted_id
                 | NotAcknowledged | InsertError _ => Failure 500
                 end)
  /\ (forall d, InsertOne d ∈ r.2 ->
        has_personal payload = true /\ existing = false
        /\ r.2 = [FindByUser current_user_id; InsertOne d]
        /\ doc_user_id d = current_user_id)
  /\ (forall message inserted_id,
        r.1 = Created message inserted_id <->
        exists d, InsertOne d ∈ r.2 /\ insert d = Acknowledged inserted_id
                  /\ message = lit "Resume created successfully").
Proof.
  intros r. subst r.
  destruct (create_resume_cases uuid4 existing insert payload current_user_id)
    as [[Hp ->]|[(Hp & He & ->)|(Hp & He & d & n1 & n2 & H2 & H1 & Hu & _)]].
  - split; [done|]. split; [by rewrite Hp|]. split; [by rewrite Hp|]. split.
    + intros d Hd. by apply elem_of_nil in Hd.
    + intros m i. split; [done|]. intros (d & Hd & _). by apply elem_of_nil in Hd.
  - split; [by rewrite Hp|]. split; [done|]. split; [by rewrite He|]. split.
    + intros d Hd. apply list_elem_of_singleton in Hd. discriminate.
    + intros m i. split; [done|]. intros (d & Hd & _).
      apply list_elem_of_singleton in Hd. discriminate.
  - split; [by rewrite Hp|]. split; [by rewrite He|].
    split; [intros _ _; by exists d|].
    assert (Hin : forall d', InsertOne d' ∈
                    (create_resume uuid4 existing insert payload current_user_id).2 ->
                    d' = d).
    { intros d'. rewrite H2. intros [?|Hd]%elem_of_cons; [done|].
      apply list_elem_of_singleton in Hd. by injection Hd. }
    split.
    + intros d' ->%Hin. by rewrite H2.
    + intros m i. rewrite H1. split.
      * intros Hc. exists d. split; [rewrite H2; by right; left|].
        destruct (insert d); try done. by injection Hc as <- <-.
      * intros (d' & ->%Hin & -> & ->). done.
Qed.

Lemma inserted_document (uuid4 : nat -> pystr) (existing : bool)
    (insert : resume_document -> insert_outcome)
    (payload : IngestResume) (current_user_id : pystr) (d : resume_document) :
  InsertOne d ∈ (create_resume uuid4 existing insert payload current_user_id).2 ->
  exists n1 n2 personal,
    doc_user_id d = current_user_id
    /\ doc_work_experience d = (transform_experience uuid4 n1 (ir_experience payload)).1
    /\ doc_projects d = (transform_projects uuid4 n2 (ir_projects payload)).1
    /\ (n1 + length (doc_work_experience d) <= n2)%nat
    /\ ir_personal payload = Some personal
    /\ (doc_first_name d, doc_last_name d) = split_once SPACE (strip (ip_name personal)).
Proof.
  unfold create_resume.
  destruct (ir_personal payload) as [personal|]; [|by intros ?%elem_of_nil].
  destruct (_ || _); [by intros ?%elem_of_nil|].
  destruct existing.
  { intros H%list_elem_of_singleton. discriminate. }
  destruct (transform_education _ _ _) as [te n1].
  pose proof (transform_experience_spec uuid4 n1 (ir_experience payload)) as (Hn2 & _).
  destruct (transform_experience _ _ _) as [tw n2] eqn:Hw.
  destruct (transform_projects _ _ _) as [tp n3] eqn:Hp.
  destruct (transform_skills _ _ _) as [ts n4].
  intros Hd.
  assert (Hd' : InsertOne d ∈ [FindByUser current_user_id;
                   InsertOne {| doc_user_id := current_user_id;
                                doc_email := ip_email personal;
                                doc_first_name := (split_once SPACE (strip (ip_name personal))).1;
                                doc_last_name := (split_once SPACE (strip (ip_name personal))).2;
                                doc_phone := ip_phone personal;
                                doc_linkedin_url := ip_linkedin personal;
                                doc_portfolio_url := ip_github personal;
                                doc_work_experience := tw;
                                doc_projects := tp;
                                doc_education := te;
                                doc_skills := ts |}]).
  { by destruct (insert _). }
  apply elem_of_cons in Hd' as [?|Hd']; [done|].
  apply list_elem_of_singleton in Hd'. injection Hd' as ->.
  exists n1, n2, personal. cbn [doc_user_id doc_work_experience doc_projects
                                 doc_first_name doc_last_name fst snd] in *.
  rewrite ?Hw, ?Hp. cbn [fst].
  split; [done|]. split; [done|]. split; [done|]. split; [lia|]. split; [done|].
  by destruct (split_once _ _).
Qed.

(** A résumé made by [create_resume] is fit for ranking: every stored
    work experience and project has the fields and the list of bullets the
    ranking endpoint relies on, and the document belongs to its author. So
    a later ranking request of the author on that document is answered
    with a success, holding [min 2 n] work experiences and [min 3 m]
    projects, [n] and [m] counting the payload's experiences with a
    company and a role and its projects with a title. *)
Theorem created_resume_is_rankable (uuid4 : nat -> pystr) (existing : bool)
    (insert : resume_document -> insert_outcome)
    (payload : IngestResume) (current_user_id : pystr) (d : resume_document) :
  InsertOne d ∈ (create_resume uuid4 existing insert payload current_user_id).2 ->
  stored_resume (projection d) = true
  /\ forall sv resume_id job_description,
       ST_MODEL_LOADED sv = true -> DEEPSEEK_MODEL_LOADED sv = true ->
       ObjectId_is_valid sv resume_id = true ->
       find_one sv resume_id = Some (projection d) ->
       exists body steps,
         rank_and_summarize_resume_items sv resume_id job_description current_user_id
         = (OK body, steps)
         /\ length (top_work_experiences body)
            = (2 `min` length (List.filter kept_experience (ir_experience payload)))%nat
         /\ length (top_projects body)
            = (3 `min` length (List.filter kept_project (ir_projects payload)))%nat.
Proof.
  intros Hd.
  destruct (inserted_document _ _ _ _ _ _ Hd) as (n1 & n2 & personal & Hu & Hw & Hp & _).
  destruct (transform_experience_spec uuid4 n1 (ir_experience payload))
    as (_ & Hfw & _ & Hsw).
  destruct (transform_projects_spec uuid4 n2 (ir_projects payload))
    as (_ & Hfp & _ & Hsp).
  rewrite <- Hw in Hfw, Hsw. rewrite <- Hp in Hfp, Hsp.
  assert (Hst : stored_resume (projection d) = true).
  { unfold stored_resume, projection. simpl. by rewrite Hsw, Hsp. }
  split; [exact Hst|].
  intros sv resume_id job_description H1 H2 H3 H4.
  destruct (response_sizes_stored sv resume_id job_description current_user_id
              (projection d)) as (body & steps & Hres & Hlw & Hlp); [|exact Hst|].
  { repeat split; try done. simpl. by rewrite Hu. }
  exists body, steps. split; [exact Hres|].
  simpl in Hlw, Hlp.
  by rewrite Hlw, Hlp, (Forall2_length _ _ _ Hfw), (Forall2_length _ _ _ Hfp).
Qed.

(** The stored work experiences are, in the order of the payload, its
    experiences that have both a company and a role, the others being
    skipped; each carries the role as job title, the company, the dates,
    no location, and as bullets the lines of the description followed by
    the lines of the achievements. Likewise the stored projects are the
    payload's projects that have a title. *)
Theorem created_items_follow_payload (uuid4 : nat -> pystr) (existing : bool)
    (insert : resume_document -> insert_outcome)
    (payload : IngestResume) (current_user_id : pystr) (d : resume_document) :
  InsertOne d ∈ (create_resume uuid4 existing insert payload current_user_id).2 ->
  Forall2 (fun it exp =>
             it !! "job_title" = Some (dump_optional (ix_role exp))
             /\ it !! "company_name" = Some (dump_optional (ix_company exp))
             /\ it !! "start_date" = Some (dump_optional (ix_start exp))
             /\ it !! "end_date" = Some (dump_optional (ix_end exp))
             /\ it !! "description_bullets" = Some (VList (experience_bullets exp)))
          (doc_work_experience d) (List.filter kept_experience (ir_experience payload))
  /\ Forall2 (fun it proj =>
                it !! "project_name" = Some (dump_optional (ij_title proj))
                /\ it !! "description_bullets" = Some (VList (project_bullets proj)))
             (doc_projects d) (List.filter kept_project (ir_projects payload)).
Proof.
  intros Hd.
  destruct (inserted_document _ _ _ _ _ _ Hd) as (n1 & n2 & personal & _ & Hw & Hp & _).
  rewrite Hw, Hp. split.
  - apply transform_experience_spec.
  - apply transform_projects_spec.
Qed.

Lemma join_cons_head (sep : pystr) (c : N) (l : pystr) (ls : list pystr) :
  join sep ((c :: l) :: ls) = c :: join sep (l :: ls).
Proof. by destruct ls. Qed.

(** Joining the pieces of a split gives the text back. *)
Lemma join_split (sep : N) (s : pystr) : join [sep] (split sep s) = s.
Proof.
  induction s as [|c r IH]; [done|]. simpl.
  destruct (N.eqb_spec c sep) as [->|Hne].
  - pose proof (split_nonempty sep r) as Hn.
    destruct (split sep r) as [|l ls]; [done|].
    change (join [sep] ([] :: l :: ls)) with ([] ++ [sep] ++ join [sep] (l :: ls)).
    by rewrite IH.
  - destruct (split sep r) as [|l ls] eqn:Hs; [by destruct (split_nonempty sep r)|].
    by rewrite join_cons_head, IH.
Qed.

Lemma split_line (sep : N) (x s : pystr) :
  sep ∉ x -> split sep (x ++ sep :: s) = x :: split sep s.
Proof.
  induction x as [|c x IH]; intros Hx; simpl.
  - by rewrite N.eqb_refl.
  - destruct (N.eqb_spec c sep) as [->|Hne]; [by destruct Hx; left|].
    rewrite IH; [done|]. intros H. apply Hx. by right.
Qed.

Lemma split_single (sep : N) (x : pystr) : sep ∉ x -> split sep x = [x].
Proof.
  induction x as [|c x IH]; intros Hx; simpl; [done|].
  destruct (N.eqb_spec c sep) as [->|Hne]; [by destruct Hx; left|].
  rewrite IH; [done|]. intros H. apply Hx. by right.
Qed.

(** Splitting what was joined from single lines gives the lines back. *)
Lemma split_join (sep : N) (l : list pystr) :
  l <> [] -> Forall (fun x => sep ∉ x) l -> split sep (join [sep] l) = l.
Proof.
  intros Hne Hl. induction Hl as [|x l Hx Hl IH]; [done|].
  destruct l as [|y l']; [by apply split_single|].
  change (join [sep] (x :: y :: l')) with (x ++ sep :: join [sep] (y :: l')).
  rewrite split_line by done. by rewrite IH.
Qed.

Lemma join_app (sep : pystr) (l1 l2 : list pystr) :
  l1 <> [] -> l2 <> [] -> join sep (l1 ++ l2) = join sep l1 ++ sep ++ join sep l2.
Proof.
  intros H1 H2. induction l1 as [|x l1 IH]; [done|].
  destruct l1 as [|y l1'].
  - simpl. by destruct l2.
  - change (join sep ((x :: y :: l1') ++ l2))
      with (x ++ sep ++ join sep ((y :: l1') ++ l2)).
    rewrite IH by done.
    change (join sep (x :: y :: l1')) with (x ++ sep ++ join sep (y :: l1')).
    by rewrite <- !app_assoc.
Qed.

(** The bullets [create_resume] derives from an experience are single
    lines, and the text [summarize_item] joins from them is the stripped
    description, then the stripped achievements, each when given, one line
    feed between them; splitting that text gives the bullets back. *)
Theorem created_bullets_round_trip (exp : IngestExperience) :
  let d := strip (default [] (ix_description exp)) in
  let a := strip (default [] (ix_achievements exp)) in
  (forall b, b ∈ experience_bullets exp -> LF ∉ b)
  /\ join [LF] (experience_bullets exp)
     = (if given (ix_description exp)
        then if given (ix_achievements exp) then d ++ [LF] ++ a else d
        else if given (ix_achievements exp) then a else [])
  /\ (experience_bullets exp <> [] ->
      split LF (join [LF] (experience_bullets exp)) = experience_bullets exp).
Proof.
  intros d a.
  assert (Hlines : forall b, b ∈ experience_bullets exp -> LF ∉ b).
  { unfold experience_bullets. intros b [Hb|Hb]%elem_of_app.
    - destruct (given (ix_description exp)); [|by apply elem_of_nil in Hb].
      by apply (split_no_sep LF _ b) in Hb.
    - destruct (given (ix_achievements exp)); [|by apply elem_of_nil in Hb].
      by apply (split_no_sep LF _ b) in Hb. }
  split; [exact Hlines|]. split.
  - unfold experience_bullets. fold d a.
    destruct (given (ix_description exp)), (given (ix_achievements exp)).
    + rewrite join_app by apply split_nonempty. by rewrite !join_split.
    + by rewrite app_nil_r, join_split.
    + rewrite app_nil_l. by rewrite join_split.
    + done.
  - intros Hne. apply split_join; [done|]. by apply Forall_forall.
Qed.

Lemma split_once_spec (sep : N) (s : pystr) :
  (sep ∉ (split_once sep s).1)
  /\ s = (split_once sep s).1
         ++ match (split_once sep s).2 with Some r => sep :: r | None => [] end.
Proof.
  induction s as [|c r [IH1 IH2]]; simpl.
  - split; [apply not_elem_of_nil|done].
  - destruct (N.eqb_spec c sep) as [->|Hne]; simpl.
    + split; [apply not_elem_of_nil|done].
    + destruct (split_once sep r) as [x y]. simpl in *.
      split; [|by rewrite <- IH2].
      intros [?|H]%elem_of_cons; [done|by apply IH1].
Qed.

(** The stored first name holds no space, and first name and last name
    put together with one space give back the stripped name of the
    payload; there is no last name exactly when the stripped name holds no
    space. *)
Theorem created_name_split (uuid4 : nat -> pystr) (existing : bool)
    (insert : resume_document -> insert_outcome)
    (payload : IngestResume) (current_user_id : pystr) (d : resume_document) :
  InsertOne d ∈ (create_resume uuid4 existing insert payload current_user_id).2 ->
  exists personal,
    ir_personal payload = Some personal
    /\ (SPACE ∉ doc_first_name d)
    /\ strip (ip_name personal)
       = doc_first_name d
         ++ match doc_last_name d with Some l => SPACE :: l | None => [] end
    /\ (doc_last_name d = None <-> SPACE ∉ strip (ip_name personal)).
Proof.
  intros Hd.
  destruct (inserted_document _ _ _ _ _ _ Hd)
    as (n1 & n2 & personal & _ & _ & _ & _ & Hp & Hname).
  exists personal. split; [done|].
  destruct (split_once_spec SPACE (strip (ip_name personal))) as [H1 H2].
  rewrite <- Hname in H1, H2. simpl in H1, H2.
  split; [done|]. split; [done|].
  rewrite H2. destruct (doc_last_name d) as [l|].
  - split; [done|]. intros H. destruct H. apply elem_of_app. right. by left.
  - split; [|done]. intros _. by rewrite app_nil_r.
Qed.

Lemma prefixed_ids_NoDup (prefix : pystr) (uuid4 : nat -> pystr) (n len : nat) :
  (forall i j, uuid4 i = uuid4 j -> i = j) ->
  NoDup ((fun k => Some (VStr (prefix ++ uuid4 k))) <$> seq n len).
Proof.
  intros Hinj. apply NoDup_fmap_2_strong; [|apply NoDup_seq].
  intros i j _ _ [= H%app_inv_head]. by apply Hinj.
Qed.

(** When the identifiers drawn are pairwise distinct, so are the
    identifiers of the stored work experiences and those of the stored
    projects; and an identifier of a work experience never equals an
    identifier of a project, whatever is drawn. *)
Theorem created_identifiers_distinct (uuid4 : nat -> pystr) (existing : bool)
    (insert : resume_document -> insert_outcome)
    (payload : IngestResume) (current_user_id : pystr) (d : resume_document) :
  InsertOne d ∈ (create_resume uuid4 existing insert payload current_user_id).2 ->
  ((forall i j, uuid4 i = uuid4 j -> i = j) ->
   NoDup ((fun it : item => it !! "work_ex_id") <$> doc_work_experience d)
   /\ NoDup ((fun it : item => it !! "project_id") <$> doc_projects d))
  /\ forall w p, w ∈ doc_work_experience d -> p ∈ doc_projects d ->
       w !! "work_ex_id" <> p !! "project_id".
Proof.
  intros Hd.
  destruct (inserted_document _ _ _ _ _ _ Hd) as (n1 & n2 & personal & _ & Hw & Hp & _).
  destruct (transform_experience_spec uuid4 n1 (ir_experience payload))
    as (_ & _ & Hiw & _).
  destruct (transform_projects_spec uuid4 n2 (ir_projects payload))
    as (_ & _ & Hip & _).
  rewrite <- Hw in Hiw. rewrite <- Hp in Hip. split.
  - intros Hinj. rewrite Hiw, Hip. split; by apply prefixed_ids_NoDup.
  - intros w p Hwin Hpin Heq.
    assert (H1 : w !! "work_ex_id"
                 ∈ (fun it : item => it !! "work_ex_id") <$> doc_work_experience d)
      by (apply list_elem_of_fmap; eauto).
    assert (H2 : p !! "project_id"
                 ∈ (fun it : item => it !! "project_id") <$> doc_projects d)
      by (apply list_elem_of_fmap; eauto).
    rewrite Hiw in H1. rewrite Hip in H2.
    apply list_elem_of_fmap in H1 as (i & Hi & _).
    apply list_elem_of_fmap in H2 as (j & Hj & _).
    rewrite Heq, Hj in Hi. injection Hi as Hi. vm_compute in Hi. discriminate.
Qed.

(** ** The standalone script *)

Lemma pauses_app (tr1 tr2 : list script_event) :
  pauses (tr1 ++ tr2) = (pauses tr1 + pauses tr2)%nat.
Proof. unfold pauses. by rewrite List.filter_app, length_app. Qed.

Lemma process_work_experiences_spec (create : nat -> endpoint) (n i : nat)
    (items acc : list item) (ti to : N) :
  let run := process_work_experiences create n i items acc ti to in
  forall out ti' to',
    run.1 = Return (out, ti', to') ->
    out = acc ++ imap (fun k it => written_work_ex it (summarize_work_ex create (i + k) it).1)
                      items
    /\ ((i + length items)%nat = n -> pauses run.2 = (length items - 1)%nat).
Proof.
  revert i acc ti to. induction items as [|work_ex rest IH]; intros i acc ti to run.
  - subst run. simpl. intros out ti' to' [= <- _ _]. by rewrite app_nil_r.
  - subst run. cbn [process_work_experiences]. rewrite imap_cons, Nat.add_0_r.
    destruct (summarize_work_ex create i work_ex) as [[sm|e] tr] eqn:Hs; [|done].
    cbn [fst written_work_ex].
    assert (Hext : imap ((fun k it => written_work_ex it
                            (summarize_work_ex create (i + k) it).1) ∘ S) rest
                   = imap (fun k it => written_work_ex it
                             (summarize_work_ex create (S i + k) it).1) rest).
    { apply imap_ext. intros k it _. simpl. by rewrite Nat.add_succ_r. }
    rewrite Hext.
    assert (Hpause : (i + length (work_ex :: rest))%nat = n ->
              pauses (if (i <? n - 1)%nat then [Pause] else [])
              = (if length rest is O then 0 else 1)%nat).
    { simpl. intros <-. destruct rest; simpl.
      - rewrite (proj2 (Nat.ltb_ge _ _)); [done|lia].
      - rewrite (proj2 (Nat.ltb_lt _ _)); [done|lia]. }
    destruct (success sm).
    + specialize (IH (S i) (acc ++ [work_ex_result work_ex (bullets sm)])
                     (ti + input_tokens sm)%N (to + output_tokens sm)%N).
      destruct (process_work_experiences _ _ _ _ _ _ _) as [r' tr'].
      cbn [fst snd] in *. intros out ti' to' Hr.
      destruct (IH out ti' to' Hr) as [-> Hp]. split; [by rewrite <- app_assoc|].
      intros Hn. change (Summarized tr :: ?p ++ tr') with ([Summarized tr] ++ p ++ tr').
      rewrite !pauses_app, (Hpause Hn), Hp by (simpl in Hn; lia).
      simpl. destruct rest; simpl; lia.
    + specialize (IH (S i) (acc ++ [work_ex]) ti to).
      destruct (process_work_experiences _ _ _ _ _ _ _) as [r' tr'].
      cbn [fst snd] in *. intros out ti' to' Hr.
      destruct (IH out ti' to' Hr) as [-> Hp]. split; [by rewrite <- app_assoc|].
      intros Hn. change (Summarized tr :: ?p ++ tr') with ([Summarized tr] ++ p ++ tr').
      rewrite !pauses_app, (Hpause Hn), Hp by (simpl in Hn; lia).
      simpl. destruct rest; simpl; lia.
Qed.

Lemma process_projects_spec (create : nat -> endpoint) (offset n i : nat)
    (items acc : list item) (ti to : N) :
  let run := process_projects create offset n i items acc ti to in
  forall out ti' to',
    run.1 = Return (out, ti', to') ->
    out = acc ++ imap (fun k it => written_project it
                                     (summarize_project create offset (i + k) it).1)
                      items
    /\ ((i + length items)%nat = n -> pauses run.2 = (length items - 1)%nat).
Proof.
  revert i acc ti to. induction items as [|project rest IH]; intros i acc ti to run.
  - subst run. simpl. intros out ti' to' [= <- _ _]. by rewrite app_nil_r.
  - subst run. cbn [process_projects]. rewrite imap_cons, Nat.add_0_r.
    destruct (summarize_project create offset i project) as [[sm|e] tr] eqn:Hs; [|done].
    cbn [fst written_project].
    assert (Hext : imap ((fun k it => written_project it
                            (summarize_project create offset (i + k) it).1) ∘ S) rest
                   = imap (fun k it => written_project it
                             (summarize_project create offset (S i + k) it).1) rest).
    { apply imap_ext. intros k it _. simpl. by rewrite Nat.add_succ_r. }
    rewrite Hext.
    assert (Hpause : (i + length (project :: rest))%nat = n ->
              pauses (if (i <? n - 1)%nat then [Pause] else [])
              = (if length rest is O then 0 else 1)%nat).
    { simpl. intros <-. destruct rest; simpl.
      - rewrite (proj2 (Nat.ltb_ge _ _)); [done|lia].
      - rewrite (proj2 (Nat.ltb_lt _ _)); [done|lia]. }
    destruct (success sm).
    + specialize (IH (S i) (acc ++ [project_result project (bullets sm)])
                     (ti + input_tokens sm)%N (to + output_tokens sm)%N).
      destruct (process_projects _ _ _ _ _ _ _ _) as [r' tr'].
      cbn [fst snd] in *. intros out ti' to' Hr.
      destruct (IH out ti' to' Hr) as [-> Hp]. split; [by rewrite <- app_assoc|].
      intros Hn. change (Summarized tr :: ?p ++ tr') with ([Summarized tr] ++ p ++ tr').
      rewrite !pauses_app, (Hpause Hn), Hp by (simpl in Hn; lia).
      simpl. destruct rest; simpl; lia.
    + specialize (IH (S i) (acc ++ [project]) ti to).
      destruct (process_projects _ _ _ _ _ _ _ _) as [r' tr'].
      cbn [fst snd] in *. intros out ti' to' Hr.
      destruct (IH out ti' to' Hr) as [-> Hp]. split; [by rewrite <- app_assoc|].
      intros Hn. change (Summarized tr :: ?p ++ tr') with ([Summarized tr] ++ p ++ tr').
      rewrite !pauses_app, (Hpause Hn), Hp by (simpl in Hn; lia).
      simpl. destruct rest; simpl; lia.
Qed.

(** The script drops no item. When it completes, it has written one entry
    per work experience and one per project, in the order of the input:
    the rebuilt entry with the new bullets where the summarization
    succeeded, the item as it was read where it failed. It has paused once
    between two consecutive items of a list, and not after the last. *)
Theorem script_keeps_every_item (data : input_data) (create : nat -> endpoint)
    (report : script_report) (tr : list script_event) :
  main (Some data) create = (Return (Some report), tr) ->
  let work_experiences := default [] (in_top_work_experiences data) in
  let projects := default [] (in_top_projects data) in
  out_work_experiences report
  = imap (fun i it => written_work_ex it (summarize_work_ex create i it).1) work_experiences
  /\ out_projects report
     = imap (fun i it => written_project it
                           (summarize_project create (length work_experiences) i it).1)
            projects
  /\ length (out_work_experiences report) = length work_experiences
  /\ length (out_projects report) = length projects
  /\ pauses tr = ((length work_experiences - 1) + (length projects - 1))%nat.
Proof.
  intros Hmain. cbv zeta. unfold main in Hmain.
  set (work_experiences := default [] (in_top_work_experiences data)) in *.
  set (projects := default [] (in_top_projects data)) in *.
  clearbody work_experiences projects.
  assert (Hbody :
    (let '(rw, trw) := process_work_experiences create (length work_experiences) 0
                         work_experiences [] 0%N 0%N in
     match rw with
     | Raise e => (Raise e, trw)
     | Return (sw, ti, to) =>
         let '(rp, trp) := process_projects create (length work_experiences)
                             (length projects) 0 projects [] ti to in
         match rp with
         | Raise e => (Raise e, trw ++ trp)
         | Return (sp, ti', to') =>
             (Return (Some {| out_work_experiences := sw; out_projects := sp;
                              out_input_tokens := ti'; out_output_tokens := to' |}),
              trw ++ trp)
         end
     end) = (Return (Some report), tr)).
  { destruct work_experiences as [|w ws]; [|exact Hmain].
    destruct projects as [|p ps]; [discriminate|exact Hmain]. }
  clear Hmain.
  pose proof (process_work_experiences_spec create (length work_experiences) 0
                work_experiences [] 0%N 0%N) as Hws.
  destruct (process_work_experiences _ _ _ _ _ _ _) as [[[[sw ti] to]|e] trw]; [|done].
  destruct (Hws sw ti to eq_refl) as [-> Hpw]. clear Hws.
  pose proof (process_projects_spec create (length work_experiences) (length projects) 0
                projects [] ti to) as Hps.
  destruct (process_projects _ _ _ _ _ _ _ _) as [[[[sp ti'] to']|e] trp]; [|done].
  destruct (Hps sp ti' to' eq_refl) as [-> Hpp]. clear Hps.
  injection Hbody as <- <-. cbn [out_work_experiences out_projects fst snd] in *.
  rewrite ?app_nil_l, !length_imap, pauses_app, Hpw, Hpp by done.
  repeat split.
Qed.

Lemma standalone_down (create : endpoint) (title : value) (l : list pystr)
    (item_type : pystr) :
  always_fails create ->
  exists e tr,
    summarize_description_bullets create title (VList l) item_type
    = (Return (failed_summary e), tr).
Proof.
  intros Hf. unfold summarize_description_bullets. cbn [join_value].
  rewrite call_sync_async.
  destruct (Hf 0%nat) as [e0 H0]; [unfold max_retries; lia|].
  destruct (Hf 1%nat) as [e1 H1]; [unfold max_retries; lia|].
  destruct (Hf 2%nat) as [e2 H2]; [unfold max_retries; lia|].
  unfold call_deepseek_api_async. simpl. rewrite H0, H1, H2. by eexists _, _.
Qed.

Lemma process_work_experiences_down (create : nat -> endpoint) (n i : nat)
    (items acc : list item) (ti to : N) :
  (forall k, always_fails (create k)) ->
  Forall (fun it => exists l, get it "description_bullets" (VList []) = VList l) items ->
  exists tr,
    process_work_experiences create n i items acc ti to
    = (Return (acc ++ items, ti, to), tr).
Proof.
  intros Hdown Hl. revert i acc.
  induction Hl as [|it rest [l Hit] _ IH]; intros i acc.
  - exists []. simpl. by rewrite app_nil_r.
  - cbn [process_work_experiences]. unfold summarize_work_ex. rewrite Hit.
    destruct (standalone_down (create i)
                (VStr (format_value (get it "job_title" (VStr (lit "Job " ++ decimal (i + 1))))
                       ++ lit " at " ++ format_value (get it "company_name" (VStr []))))
                l (lit "work experience") (Hdown i)) as (e & tr & ->).
    cbn [success failed_summary].
    destruct (IH (S i) (acc ++ [it])) as [tr' ->].
    eexists. by rewrite <- app_assoc.
Qed.

Lemma process_projects_down (create : nat -> endpoint) (offset n i : nat)
    (items acc : list item) (ti to : N) :
  (forall k, always_fails (create k)) ->
  Forall (fun it => exists l, get it "description_bullets" (VList []) = VList l) items ->
  exists tr,
    process_projects create offset n i items acc ti to
    = (Return (acc ++ items, ti, to), tr).
Proof.
  intros Hdown Hl. revert i acc.
  induction Hl as [|it rest [l Hit] _ IH]; intros i acc.
  - exists []. simpl. by rewrite app_nil_r.
  - cbn [process_projects]. unfold summarize_project. rewrite Hit.
    destruct (standalone_down (create (offset + i)%nat)
                (get it "project_name" (VStr (lit "Project " ++ decimal (i + 1))))
                l (lit "project") (Hdown (offset + i)%nat)) as (e & tr & ->).
    cbn [success failed_summary].
    destruct (IH (S i) (acc ++ [it])) as [tr' ->].
    eexists. by rewrite <- app_assoc.
Qed.

(** When the endpoint is down for every item, the script still completes
    and writes its input back unchanged, with token totals of zero
    (the bullets of every item being a list, or absent). *)
Theorem script_falls_back_to_input (data : input_data) (create : nat -> endpoint) :
  let work_experiences := default [] (in_top_work_experiences data) in
  let projects := default [] (in_top_projects data) in
  (forall k, always_fails (create k)) ->
  Forall (fun it => exists l, get it "description_bullets" (VList []) = VList l)
         (work_experiences ++ projects) ->
  work_experiences ++ projects <> [] ->
  exists tr,
    main (Some data) create
    = (Return (Some {| out_work_experiences := work_experiences;
                       out_projects := projects;
                       out_input_tokens := 0; out_output_tokens := 0 |}), tr).
Proof.
  intros work_experiences projects Hdown Hl Hne.
  apply Forall_app in Hl as [Hlw Hlp].
  destruct (process_work_experiences_down create (length work_experiences) 0
              work_experiences [] 0%N 0%N Hdown Hlw) as [trw Hw].
  destruct (process_projects_down create (length work_experiences) (length projects) 0
              projects [] 0%N 0%N Hdown Hlp) as [trp Hp].
  exists (trw ++ trp). unfold main.
  change (default [] (in_top_work_experiences data)) with work_experiences.
  change (default [] (in_top_projects data)) with projects.
  clearbody work_experiences projects.
  destruct work_experiences as [|w ws].
  - destruct projects as [|p ps]; [done|]. by rewrite Hw, Hp.
  - by rewrite Hw, Hp.
Qed.

(** ** The database client *)

Lemma apply_operation_consistent (self : DatabaseClient) (op : db_operation) :
  consistent self -> consistent (apply_operation self op).1.
Proof.
  intros [->|[uri ->]]; destruct op as [env|env|env|]; simpl;
    unfold get_resume_collection, get_database, connect, close; simpl;
    try (destruct (given (MONGO_URI env)); simpl);
    try (destruct (mongo env); simpl);
    try (by left); try (right; by eexists).
Qed.

Lemma after_consistent (ops : list db_operation) : consistent (after ops).
Proof.
  unfold after. assert (H : consistent db_client) by by left.
  revert H. generalize db_client.
  induction ops as [|op ops IH]; intros self H; [done|].
  simpl. by apply IH, apply_operation_consistent.
Qed.

(** Whatever operations were performed before, in whatever environments,
    the client and the database of the singleton are set together or not at
    all. Hence [get_database] hands out a database or raises, never
    [None], and [get_resume_collection] never fails on a missing
    database. *)
Theorem database_client_consistent (ops : list db_operation) (env : environment) :
  let self := after ops in
  (dbc_client self = None <-> dbc_db self = None)
  /\ (get_database env self).1.1 <> DbOk None
  /\ (get_resume_collection env self).1.1 <> DbError NotSubscriptable
  /\ (forall db, (get_database env self).1.1 = DbOk (Some db) -> db = lit "ResumeDB").
Proof.
  intros self. subst self.
  destruct (after_consistent ops) as [->|[uri ->]].
  - split; [done|].
    unfold get_resume_collection, get_database, connect. simpl.
    destruct (given (MONGO_URI env)); simpl; [|by repeat split].
    destruct (mongo env); simpl; repeat split; try done; by intros db [= <-].
  - split; [done|]. simpl. repeat split; try done. by intros db [= <-].
Qed.

(** Once connected, the client does not talk to the driver again until it
    is closed: [get_database] and [get_resume_collection] answer from the
    stored database, in any environment, even one where [MONGO_URI] has
    gone; [connect] does nothing either, but still raises when [MONGO_URI]
    is missing. *)
Theorem database_connects_once (ops : list db_operation) (env : environment) :
  let self := after ops in
  dbc_client self <> None ->
  get_database env self = (DbOk (Some (lit "ResumeDB")), self, [])
  /\ get_resume_collection env self = (DbOk (lit "ResumeDB", lit "resumes"), self, [])
  /\ connect env self
     = (if given (MONGO_URI env) then DbOk tt else DbError MissingUri, self, [])
  /\ forall op, op <> Close -> apply_operation self op = (self, []).
Proof.
  intros self Hc. subst self.
  destruct (after_consistent ops) as [H|[uri H]]; rewrite H in *; [done|].
  split; [done|]. split; [done|]. split.
  - unfold connect. simpl. by destruct (given (MONGO_URI env)).
  - intros [env'|env'|env'|] Hop; try done; simpl;
      unfold connect; simpl; by destruct (given (MONGO_URI env')).
Qed.
End Pipeline.

(** * The properties on the sample data *)

(** The sample request selects [sample_w1] (0.9) and [sample_w2] (0.5),
    and the project. *)
Lemma sample_selection :
  selection (sample_services sample_resume) sample_job sample_resume
  = ([<["score" := VFloat (Q2Qc (9 # 10))]> sample_w1;
      <["score" := VFloat (Q2Qc (5 # 10))]> sample_w2],
     [<["score" := VFloat (Q2Qc (7 # 10))]> sample_p1]).
Proof. vm_compute. reflexivity. Qed.



(** C2, on an endpoint that is down: three requests, waits of 1 and 2,
    and the last error raised. *)
Lemma C2_retry_backoff_witness :
  (call_deepseek_api_async true down []).1 = Raise boom
  /\ length (requests (call_deepseek_api_async true down []).2) = 3%nat
  /\ sleeps (call_deepseek_api_async true down []).2 = [1; 2]%N.
Proof.
  destruct (proj1 (C2_retry_backoff down []) boom boom boom eq_refl eq_refl eq_refl)
    as (H & _ & Hn & Hs).
  rewrite H. split; [reflexivity|]. split; [exact Hn|exact Hs].
Defined.

(** The claim as stated fails: there is no third wait of 4 units. *)
Lemma C2_no_wait_of_four :
  (forall k, down k = Failed boom)
  /\ sleeps (call_deepseek_api_async true down []).2 <> [1; 2; 4]%N
  /\ sleeps (call_deepseek_api down [] deepseek_chat).2 <> [1; 2; 4]%N.
Proof. split; [done|]. split; vm_compute; discriminate. Qed.

Lemma sample_ranking_descending : descending ranked_score sample_ranking.
Proof.
  unfold descending, sample_ranking.
  repeat constructor; unfold ranked_score, Qcle, Qle; simpl; lia.
Qed.

(** C3, on a ranking of three work experiences (0.9, 0.5, 0.2) and one
    project: the two best work experiences and the project are selected. *)
Lemma C3_select_top_k_witness :
  descending ranked_score sample_ranking
  /\ select sample_ranking = ([sample_w1; sample_w2], [sample_p1])
  /\ (forall y, y ∈ drop 2 (entries_of "Work Ex" sample_ranking) ->
                (ranked_score y <= Q2Qc (5 # 10))%Qc).
Proof.
  split; [exact sample_ranking_descending|].
  destruct (C3_select_top_k sample_ranking)
    as (_ & _ & Hw & Hp & _ & _ & _ & Hall & Hsorted).
  split.
  - rewrite (surjective_pairing (select sample_ranking)), Hw, (Hall ltac:(vm_compute; lia)).
    reflexivity.
  - destruct (Hsorted sample_ranking_descending) as (Hbest & _).
    intros y Hy.
    apply (Hbest (Q2Qc (5 # 10), "Work Ex", sample_w2) y); [|exact Hy].
    vm_compute. apply list_elem_of_further, list_elem_of_here.
Defined.

(** C4, on the sample text, on a text with a line of glyphs only, and on
    a task whose endpoint answers the sample text. *)
Lemma C4_parse_bullet_lines_witness :
  strip (lit "Improved Y") = lit "Improved Y"
  /\ [] ∈ parse_bullet_lines (lit "- Built X" ++ [LF] ++ lit " -* ")
  /\ (summarize_item ascii_capitalize unused_repr true (answers sample_text) sample_w1
        (lit "work experience")).1
     = Return (<["description_bullets" :=
                   VList [lit "Built X"; lit "Improved Y"; lit "Led Z"]]> sample_w1).
Proof.
  destruct (C4_parse_bullet_lines ascii_capitalize unused_repr)
    as (_ & Hempty & _ & Hstrip & Hex & Hrepl).
  fold sample_text in Hex. split; [|split].
  - apply (Hstrip sample_text).
    rewrite Hex. apply list_elem_of_further, list_elem_of_here.
  - apply (Hempty (lit "- Built X" ++ [LF] ++ lit " -* ")).
    exists (lit " -*"). split; [|split].
    + vm_compute. apply list_elem_of_further, list_elem_of_here.
    + vm_compute. discriminate.
    + vm_compute. repeat constructor.
  - rewrite <- Hex.
    apply (Hrepl (answers sample_text) sample_w1 (lit "work experience")
                 [lit "Built the billing service"]
                 {| message_content := Some sample_text; prompt_tokens := 120;
                    completion_tokens := 30; total_tokens := 150 |} sample_text);
      [reflexivity|discriminate|reflexivity|reflexivity].
Defined.

(** The claim as stated fails: a line that is empty once its glyph is
    stripped is not discarded, it leaves an empty bullet behind. *)
Lemma C4_glyph_line_not_discarded :
  parse_bullet_lines (lit "- Built X" ++ [LF] ++ lit "-") = [lit "Built X"; []]
  /\ spec_parse_bullet_lines (lit "- Built X" ++ [LF] ++ lit "-") = [lit "Built X"]
  /\ parse_bullet_lines (lit "- Built X" ++ [LF] ++ lit "-")
     <> spec_parse_bullet_lines (lit "- Built X" ++ [LF] ++ lit "-").
Proof. split; [|split]; vm_compute; [reflexivity|reflexivity|discriminate]. Qed.


(** C7, with the embedding model missing. *)
Lemma C7_preconditions_witness :
  ST_MODEL_LOADED services_without_model = false
  /\ rank_and_summarize_resume_items ascii_capitalize unused_repr
       services_without_model sample_id sample_job sample_user
     = (HTTPException 503, []).
Proof.
  split; [reflexivity|].
  apply (C7_preconditions ascii_capitalize unused_repr services_without_model
           sample_id sample_job sample_user).
  left. reflexivity.
Defined.

(** C8, on the sample request. *)
Lemma C8_reassemble_by_identifier_witness :
  accepted (sample_services sample_resume) sample_id sample_user sample_resume
  /\ stored_resume sample_resume = true
  /\ exists body steps,
       rank_and_summarize_resume_items ascii_capitalize unused_repr
         (sample_services sample_resume) sample_id sample_job sample_user
       = (OK body, steps)
       /\ w_work_ex_id <$> top_work_experiences body = [lit "work-1"; lit "work-2"]
       /\ w_score <$> top_work_experiences body = [Q2Qc (9 # 10); Q2Qc (5 # 10)]
       /\ p_project_id <$> top_projects body = [lit "proj-1"]
       /\ p_score <$> top_projects body = [Q2Qc (7 # 10)].
Proof.
  assert (Hacc : accepted (sample_services sample_resume) sample_id sample_user
                          sample_resume) by (repeat split; reflexivity).
  split; [exact Hacc|]. split; [reflexivity|].
  destruct (C8_reassemble_by_identifier ascii_capitalize unused_repr
              (sample_services sample_resume) sample_id sample_job sample_user
              sample_resume Hacc eq_refl)
    as ((body & steps & Hres & Hw & Hp & _) & _).
  exists body, steps. split; [exact Hres|].
  rewrite sample_selection in Hw, Hp. cbn [fst snd] in Hw, Hp.
  destruct body as [fw fp]. cbn [top_work_experiences top_projects] in *.
  inversion Hw as [|? w1 ? fw1 [Hi1 Hs1] Hw1]; subst.
  inversion Hw1 as [|? w2 ? fw2 [Hi2 Hs2] Hw2]; subst.
  inversion Hw2; subst.
  inversion Hp as [|? p1 ? fp1 [Hj1 Ht1] Hp1]; subst.
  inversion Hp1; subst.
  change (Some (VStr (lit "work-1")) = Some (VStr (w_work_ex_id w1))) in Hi1.
  change (Some (VStr (lit "work-2")) = Some (VStr (w_work_ex_id w2))) in Hi2.
  change (Some (VStr (lit "proj-1")) = Some (VStr (p_project_id p1))) in Hj1.
  change (Some (VFloat (Q2Qc (9 # 10))) = Some (VFloat (w_score w1))) in Hs1.
  change (Some (VFloat (Q2Qc (5 # 10))) = Some (VFloat (w_score w2))) in Hs2.
  change (Some (VFloat (Q2Qc (7 # 10))) = Some (VFloat (p_score p1))) in Ht1.
  injection Hi1 as Hi1. injection Hi2 as Hi2. injection Hj1 as Hj1.
  injection Hs1 as Hs1. injection Hs2 as Hs2. injection Ht1 as Ht1.
  cbn [fmap list_fmap]. rewrite <- Hi1, <- Hi2, <- Hj1, <- Hs1, <- Hs2, <- Ht1.
  repeat split; reflexivity.
Defined.

(** C9, on a résumé with no work experience and no project. *)
Lemma C9_empty_resume_witness :
  rank_and_summarize_resume_items ascii_capitalize unused_repr
    (sample_services empty_resume) sample_id sample_job sample_user
  = (OK {| top_work_experiences := []; top_projects := [] |}, [Fetch sample_id]).
Proof.
  apply (C9_empty_resume ascii_capitalize unused_repr (sample_services empty_resume)
           sample_id sample_job sample_user empty_resume); reflexivity.
Defined.

(** C10, on [sample_w2] and an endpoint that fails once and then answers. *)
Lemma C10_backend_standalone_agree_witness :
  requests (summarize_item ascii_capitalize unused_repr true flaky sample_w2 (lit "work experience")).2
  = requests (summarize_description_bullets ascii_capitalize unused_repr flaky
                (item_title unused_repr sample_w2 (lit "work experience"))
                (VList [lit "Ran the data pipeline"; lit "Led a team"])
                (lit "work experience")).2.
Proof.
  apply (C10_backend_standalone_agree ascii_capitalize unused_repr flaky sample_w2
           (lit "work experience") [lit "Ran the data pipeline"; lit "Led a team"]);
    [reflexivity|discriminate].
Defined.

(** The claim as stated fails on an empty bullet list: the backend returns
    the item untouched and sends nothing, the standalone summarizer sends
    the request and reports the parsed answer. *)
Lemma C10_empty_bullets_differ :
  sample_w3 !! "description_bullets" = Some (VList [])
  /\ requests (summarize_item ascii_capitalize unused_repr true (answers (lit "Led Z"))
                 sample_w3 (lit "work experience")).2 = []
  /\ length (requests (summarize_description_bullets ascii_capitalize unused_repr
                         (answers (lit "Led Z"))
                         (item_title unused_repr sample_w3 (lit "work experience"))
                         (VList []) (lit "work experience")).2) = 1%nat
  /\ (summarize_item ascii_capitalize unused_repr true (answers (lit "Led Z")) sample_w3
        (lit "work experience")).1
     = Return sample_w3
  /\ exists sm,
       (summarize_description_bullets ascii_capitalize unused_repr (answers (lit "Led Z"))
          (item_title unused_repr sample_w3 (lit "work experience"))
          (VList []) (lit "work experience")).1 = Return sm
       /\ success sm = true /\ bullets sm = [lit "Led Z"].
Proof.
  split; [reflexivity|]. split; [reflexivity|]. split; [reflexivity|].
  split; [reflexivity|]. eexists. split; [reflexivity|]. split; reflexivity.
Qed.

(** Candidates of equal score keep their input order. *)
Example rank_ties_keep_input_order :
  (fun x : ranked => x.1.2) <$>
    rank (fun _ => Q2Qc (1 # 2))
         [("Project", sample_p1, []); ("Work Ex", sample_w1, []); ("Work Ex", sample_w2, [])]
  = ["Project"; "Work Ex"; "Work Ex"].
Proof. vm_compute. reflexivity. Qed.

(** The sample request end to end: the endpoint is down for the first
    work experience, which keeps its bullets, and answers for the second
    one and for the project, whose bullets are rewritten; the third work
    experience, of score 0.2, is left out. *)
Example sample_response :
  let r := rank_and_summarize_resume_items ascii_capitalize unused_repr
             (sample_services sample_resume) sample_id sample_job sample_user in
  (fun body =>
     ((fun w => (w_work_ex_id w, w_description_bullets w, w_score w))
        <$> top_work_experiences body,
      (fun p => (p_project_id p, p_description_bullets p, p_score p))
        <$> top_projects body)) <$> response_body r.1
  = Some ([ (lit "work-1", Some [lit "Built the billing service"], Q2Qc (9 # 10));
            (lit "work-2", Some [lit "Rewrote it"], Q2Qc (5 # 10)) ],
          [ (lit "proj-1", Some [lit "Rewrote it"], Q2Qc (7 # 10)) ]).
Proof. vm_compute. reflexivity. Qed.

(** * The further properties on the sample data *)

Lemma first_completion_wins_witness :
  (call_deepseek_api_async true flaky []).1
  = Return (Some (response_of (answer_of (lit "* Led the team"))))
  /\ length (requests (call_deepseek_api_async true flaky []).2) = 2%nat
  /\ sleeps (call_deepseek_api_async true flaky []).2 = [1%N].
Proof.
  destruct (first_completion_wins flaky [] 1 (answer_of (lit "* Led the team")))
    as (H1 & H2 & H3 & _).
  - unfold max_retries. lia.
  - reflexivity.
  - intros j Hj. exists boom. destruct j; [reflexivity|lia].
  - split; [exact H1|]. split; [exact H2|exact H3].
Defined.

Lemma blank_answer_empties_bullets_witness :
  (summarize_item ascii_capitalize unused_repr true (answers (lit "  ")) sample_w1
     (lit "work experience")).1
  = Return (<["description_bullets" := VList []]> sample_w1).
Proof.
  apply (blank_answer_empties_bullets ascii_capitalize unused_repr (answers (lit "  "))
           sample_w1 (lit "work experience") [lit "Built the billing service"]
           0 (answer_of (lit "  ")) (lit "  "));
    [reflexivity|discriminate|unfold max_retries; lia|reflexivity|lia
    |reflexivity|reflexivity].
Defined.

Lemma bullets_are_single_lines_witness :
  (LF ∉ lit "Improved Y") /\ forall x, x ∈ lit "Improved Y" -> x ∈ sample_text.
Proof.
  apply (bullets_are_single_lines sample_text (lit "Improved Y")).
  vm_compute. apply list_elem_of_further, list_elem_of_here.
Defined.

Lemma standalone_summary_shape_witness :
  exists sm,
    (summarize_description_bullets ascii_capitalize unused_repr (answers sample_text)
       (VStr (lit "Developer at TCS")) (VList [lit "Built the billing service"])
       (lit "work experience")).1 = Return sm
    /\ success sm = true /\ error sm = None.
Proof.
  destruct (standalone_summary_shape ascii_capitalize unused_repr (answers sample_text)
              (VStr (lit "Developer at TCS")) [lit "Built the billing service"]
              (lit "work experience")) as (sm & Hr & Hs & _).
  exists sm. split; [exact Hr|].
  assert (E : success sm = true).
  { assert (E' : (summarize_description_bullets ascii_capitalize unused_repr
                    (answers sample_text) (VStr (lit "Developer at TCS"))
                    (VList [lit "Built the billing service"])
                    (lit "work experience")).1
                 = Return {| bullets := [lit "Built X"; lit "Improved Y"; lit "Led Z"];
                             input_tokens := 120; output_tokens := 30;
                             success := true; error := None |})
      by (vm_compute; reflexivity).
    rewrite E' in Hr. injection Hr as <-. reflexivity. }
  split; [exact E|]. exact (proj1 (Hs E)).
Defined.

Lemma pipeline_runs_only_for_owner_witness :
  rank_and_summarize_resume_items ascii_capitalize unused_repr
    (sample_services sample_resume) sample_id sample_job (lit "user-2")
  = (HTTPException 403, [Fetch sample_id])
  /\ rank_and_summarize_resume_items ascii_capitalize unused_repr
       services_without_database (lit "not-an-id") sample_job sample_user
     = (Uncaught (ExternalError (lit "MONGO_URI not found in environment variables")), [])
  /\ rank_and_summarize_resume_items ascii_capitalize unused_repr
       services_refusing_id (lit "not-an-id") sample_job sample_user
     = (HTTPException 400, []).
Proof.
  split; [|split].
  - apply (proj1 (proj2 (pipeline_runs_only_for_owner ascii_capitalize unused_repr
                           (sample_services sample_resume) sample_id sample_job
                           (lit "user-2")))
             sample_resume (VStr (lit "user-1")));
      [reflexivity|reflexivity|reflexivity|reflexivity|reflexivity|discriminate].
  - apply (proj1 (proj2 (proj2 (pipeline_runs_only_for_owner ascii_capitalize
                                  unused_repr services_without_database
                                  (lit "not-an-id") sample_job sample_user))));
      reflexivity.
  - apply (proj2 (proj2 (proj2 (pipeline_runs_only_for_owner ascii_capitalize
                                  unused_repr services_refusing_id
                                  (lit "not-an-id") sample_job sample_user)))
             (fun _ => Some sample_resume)); reflexivity.
Defined.

Lemma fan_out_bounded_witness :
  exists body,
    (rank_and_summarize_resume_items ascii_capitalize unused_repr
       (sample_services sample_resume) sample_id sample_job sample_user).1 = OK body
    /\ (length (top_work_experiences body) + length (top_projects body) <= 5)%nat.
Proof.
  destruct (fan_out_bounded ascii_capitalize unused_repr (sample_services sample_resume)
              sample_id sample_job sample_user) as (_ & _ & H).
  assert (E : exists body,
             (rank_and_summarize_resume_items ascii_capitalize unused_repr
                (sample_services sample_resume) sample_id sample_job sample_user).1
             = OK body) by (vm_compute; eexists; reflexivity).
  destruct E as [body E]. exists body. split; [exact E|exact (H body E)].
Defined.

Lemma response_sizes_witness :
  accepted (sample_services sample_resume) sample_id sample_user sample_resume
  /\ stored_resume sample_resume = true
  /\ exists body steps,
       rank_and_summarize_resume_items ascii_capitalize unused_repr
         (sample_services sample_resume) sample_id sample_job sample_user
       = (OK body, steps)
       /\ length (top_work_experiences body) = 2%nat
       /\ length (top_projects body) = 1%nat.
Proof.
  assert (Hacc : accepted (sample_services sample_resume) sample_id sample_user
                          sample_resume) by (repeat split; reflexivity).
  split; [exact Hacc|]. split; [reflexivity|].
  exact (response_sizes ascii_capitalize unused_repr (sample_services sample_resume)
           sample_id sample_job sample_user sample_resume Hacc eq_refl).
Defined.

Lemma null_bullets_uncaught_witness :
  sample_null !! "description_bullets" = Some VNone
  /\ rank_and_summarize_resume_items ascii_capitalize unused_repr
       (sample_services null_resume) sample_id sample_job sample_user
     = (Uncaught TypeError, [Fetch sample_id]).
Proof.
  split; [reflexivity|].
  apply (proj1 (null_bullets_uncaught ascii_capitalize unused_repr
                  (sample_services null_resume) sample_id sample_job sample_user
                  null_resume sample_null
                  ltac:(repeat split; reflexivity)
                  ltac:(vm_compute; apply list_elem_of_further, list_elem_of_here))).
  reflexivity.
Defined.

Lemma sample_document_inserted :
  InsertOne sample_document
  ∈ (create_resume sample_uuid4 false sample_insert sample_payload sample_user).2.
Proof. vm_compute. apply list_elem_of_further, list_elem_of_here. Defined.

Lemma create_resume_inserts_once_witness :
  create_resume sample_uuid4 false sample_insert payload_without_personal sample_user
  = (Failure 422, [])
  /\ create_resume sample_uuid4 true sample_insert sample_payload sample_user
     = (Failure 409, [FindByUser sample_user])
  /\ (exists d,
        (create_resume sample_uuid4 false sample_insert sample_payload sample_user).2
        = [FindByUser sample_user; InsertOne d]
        /\ doc_user_id d = sample_user
        /\ (create_resume sample_uuid4 false sample_insert sample_payload sample_user).1
           = Created (lit "Resume created successfully") (lit "67f51b7a216e83d8e1f51f4c"))
  /\ (exists d,
        (create_resume sample_uuid4 false (fun _ => NotAcknowledged) sample_payload
           sample_user).2
        = [FindByUser sample_user; InsertOne d]
        /\ (create_resume sample_uuid4 false (fun _ => NotAcknowledged) sample_payload
              sample_user).1
           = Failure 500)
  /\ (create_resume sample_uuid4 false sample_insert sample_payload sample_user).2
     = [FindByUser sample_user; InsertOne sample_document]
  /\ (create_resume sample_uuid4 false sample_insert sample_payload sample_user).1
     = Created (lit "Resume created successfully") (lit "67f51b7a216e83d8e1f51f4c").
Proof.
  split; [|split; [|split; [|split; [|split]]]].
  - exact (proj1 (create_resume_inserts_once sample_uuid4 false sample_insert
                    payload_without_personal sample_user) eq_refl).
  - exact (proj1 (proj2 (create_resume_inserts_once sample_uuid4 true sample_insert
                           sample_payload sample_user)) eq_refl eq_refl).
  - destruct (create_resume_inserts_once sample_uuid4 false sample_insert
                sample_payload sample_user) as (_ & _ & H & _).
    destruct (H eq_refl eq_refl) as (d & Hd & Hu & Hr).
    exists d. split; [exact Hd|]. split; [exact Hu|exact Hr].
  - destruct (create_resume_inserts_once sample_uuid4 false (fun _ => NotAcknowledged)
                sample_payload sample_user) as (_ & _ & H & _).
    destruct (H eq_refl eq_refl) as (d & Hd & _ & Hr).
    exists d. split; [exact Hd|exact Hr].
  - destruct (create_resume_inserts_once sample_uuid4 false sample_insert
                sample_payload sample_user) as (_ & _ & _ & H & _).
    exact (proj1 (proj2 (proj2 (H sample_document sample_document_inserted)))).
  - destruct (create_resume_inserts_once sample_uuid4 false sample_insert
                sample_payload sample_user) as (_ & _ & _ & _ & H).
    apply H. exists sample_document.
    split; [exact sample_document_inserted|]. split; reflexivity.
Defined.

Lemma created_resume_is_rankable_witness :
  stored_resume (projection sample_document) = true
  /\ exists body steps,
       rank_and_summarize_resume_items ascii_capitalize unused_repr
         (sample_services (projection sample_document)) sample_id sample_job sample_user
       = (OK body, steps)
       /\ length (top_work_experiences body) = 1%nat
       /\ length (top_projects body) = 1%nat.
Proof.
  destruct (created_resume_is_rankable ascii_capitalize unused_repr sample_uuid4 false
              sample_insert sample_payload sample_user sample_document
              sample_document_inserted) as [H1 H2].
  split; [exact H1|].
  exact (H2 (sample_services (projection sample_document)) sample_id sample_job
            eq_refl eq_refl eq_refl eq_refl).
Defined.

Lemma created_items_follow_payload_witness :
  Forall2
    (fun (it : item) (exp : IngestExperience) =>
       it !! "job_title" = Some (dump_optional (ix_role exp))
       /\ it !! "company_name" = Some (dump_optional (ix_company exp))
       /\ it !! "start_date" = Some (dump_optional (ix_start exp))
       /\ it !! "end_date" = Some (dump_optional (ix_end exp))
       /\ it !! "description_bullets" = Some (VList (experience_bullets exp)))
    (doc_work_experience sample_document) [sample_experience].
Proof.
  exact (proj1 (created_items_follow_payload sample_uuid4 false sample_insert
                  sample_payload sample_user sample_document
                  sample_document_inserted)).
Defined.

Lemma created_bullets_round_trip_witness :
  experience_bullets sample_experience
  = [lit "Built the billing service"; lit "Led a team"; lit "Cut costs"]
  /\ split LF (join [LF] (experience_bullets sample_experience))
     = experience_bullets sample_experience.
Proof.
  split; [reflexivity|].
  apply (proj2 (proj2 (created_bullets_round_trip sample_experience))).
  discriminate.
Defined.

Lemma created_name_split_witness :
  exists personal,
    ir_personal sample_payload = Some personal
    /\ (SPACE ∉ doc_first_name sample_document)
    /\ strip (ip_name personal)
       = doc_first_name sample_document
         ++ match doc_last_name sample_document with
            | Some l => SPACE :: l
            | None => []
            end
    /\ (doc_last_name sample_document = None <-> SPACE ∉ strip (ip_name personal)).
Proof.
  exact (created_name_split sample_uuid4 false sample_insert sample_payload
           sample_user sample_document sample_document_inserted).
Defined.

Lemma crowded_document_inserted :
  InsertOne crowded_document
  ∈ (create_resume sample_uuid4 false sample_insert crowded_payload sample_user).2.
Proof. vm_compute. apply list_elem_of_further, list_elem_of_here. Defined.

Lemma created_identifiers_distinct_witness :
  (fun it : item => it !! "work_ex_id") <$> doc_work_experience crowded_document
  = [Some (VStr (lit "work-x")); Some (VStr (lit "work-xx"))]
  /\ (fun it : item => it !! "project_id") <$> doc_projects crowded_document
     = [Some (VStr (lit "proj-xxx")); Some (VStr (lit "proj-xxxx"))]
  /\ NoDup ((fun it : item => it !! "work_ex_id") <$> doc_work_experience crowded_document)
  /\ NoDup ((fun it : item => it !! "project_id") <$> doc_projects crowded_document)
  /\ Forall (fun w : item =>
               Forall (fun p : item => w !! "work_ex_id" <> p !! "project_id")
                      (doc_projects crowded_document))
            (doc_work_experience crowded_document).
Proof.
  destruct (created_identifiers_distinct sample_uuid4 false sample_insert
              crowded_payload sample_user crowded_document
              crowded_document_inserted) as [Hdistinct Hdisjoint].
  assert (Hinj : forall i j, sample_uuid4 i = sample_uuid4 j -> i = j).
  { intros i j H. apply (f_equal length) in H.
    unfold sample_uuid4 in H. rewrite !length_replicate in H. exact H. }
  split; [vm_compute; reflexivity|]. split; [vm_compute; reflexivity|].
  split; [exact (proj1 (Hdistinct Hinj))|]. split; [exact (proj2 (Hdistinct Hinj))|].
  apply Forall_forall. intros w Hw. apply Forall_forall. intros p Hp.
  exact (Hdisjoint w p Hw Hp).
Defined.

Lemma script_keeps_every_item_witness :
  exists report tr,
    main ascii_capitalize unused_repr (Some sample_input) sample_create
    = (Return (Some report), tr)
    /\ length (out_work_experiences report) = 2%nat
    /\ length (out_projects report) = 1%nat
    /\ pauses tr = 1%nat.
Proof.
  assert (E : exists report tr,
             main ascii_capitalize unused_repr (Some sample_input) sample_create
             = (Return (Some report), tr)) by (vm_compute; eexists _, _; reflexivity).
  destruct E as (report & tr & E). exists report, tr. split; [exact E|].
  destruct (script_keeps_every_item ascii_capitalize unused_repr sample_input
              sample_create report tr E) as (_ & _ & H1 & H2 & H3).
  split; [exact H1|]. split; [exact H2|exact H3].
Defined.

Lemma script_falls_back_to_input_witness :
  exists tr,
    main ascii_capitalize unused_repr (Some sample_input) (fun _ => down)
    = (Return (Some {| out_work_experiences := default [] (in_top_work_experiences sample_input);
                       out_projects := default [] (in_top_projects sample_input);
                       out_input_tokens := 0;
                       out_output_tokens := 0 |}), tr).
Proof.
  apply (script_falls_back_to_input ascii_capitalize unused_repr sample_input
           (fun _ => down)).
  - intros k j _. exists boom. reflexivity.
  - repeat constructor; eexists; vm_compute; reflexivity.
  - discriminate.
Defined.

Lemma database_client_consistent_witness :
  exists db,
    (get_database environment_up
       (after [Connect environment_down; GetDatabase environment_up; Close])).1.1
    = DbOk _ (Some db)
    /\ db = lit "ResumeDB".
Proof.
  destruct (database_client_consistent
              [Connect environment_down; GetDatabase environment_up; Close]
              environment_up) as (_ & _ & _ & H).
  assert (E : (get_database environment_up
                 (after [Connect environment_down; GetDatabase environment_up; Close])).1.1
              = DbOk _ (Some (lit "ResumeDB"))) by reflexivity.
  exists (lit "ResumeDB"). split; [exact E|exact (H _ E)].
Defined.

Lemma database_connects_once_witness :
  connect environment_without_uri (after [GetResumeCollection environment_up])
  = (DbError _ MissingUri, after [GetResumeCollection environment_up], [])
  /\ get_resume_collection environment_down (after [GetResumeCollection environment_up])
     = (DbOk _ (lit "ResumeDB", lit "resumes"),
        after [GetResumeCollection environment_up], []).
Proof.
  pose proof (database_connects_once [GetResumeCollection environment_up]
                environment_without_uri) as H.
  pose proof (database_connects_once [GetResumeCollection environment_up]
                environment_down) as H'.
  cbv zeta in H, H'.
  assert (Hc : dbc_client (after [GetResumeCollection environment_up]) <> None)
    by (vm_compute; discriminate).
  destruct (H Hc) as (_ & _ & H3 & _). destruct (H' Hc) as (_ & H2 & _).
  split; [exact H3|exact H2].
Defined.
